(** * GeoDataCheck: the rule-based validation engine

    A shallow embedding of [backend/validation] (base.py, engine.py,
    rules/*.py and the default-registry factory) together with the
    properties of the engine, its result views and its rule catalogue.

    Conventions of the embedding
    - A Python [str] is a Rocq [string] holding its UTF-8 encoding; the
      character-level operations ([strip], [lower], [isdigit], [len], slices)
      work on the decoded code points.  Case mapping, digit and white-space
      classes are those of Python for code points below U+0100 (plus the
      Unicode white space above it); other code points are caseless
      non-digits.
    - A Python [float] is an IEEE-754 binary64 value ([spec_float] with
      precision 53 and maximal exponent 1024); conversions from decimal
      text and from integers are correctly rounded, as CPython's are.
    - A Python [int] is a [Z].  Its decimal text is the one [str] gives
      within the limit CPython 3.11 and later put on the conversion (4300
      digits, [sys.int_max_str_digits]); beyond it [str] raises
      [ValueError], and the properties that depend on the conversion
      returning assume [cells_fit].
    - A [dict] keeps insertion order, so it is an association list whose
      update replaces in place or appends.
    - An exception is a value of [Exception], standing for the classes
      under Python's [Exception] (what the engine's [except] catches); code
      that can raise returns [Raises A].
    - A dataset is seen cell by cell as the rules see it through
      [row[col]]: a cell is missing, an integer, a float or a string, and
      the column names are distinct.
    - A configuration has the documented shape: [columns] maps names to
      names, [options] holds a string under [coordinate_system] and lists
      of column names under [duplicate_key_columns] and [numeric_columns].
      Nothing in the engine checks the shape; bags with values of other
      types are outside [Options]. *)

From Stdlib Require Import ZArith NArith PArith List String Ascii Bool Lia.
From Stdlib Require Import Permutation Sorting.Sorted.
From Stdlib Require Import DecimalString QArith Qround.
From Stdlib Require Import Floats.SpecFloat.
Import ListNotations.

Local Open Scope string_scope.
Local Open Scope list_scope.

(* ================================================================== *)
(** * Exceptions *)

Inductive Exception : Type :=
| ValueError
| TypeError
| OverflowError
| RuntimeError (msg : string).

Inductive Raises (A : Type) : Type :=
| Return (a : A)
| Raise (e : Exception).
Arguments Return {A} a.
Arguments Raise {A} e.

Definition bind {A B : Type} (m : Raises A) (k : A -> Raises B) : Raises B :=
  match m with
  | Return a => k a
  | Raise e => Raise e
  end.

Declare Scope raises_scope.
Delimit Scope raises_scope with raises.
Notation "x <- m ;; k" := (bind m (fun x => k))
  (at level 61, m at next level, right associativity) : raises_scope.

(** [try: m except ValueError: h] *)
Definition except_ValueError {A : Type} (m : Raises A) (h : Raises A) : Raises A :=
  match m with
  | Raise ValueError => h
  | other => other
  end.

(** [try: m except (ValueError, TypeError): h] *)
Definition except_ValueError_TypeError {A : Type} (m : Raises A) (h : Raises A)
  : Raises A :=
  match m with
  | Raise ValueError => h
  | Raise TypeError => h
  | other => other
  end.

(* ================================================================== *)
(** * Python strings *)

Module PyStr.

Local Open Scope N_scope.

Definition bytes (s : string) : list N := map N_of_ascii (list_ascii_of_string s).
Definition of_bytes (bs : list N) : string :=
  string_of_list_ascii (map ascii_of_N bs).

(** UTF-8 decoding; a Python [str] is always well formed, a stray byte is
    kept as it is. *)
Fixpoint utf8_decode (bs : list N) : list N :=
  match bs with
  | [] => []
  | b :: rest =>
    if b <? 0xC0 then b :: utf8_decode rest
    else if b <? 0xE0 then
      match rest with
      | c1 :: r1 => ((b - 0xC0) * 64 + (c1 - 0x80)) :: utf8_decode r1
      | [] => [b]
      end
    else if b <? 0xF0 then
      match rest with
      | c1 :: c2 :: r2 =>
        ((b - 0xE0) * 4096 + (c1 - 0x80) * 64 + (c2 - 0x80)) :: utf8_decode r2
      | _ => b :: utf8_decode rest
      end
    else
      match rest with
      | c1 :: c2 :: c3 :: r3 =>
        ((b - 0xF0) * 262144 + (c1 - 0x80) * 4096 + (c2 - 0x80) * 64 + (c3 - 0x80))
          :: utf8_decode r3
      | _ => b :: utf8_decode rest
      end
  end.

Definition utf8_encode_cp (c : N) : list N :=
  if c <? 0x80 then [c]
  else if c <? 0x800 then [0xC0 + c / 64; 0x80 + c mod 64]
  else if c <? 0x10000 then
    [0xE0 + c / 4096; 0x80 + (c / 64) mod 64; 0x80 + c mod 64]
  else
    [0xF0 + c / 262144; 0x80 + (c / 4096) mod 64; 0x80 + (c / 64) mod 64;
     0x80 + c mod 64].

(** The code points of a string, and back. *)
Definition chars (s : string) : list N := utf8_decode (bytes s).
Definition text (cs : list N) : string := of_bytes (flat_map utf8_encode_cp cs).

(** [len(s)] *)
Definition len (s : string) : nat := List.length (chars s).

(** [c.isspace()] *)
Definition isspace_cp (c : N) : bool :=
  ((0x09 <=? c) && (c <=? 0x0D)) || ((0x1C <=? c) && (c <=? 0x20))
  || (c =? 0x85) || (c =? 0xA0) || (c =? 0x1680)
  || ((0x2000 <=? c) && (c <=? 0x200A)) || (c =? 0x2028) || (c =? 0x2029)
  || (c =? 0x202F) || (c =? 0x205F) || (c =? 0x3000).

Fixpoint lstrip_cps (cs : list N) : list N :=
  match cs with
  | c :: rest => if isspace_cp c then lstrip_cps rest else cs
  | [] => []
  end.

Definition strip_cps (cs : list N) : list N :=
  rev (lstrip_cps (rev (lstrip_cps cs))).

(** [s.strip()] *)
Definition strip (s : string) : string := text (strip_cps (chars s)).

(** [s.lower()] *)
Definition lower_cp (c : N) : N :=
  if ((0x41 <=? c) && (c <=? 0x5A))
     || ((0xC0 <=? c) && (c <=? 0xDE) && negb (c =? 0xD7))
  then c + 32 else c.
Definition lower (s : string) : string := text (map lower_cp (chars s)).

(** [s.upper()]; sharp s becomes two letters, y-diaeresis and micro leave
    Latin-1. *)
Definition upper_cp (c : N) : list N :=
  if (0x61 <=? c) && (c <=? 0x7A) then [c - 32]
  else if (0xE0 <=? c) && (c <=? 0xFE) && negb (c =? 0xF7) then [c - 32]
  else if c =? 0xDF then [0x53; 0x53]
  else if c =? 0xFF then [0x178]
  else if c =? 0xB5 then [0x39C]
  else [c].
Definition upper (s : string) : string := text (flat_map upper_cp (chars s)).

(** [s.isdigit()]: non-empty and every character is a digit; the
    superscripts one, two and three are digits for Python. *)
Definition isdecimal_cp (c : N) : bool := (0x30 <=? c) && (c <=? 0x39).
Definition isdigit_cp (c : N) : bool :=
  isdecimal_cp c || (c =? 0xB2) || (c =? 0xB3) || (c =? 0xB9).
Definition isdigit (s : string) : bool :=
  match chars s with
  | [] => false
  | cs => forallb isdigit_cp cs
  end.

(** [s[:n]] *)
Definition take (n : nat) (s : string) : string := text (firstn n (chars s)).

(** [sub in s] *)
Fixpoint contains (sub s : string) : bool :=
  if prefix sub s then true
  else match s with
       | EmptyString => false
       | String _ rest => contains sub rest
       end.

(** [s.split(sep)] for a one-character separator. *)
Fixpoint split_on (sep : ascii) (s : string) : list string :=
  match s with
  | EmptyString => [EmptyString]
  | String c rest =>
    if Ascii.eqb c sep then EmptyString :: split_on sep rest
    else match split_on sep rest with
         | piece :: pieces => String c piece :: pieces
         | [] => [String c EmptyString]
         end
  end.

(** [sep.join(pieces)] *)
Definition join (sep : string) (pieces : list string) : string :=
  String.concat sep pieces.

(** [x in l] for a list of strings. *)
Definition mem (x : string) (l : list string) : bool :=
  existsb (String.eqb x) l.

(** [str(n)] for an int. *)
Definition str_of_int (z : Z) : string := NilZero.string_of_int (Z.to_int z).

(** The sign and digits of a decimal integer literal, with the single
    underscores Python allows between digits removed: [None] when the text
    is not such a literal. *)
Fixpoint digits_value (acc : Z) (cs : list N) (after_digit : bool) : option Z :=
  match cs with
  | [] => if after_digit then Some acc else None
  | c :: rest =>
    if isdecimal_cp c then digits_value (10 * acc + Z.of_N (c - 0x30)) rest true
    else if (c =? 0x5F) && after_digit then
      match rest with
      | [] => None
      | _ => digits_value acc rest false
      end
    else None
  end.

Definition split_sign (cs : list N) : bool * list N :=
  match cs with
  | 0x2D :: rest => (true, rest)
  | 0x2B :: rest => (false, rest)
  | _ => (false, cs)
  end.

(** [int(s)] for a string. *)
Definition int_of_str (s : string) : Raises Z :=
  let (neg, ds) := split_sign (strip_cps (chars s)) in
  match digits_value 0 ds false with
  | Some v => Return (if neg then (- v)%Z else v)
  | None => Raise ValueError
  end.

End PyStr.

(* ================================================================== *)
(** * Python floats (IEEE-754 binary64) *)


Module PyFloat.

Local Open Scope Z_scope.

Definition prec : Z := 53.
Definition emax : Z := 1024.

Definition float : Type := spec_float.

Definition nan : float := S754_nan.
Definition inf (neg : bool) : float := S754_infinity neg.

Definition same (x y : float) : bool :=
  match x, y with
  | S754_zero a, S754_zero b => Bool.eqb a b
  | S754_infinity a, S754_infinity b => Bool.eqb a b
  | S754_nan, S754_nan => true
  | S754_finite a m e, S754_finite b m' e' =>
    Bool.eqb a b && Pos.eqb m m' && Z.eqb e e'
  | _, _ => false
  end.

Definition is_nan (x : float) : bool :=
  match x with S754_nan => true | _ => false end.

Definition is_finite (x : float) : bool :=
  match x with S754_zero _ | S754_finite _ _ _ => true | _ => false end.

(** The binary64 value nearest to [n / d] (ties to even). *)
Definition of_ratio (neg : bool) (n d : positive) : float :=
  let '(mz, ez, lz) := SFdiv_core_binary prec emax (Zpos n) 0 (Zpos d) 0 in
  binary_round_aux prec emax neg mz ez lz.

Definition of_Q (q : Q) : float :=
  match Qnum q with
  | Z0 => S754_zero false
  | Zpos n => of_ratio false n (Qden q)
  | Zneg n => of_ratio true n (Qden q)
  end.

(** The exact value of a finite float. *)
Definition to_Q (x : float) : Q :=
  match x with
  | S754_finite s m e =>
    let v := if 0 <=? e then inject_Z (Zpos m * 2 ^ e)
             else Qmake (Zpos m) (Z.to_pos (2 ^ (- e))) in
    if s then Qopp v else v
  | _ => 0%Q
  end.

(** [float(n)] for an int: correctly rounded, [OverflowError] beyond the
    range of binary64. *)
Definition float_of_int (z : Z) : Raises float :=
  match binary_normalize prec emax z 0 false with
  | S754_infinity _ => Raise OverflowError
  | f => Return f
  end.

(** An int constant of the source used where a float is expected. *)
Definition lit (z : Z) : float := binary_normalize prec emax z 0 false.

(** [int(x)] for a float: truncation towards zero. *)
Definition int_of_float (x : float) : Raises Z :=
  match x with
  | S754_nan => Raise ValueError
  | S754_infinity _ => Raise OverflowError
  | S754_zero _ => Return 0
  | S754_finite s m e =>
    let v := if 0 <=? e then Zpos m * 2 ^ e else Zpos m / 2 ^ (- e) in
    Return (if s then - v else v)
  end.

(** ** [float(s)] for a string *)

Import PyStr.

(** A maximal run of digits in which single underscores may separate
    digits; [None] when an underscore is misplaced. *)
Fixpoint digit_run (cs : list N) (after_digit : bool) : option (list N * list N) :=
  match cs with
  | [] => Some ([], [])
  | c :: rest =>
    if isdecimal_cp c then
      match digit_run rest true with
      | Some (ds, r) => Some (c :: ds, r)
      | None => None
      end
    else if (c =? 0x5F)%N then
      if after_digit then
        match rest with
        | c2 :: _ => if isdecimal_cp c2 then digit_run rest false else None
        | [] => None
        end
      else None
    else Some ([], cs)
  end.

Definition digits_to_Z (ds : list N) : Z :=
  fold_left (fun acc c => 10 * acc + Z.of_N (c - 0x30)) ds 0.

Definition is_nil {A : Type} (l : list A) : bool :=
  match l with [] => true | _ => false end.

(** Mantissa digits and decimal exponent of
    [digits [. digits] [(e|E) [sign] digits]]. *)
Definition parse_decimal (cs : list N) : option (Z * Z) :=
  match digit_run cs false with
  | None => None
  | Some (ip, r1) =>
    let frac :=
      match r1 with
      | 0x2E%N :: r => digit_run r false
      | _ => Some ([], r1)
      end in
    match frac with
    | None => None
    | Some (fp, r2) =>
      if is_nil ip && is_nil fp then None
      else
        let expo :=
          match r2 with
          | c :: r =>
            if ((c =? 0x65) || (c =? 0x45))%N then
              let (neg, r') := split_sign r in
              match digit_run r' false with
              | Some (ed, r3) =>
                if is_nil ed then None
                else Some ((if neg then - digits_to_Z ed else digits_to_Z ed), r3)
              | None => None
              end
            else Some (0, r2)
          | [] => Some (0, r2)
          end in
        match expo with
        | Some (ex, []) =>
          Some (digits_to_Z (ip ++ fp), ex - Z.of_nat (List.length fp))
        | _ => None
        end
    end
  end.

(** The float nearest to [m * 10 ^ e]. *)
Definition of_decimal (neg : bool) (m e : Z) : float :=
  match m with
  | Zpos p =>
    if 0 <=? e then of_ratio neg (p * Z.to_pos (10 ^ e)) 1
    else of_ratio neg p (Z.to_pos (10 ^ (- e)))
  | _ => S754_zero neg
  end.

Definition float_of_str (s : string) : Raises float :=
  let (neg, body) := split_sign (strip_cps (chars s)) in
  let word := text (map lower_cp body) in
  if String.eqb word "inf" || String.eqb word "infinity" then Return (inf neg)
  else if String.eqb word "nan" then Return nan
  else match parse_decimal body with
       | Some (m, e) => Return (of_decimal neg m e)
       | None => Raise ValueError
       end.

(** ** Comparisons *)

Definition ltb (x y : float) : bool := SFltb x y.
Definition leb (x y : float) : bool := SFleb x y.
Definition eqb (x y : float) : bool := SFeqb x y.

(** Python compares an int with a float by exact value. *)
Definition compare_int (z : Z) (x : float) : option comparison :=
  match x with
  | S754_nan => None
  | S754_infinity s => Some (if s then Gt else Lt)
  | S754_zero _ => Some (z ?= 0)
  | S754_finite s m e =>
    let v := if s then Zneg m else Zpos m in
    Some (if 0 <=? e then z ?= v * 2 ^ e else z * 2 ^ (- e) ?= v)
  end.

Definition int_lt (z : Z) (x : float) : bool :=
  match compare_int z x with Some Lt => true | _ => false end.
Definition int_le (z : Z) (x : float) : bool :=
  match compare_int z x with Some Lt | Some Eq => true | _ => false end.
Definition lt_int (x : float) (z : Z) : bool :=
  match compare_int z x with Some Gt => true | _ => false end.
Definition le_int (x : float) (z : Z) : bool :=
  match compare_int z x with Some Gt | Some Eq => true | _ => false end.
Definition eq_int (x : float) (z : Z) : bool :=
  match compare_int z x with Some Eq => true | _ => false end.

(** ** Arithmetic *)

Definition mul (x y : float) : float := SFmul prec emax x y.
Definition add (x y : float) : float := SFadd prec emax x y.

(** [a / b] for ints ("true division"): correctly rounded quotient. *)
Definition int_truediv (a b : Z) : Raises float :=
  match b with
  | Z0 => Raise (RuntimeError "ZeroDivisionError")
  | _ =>
    match a with
    | Z0 => Return (S754_zero (b <? 0))
    | _ =>
      match of_ratio (negb (Bool.eqb (a <? 0) (b <? 0)))
                     (Z.to_pos (Z.abs a)) (Z.to_pos (Z.abs b)) with
      | S754_infinity _ => Raise OverflowError
      | f => Return f
      end
    end
  end.

(** C's [fmod] on finite operands: the remainder has the sign of [x] and
    is exact. *)
Definition fmod (x y : float) : float :=
  match x, y with
  | S754_nan, _ | _, S754_nan => nan
  | S754_infinity _, _ => nan
  | _, S754_zero _ => nan
  | _, S754_infinity _ => x
  | S754_zero _, _ => x
  | S754_finite sx mx ex, S754_finite _ my ey =>
    let e0 := Z.min ex ey in
    let X := Zpos mx * 2 ^ (ex - e0) in
    let Y := Zpos my * 2 ^ (ey - e0) in
    let r := X mod Y in
    binary_normalize prec emax (if sx then - r else r) e0 sx
  end.

Definition is_negative (x : float) : bool :=
  match x with
  | S754_zero s | S754_infinity s | S754_finite s _ _ => s
  | S754_nan => false
  end.

Definition is_zero (x : float) : bool :=
  match x with S754_zero _ => true | _ => false end.

(** [x % y] for floats. *)
Definition rem (x y : float) : Raises float :=
  if is_zero y then Raise (RuntimeError "ZeroDivisionError")
  else
    let m := fmod x y in
    if is_zero m then Return (S754_zero (is_negative y))
    else if is_nan m then Return m
    else if negb (Bool.eqb (is_negative y) (is_negative m)) then Return (add m y)
    else Return m.

(** ** [repr(x)]: the shortest decimal text that reads back as [x] *)

Definition pow10 (k : Z) : Q := Qpower (inject_Z 10) k.

Definition Qltb (a b : Q) : bool := negb (Qle_bool b a).

(** The least [k] from [k0] on with [x < 10 ^ k]. *)
Fixpoint find_decpt (fuel : nat) (k : Z) (x : Q) : Z :=
  match fuel with
  | O => k
  | S fuel' => if Qltb x (pow10 k) then k else find_decpt fuel' (k + 1) x
  end.

(** For [p] significant digits: the integer [D] with [D * 10 ^ (k - p)]
    nearest to [x] among those that read back as [x], if any. *)
Definition digits_at (x : float) (xq : Q) (k : Z) (p : Z) : option Z :=
  let sh := k - p in
  let y := Qmult xq (pow10 (- sh)) in
  let lo := Qfloor y in
  let hi := lo + 1 in
  let back D := same (of_Q (Qmult (inject_Z D) (pow10 sh))) x in
  let dlo := Qminus y (inject_Z lo) in
  let dhi := Qminus (inject_Z hi) y in
  match back lo, back hi with
  | true, true =>
    if Qltb dlo dhi then Some lo
    else if Qltb dhi dlo then Some hi
    else Some (if Z.even lo then lo else hi)
  | true, false => Some lo
  | false, true => Some hi
  | false, false => None
  end.

Fixpoint shortest_digits (fuel : nat) (x : float) (xq : Q) (k : Z) (p : Z)
  : Z * Z :=
  match fuel with
  | O => (Qfloor (Qmult xq (pow10 (p - k))), p)
  | S fuel' =>
    match digits_at x xq k p with
    | Some D => (D, p)
    | None => shortest_digits fuel' x xq k (p + 1)
    end
  end.

Fixpoint strip_zeros_rev (ds : list ascii) : list ascii :=
  match ds with
  | "0"%char :: rest => strip_zeros_rev rest
  | _ => ds
  end.

Definition zeros (n : Z) : string :=
  string_of_list_ascii (repeat "0"%char (Z.to_nat n)).

(** The digits [d1 d2 ...] and the decimal point position [decpt] with
    [x = 0.d1d2... * 10 ^ decpt], for a positive finite [x]. *)
Definition shortest (x : float) : string * Z :=
  let xq := to_Q x in
  let k := find_decpt 640 (-324) xq in
  let '(D, p) := shortest_digits 17 x xq k 1 in
  let all := list_ascii_of_string (str_of_int D) in
  let decpt := k - p + Z.of_nat (List.length all) in
  (string_of_list_ascii (rev (strip_zeros_rev (rev all))), decpt).

Definition two_digits (z : Z) : string :=
  if z <? 10 then "0" ++ str_of_int z else str_of_int z.

Definition repr_positive (x : float) : string :=
  let '(ds, decpt) := shortest x in
  let nd := Z.of_nat (String.length ds) in
  if (decpt <=? -4) || (16 <? decpt) then
    let e := decpt - 1 in
    let mant :=
      match ds with
      | String d EmptyString => String d EmptyString
      | String d rest => String d ("." ++ rest)
      | EmptyString => ds
      end in
    mant ++ "e" ++ (if e <? 0 then "-" else "+") ++ two_digits (Z.abs e)
  else if decpt <=? 0 then "0." ++ zeros (- decpt) ++ ds
  else if nd <=? decpt then ds ++ zeros (decpt - nd) ++ ".0"
  else substring 0 (Z.to_nat decpt) ds ++ "."
       ++ substring (Z.to_nat decpt) (Z.to_nat (nd - decpt)) ds.

(** [str(x)] and [repr(x)] for a float. *)
Definition repr (x : float) : string :=
  match x with
  | S754_nan => "nan"
  | S754_infinity s => if s then "-inf" else "inf"
  | S754_zero s => if s then "-0.0" else "0.0"
  | S754_finite s m e =>
    (if s then "-" else "") ++ repr_positive (S754_finite false m e)
  end.

(** ** [round(x, 1)] *)

(** The integer nearest to [q], ties to even. *)
Definition round_half_even (q : Q) : Z :=
  let lo := Qfloor q in
  let d := Qminus q (inject_Z lo) in
  match Qcompare d (1 # 2) with
  | Lt => lo
  | Gt => lo + 1
  | Eq => if Z.even lo then lo else lo + 1
  end.

(** [round(x, 1)]: the decimal with one fractional digit nearest to the
    exact value of [x] (ties to even), read back as a float. *)
Definition round1 (x : float) : float :=
  match x with
  | S754_finite s _ _ =>
    match round_half_even (Qmult (to_Q x) (inject_Z 10)) with
    | Z0 => S754_zero s
    | Zpos t => of_ratio false t 10
    | Zneg t => of_ratio true t 10
    end
  | _ => x
  end.

End PyFloat.

(* ================================================================== *)
(** * Datasets and configuration *)

(** A scalar of the dataset: missing ([None]), a number or a string.  A
    missing number is the float NaN. *)
Inductive Cell : Type :=
| CNone
| CInt (z : Z)
| CFloat (x : PyFloat.float)
| CStr (s : string).

(** [pd.isna(v)] *)
Definition isna (v : Cell) : bool :=
  match v with
  | CNone => true
  | CFloat x => PyFloat.is_nan x
  | _ => false
  end.

(** [str(v)].  For an integer this is its decimal text, which CPython 3.11
    and later give up to 4300 digits; for a longer integer [str] raises
    [ValueError].  The definition is the conversion within the limit, and
    [str_fits] below tells whether a cell is within it. *)
Definition str (v : Cell) : string :=
  match v with
  | CNone => "None"
  | CInt z => PyStr.str_of_int z
  | CFloat x => PyFloat.repr x
  | CStr s => s
  end.

(** [float(v)] *)
Definition float_of (v : Cell) : Raises PyFloat.float :=
  match v with
  | CNone => Raise TypeError
  | CInt z => PyFloat.float_of_int z
  | CFloat x => Return x
  | CStr s => PyFloat.float_of_str s
  end.

(** [pd.isna(v) or str(v).strip() == ''] *)
Definition is_blank (v : Cell) : bool :=
  isna v || String.eqb (PyStr.strip (str v)) "".

Definition Row : Type := list Cell.

(** The dataset: ordered column names (taken to be distinct) and ordered
    rows, a row holding one cell per column; the index is the default one,
    so the label of a row is its position. *)
Record DataFrame : Type := {
  df_columns : list string;
  df_rows : list Row
}.

(** [len(df)] *)
Definition df_len (df : DataFrame) : Z := Z.of_nat (List.length (df_rows df)).




Fixpoint position (col : string) (cols : list string) : option nat :=
  match cols with
  | [] => None
  | c :: rest =>
    if String.eqb c col then Some O
    else match position col rest with
         | Some n => Some (S n)
         | None => None
         end
  end.

(** [row[col]] for a column of the dataset (every use in the source is
    behind a membership test); a cell the row lacks is missing. *)
Definition cell (cols : list string) (row : Row) (col : string) : Cell :=
  match position col cols with
  | Some n => nth n row CNone
  | None => CNone
  end.

(** [for idx, row in df.iterrows(): body]: the findings appended by the
    iterations, in order; an exception leaves the loop. *)
Fixpoint for_rows {E : Type} (idx : Z) (rows : list Row)
  (body : Z -> Row -> Raises (list E)) : Raises (list E) :=
  match rows with
  | [] => Return []
  | row :: rest =>
    bind (body idx row) (fun found =>
    bind (for_rows (idx + 1) rest body) (fun more =>
    Return (found ++ more)))
  end.

Definition iterrows {E : Type} (df : DataFrame)
  (body : Z -> Row -> Raises (list E)) : Raises (list E) :=
  for_rows 0 (df_rows df) body.

(** A [dict] with string keys, in insertion order. *)
Definition Dict (V : Type) : Type := list (string * V).

Fixpoint dict_get {V : Type} (d : Dict V) (k : string) : option V :=
  match d with
  | [] => None
  | (k', v) :: rest => if String.eqb k' k then Some v else dict_get rest k
  end.

Fixpoint dict_set {V : Type} (d : Dict V) (k : string) (v : V) : Dict V :=
  match d with
  | [] => [(k, v)]
  | (k', v') :: rest =>
    if String.eqb k' k then (k, v) :: rest else (k', v') :: dict_set rest k v
  end.

Definition dict_keys {V : Type} (d : Dict V) : list string := map fst d.
Definition dict_values {V : Type} (d : Dict V) : list V := map snd d.

(** The recognised keys of the options bag; an absent key is [None].  The
    values have the types the rules expect: a string under
    [coordinate_system], a list of column names under the other two keys.
    The bag reaches the rules as the caller gave it: under
    [duplicate_key_columns] or [numeric_columns] a value that is not a
    list (a number or a string, or [None] under [numeric_columns]) can
    make the rule that walks it raise [TypeError] or [AttributeError],
    which the engine catches like any exception of [validate].  Such bags
    are not values of this record. *)
Record Options : Type := {
  coordinate_system : option string;
  duplicate_key_columns : option (list string);
  numeric_columns : option (list string)
}.

(** The configuration dict: [columns] maps logical to actual column names,
    [options] is the tuning bag; either key may be absent. *)
Record Config : Type := {
  cfg_columns : option (Dict string);
  cfg_options : option Options
}.

(** [config.get('columns', {})] *)
Definition get_columns (config : Config) : Dict string :=
  match cfg_columns config with
  | Some d => d
  | None => []
  end.

Definition empty_options : Options :=
  {| coordinate_system := None; duplicate_key_columns := None;
     numeric_columns := None |}.

(** [config.get('options', {})] *)
Definition get_options (config : Config) : Options :=
  match cfg_options config with
  | Some o => o
  | None => empty_options
  end.

(* ================================================================== *)
(** * base.py *)

Inductive Severity : Type := ERROR | WARNING | INFO.

Definition Severity_value (s : Severity) : string :=
  match s with
  | ERROR => "error"
  | WARNING => "warning"
  | INFO => "info"
  end.

Definition Severity_eqb (a b : Severity) : bool :=
  match a, b with
  | ERROR, ERROR | WARNING, WARNING | INFO, INFO => true
  | _, _ => false
  end.

Inductive Category : Type := ADDRESS | COORDINATES | EGID | GENERAL | CUSTOM.

Definition Category_value (c : Category) : string :=
  match c with
  | ADDRESS => "address"
  | COORDINATES => "coordinates"
  | EGID => "egid"
  | GENERAL => "general"
  | CUSTOM => "custom"
  end.

Definition Category_eqb (a b : Category) : bool :=
  match a, b with
  | ADDRESS, ADDRESS | COORDINATES, COORDINATES | EGID, EGID
  | GENERAL, GENERAL | CUSTOM, CUSTOM => true
  | _, _ => false
  end.

Record ValidationError : Type := {
  row_index : Z;
  column : string;
  rule_id : string;
  rule_name : string;
  severity : Severity;
  message : string;
  value : Cell;
  suggestion : option string
}.

(** The dict [ValidationError.to_dict] builds. *)
Record ErrorDict : Type := {
  d_row_index : Z;
  d_row_number : Z;
  d_column : string;
  d_rule_id : string;
  d_rule_name : string;
  d_severity : string;
  d_message : string;
  d_value : option string;
  d_suggestion : option string
}.

Definition ValidationError_to_dict (e : ValidationError) : ErrorDict :=
  {| d_row_index := row_index e;
     d_row_number := row_index e + 2;
     d_column := column e;
     d_rule_id := rule_id e;
     d_rule_name := rule_name e;
     d_severity := Severity_value (severity e);
     d_message := message e;
     d_value := match value e with
                | CNone => None
                | v => Some (str v)
                end;
     d_suggestion := suggestion e |}.

Record RuleMetadata : Type := {
  id : string;
  name : string;
  name_de : string;
  description : string;
  description_de : string;
  category : Category;
  md_severity : Severity;
  required_columns : list string;
  example_valid : option string;
  example_invalid : option string
}.

(** A rule: its metadata and its two methods.  A rule class may override
    [is_applicable], so the check may raise like any other code.
    [validate] may append to a list held by the configuration, so it
    returns the configuration as it leaves it together with its findings
    or the exception it raised. *)
Record BaseRule : Type := {
  metadata : RuleMetadata;
  is_applicable : DataFrame -> Config -> Raises bool;
  validate : DataFrame -> Config -> Config * Raises (list ValidationError)
}.

(** [BaseRule.is_applicable], the default policy: every required logical
    name, mapped through [columns] or taken as it is, must be a column of
    the dataset. *)
Definition required_present (md : RuleMetadata) (df : DataFrame)
  (config : Config) : bool :=
  let columns := get_columns config in
  forallb (fun required =>
             let actual_col :=
               match dict_get columns required with
               | Some c => c
               | None => required
               end in
             PyStr.mem actual_col (df_columns df))
          (required_columns md).

Definition default_is_applicable (md : RuleMetadata) (df : DataFrame)
  (config : Config) : Raises bool :=
  Return (required_present md df config).

(** [BaseRule.get_column] *)
Definition get_column (df : DataFrame) (config : Config) (logical_name : string)
  : option string :=
  let columns := get_columns config in
  let actual_col :=
    match dict_get columns logical_name with
    | Some c => c
    | None => logical_name
    end in
  if PyStr.mem actual_col (df_columns df) then Some actual_col
  else find (fun col => String.eqb (PyStr.lower col) (PyStr.lower actual_col))
            (df_columns df).

(** A rule whose [validate] only reads the configuration. *)
Definition reads_only (f : DataFrame -> Config -> Raises (list ValidationError))
  : DataFrame -> Config -> Config * Raises (list ValidationError) :=
  fun df config => (config, f df config).

(* ================================================================== *)
(** * rules/address.py *)

(** [sorted(l)] for strings (code-point order, which UTF-8 preserves). *)
Fixpoint insert_sorted (x : string) (l : list string) : list string :=
  match l with
  | [] => [x]
  | y :: rest => if String.leb x y then x :: l else y :: insert_sorted x rest
  end.

Definition sorted (l : list string) : list string :=
  fold_right insert_sorted [] l.

Definition SWISS_CANTONS : list string :=
  ["AG"; "AI"; "AR"; "BE"; "BL"; "BS"; "FR"; "GE"; "GL"; "GR";
   "JU"; "LU"; "NE"; "NW"; "OW"; "SG"; "SH"; "SO"; "SZ"; "TG";
   "TI"; "UR"; "VD"; "VS"; "ZG"; "ZH"].

Module RequiredFieldsRule.

Definition metadata : RuleMetadata :=
  {| id := "R-ADDR-01";
     name := "Required Fields";
     name_de := "Pflichtfelder";
     description :=
       "Checks that essential address fields (street, PLZ, city) are not empty";
     description_de :=
       "Prüft, ob wesentliche Adressfelder (Strasse, PLZ, Ort) ausgefüllt sind";
     category := ADDRESS;
     md_severity := ERROR;
     required_columns := [];
     example_valid := Some "Bundesplatz 1, 3003, Bern";
     example_invalid := Some "Bundesplatz 1, , (PLZ und Ort fehlen)" |}.

Definition required_fields : list (string * string) :=
  [("plz", "PLZ"); ("ort", "Ort"); ("strasse", "Strasse")].

Definition check_row (col display_name : string) (cols : list string)
  (idx : Z) (row : Row) : Raises (list ValidationError) :=
  let value := cell cols row col in
  if is_blank value then
    Return [{| row_index := idx;
               column := col;
               rule_id := id metadata;
               rule_name := name_de metadata;
               severity := md_severity metadata;
               message := display_name ++ " fehlt oder ist leer";
               value := value;
               suggestion := None |}]
  else Return [].

Fixpoint check_fields (df : DataFrame) (config : Config)
  (fields : list (string * string)) : Raises (list ValidationError) :=
  match fields with
  | [] => Return []
  | (logical_name, display_name) :: rest =>
    match get_column df config logical_name with
    | None => check_fields df config rest
    | Some col =>
      bind (iterrows df (check_row col display_name (df_columns df)))
           (fun found =>
      bind (check_fields df config rest) (fun more =>
      Return (found ++ more)))
    end
  end.

Definition validate (df : DataFrame) (config : Config)
  : Raises (list ValidationError) :=
  check_fields df config required_fields.

Definition rule : BaseRule :=
  Build_BaseRule metadata (default_is_applicable metadata) (reads_only validate).

End RequiredFieldsRule.

Module PLZFormatRule.

Definition metadata : RuleMetadata :=
  {| id := "R-ADDR-02";
     name := "PLZ Format";
     name_de := "PLZ-Format";
     description := "Swiss postal codes must be 4 digits between 1000 and 9999";
     description_de :=
       "Schweizer Postleitzahlen müssen 4-stellig sein (1000-9999)";
     category := ADDRESS;
     md_severity := ERROR;
     required_columns := ["plz"];
     example_valid := Some "8001";
     example_invalid := Some "123, 00100, 8001a" |}.

Definition finding (plz_col : string) (idx : Z) (value : Cell) (msg : string)
  : ValidationError :=
  {| row_index := idx;
     column := plz_col;
     rule_id := id metadata;
     rule_name := name_de metadata;
     severity := md_severity metadata;
     message := msg;
     value := value;
     suggestion := None |}.

(** [str(int(float(plz_str)))] under [except ValueError: pass] for a text
    with a decimal point. *)
Definition normalize (plz_str : string) : Raises string :=
  if PyStr.contains "." plz_str then
    except_ValueError
      (bind (PyFloat.float_of_str plz_str) (fun x =>
       bind (PyFloat.int_of_float x) (fun n =>
       Return (PyStr.str_of_int n))))
      (Return plz_str)
  else Return plz_str.

(** The body of the loop over the rows. *)
Definition check_value (plz_col : string) (idx : Z) (value : Cell)
  : Raises (list ValidationError) :=
  if is_blank value then Return []
  else
    bind (normalize (PyStr.strip (str value))) (fun plz_str =>
    if negb (PyStr.isdigit plz_str) then
      Return [finding plz_col idx value
                ("PLZ muss numerisch sein: '" ++ str value ++ "'")]
    else if negb (Nat.eqb (PyStr.len plz_str) 4) then
      Return [finding plz_col idx value
                ("PLZ muss 4-stellig sein: '" ++ str value ++ "' ("
                 ++ PyStr.str_of_int (Z.of_nat (PyStr.len plz_str))
                 ++ " Stellen)")]
    else
      bind (PyStr.int_of_str plz_str) (fun n =>
      if negb ((1000 <=? n)%Z && (n <=? 9999)%Z) then
        Return [finding plz_col idx value
                  ("PLZ ausserhalb gültiger Bereich: '" ++ str value
                   ++ "' (muss 1000-9999 sein)")]
      else Return [])).

Definition validate (df : DataFrame) (config : Config)
  : Raises (list ValidationError) :=
  match get_column df config "plz" with
  | None => Return []
  | Some plz_col =>
    iterrows df (fun idx row =>
                   check_value plz_col idx (cell (df_columns df) row plz_col))
  end.

Definition rule : BaseRule :=
  Build_BaseRule metadata (default_is_applicable metadata) (reads_only validate).

End PLZFormatRule.

Module CantonValidationRule.

Definition metadata : RuleMetadata :=
  {| id := "R-ADDR-04";
     name := "Canton Validation";
     name_de := "Kanton-Validierung";
     description :=
       "Canton abbreviation must be a valid Swiss canton (AG, BE, ZH, etc.)";
     description_de :=
       "Kantonsabkürzung muss ein gültiger Schweizer Kanton sein (AG, BE, ZH, etc.)";
     category := ADDRESS;
     md_severity := ERROR;
     required_columns := ["kanton"];
     example_valid := Some "ZH, BE, VD";
     example_invalid := Some "XX, Switzerland, Zürich" |}.

Definition check_value (kanton_col : string) (idx : Z) (value : Cell)
  : Raises (list ValidationError) :=
  if is_blank value then Return []
  else
    let kanton := PyStr.upper (PyStr.strip (str value)) in
    if negb (PyStr.mem kanton SWISS_CANTONS) then
      Return [{| row_index := idx;
                 column := kanton_col;
                 rule_id := id metadata;
                 rule_name := name_de metadata;
                 severity := md_severity metadata;
                 message := "Ungültige Kantonsabkürzung: '" ++ str value ++ "'";
                 value := value;
                 suggestion :=
                   Some ("Gültige Kantone: "
                         ++ PyStr.join ", " (sorted SWISS_CANTONS))%string |}]
    else Return [].

Definition validate (df : DataFrame) (config : Config)
  : Raises (list ValidationError) :=
  match get_column df config "kanton" with
  | None => Return []
  | Some kanton_col =>
    iterrows df (fun idx row =>
                   check_value kanton_col idx
                               (cell (df_columns df) row kanton_col))
  end.

Definition rule : BaseRule :=
  Build_BaseRule metadata (default_is_applicable metadata) (reads_only validate).

End CantonValidationRule.

Module StreetFormatRule.

Definition metadata : RuleMetadata :=
  {| id := "R-ADDR-05";
     name := "Street Format";
     name_de := "Strassenformat";
     description := "Checks street names for obvious formatting issues";
     description_de :=
       "Prüft Strassennamen auf offensichtliche Formatierungsfehler";
     category := ADDRESS;
     md_severity := WARNING;
     required_columns := ["strasse"];
     example_valid := Some "Bundesplatz 1, Bahnhofstrasse 23a";
     example_invalid := Some "123456, ????" |}.

(** [re.search(r'[<>{}|\\^~\[\]]', s)] *)
Definition unusual (c : ascii) : bool :=
  existsb (Ascii.eqb c) (list_ascii_of_string "<>{}|\^~[]").

Definition has_unusual (s : string) : bool :=
  existsb unusual (list_ascii_of_string s).

Definition finding (strasse_col : string) (idx : Z) (value : Cell)
  (msg : string) : ValidationError :=
  {| row_index := idx;
     column := strasse_col;
     rule_id := id metadata;
     rule_name := name_de metadata;
     severity := WARNING;
     message := msg;
     value := value;
     suggestion := None |}.

Definition check_value (strasse_col : string) (idx : Z) (value : Cell)
  : Raises (list ValidationError) :=
  if is_blank value then Return []
  else
    let strasse := PyStr.strip (str value) in
    if PyStr.isdigit strasse then
      Return [finding strasse_col idx value
                ("Strasse ist nur numerisch: '" ++ str value ++ "'")]
    else if Nat.ltb (PyStr.len strasse) 3 then
      Return [finding strasse_col idx value
                ("Strassenname sehr kurz: '" ++ str value ++ "'")]
    else if has_unusual strasse then
      Return [finding strasse_col idx value
                ("Strassenname enthält ungewöhnliche Zeichen: '"
                 ++ str value ++ "'")]
    else Return [].

Definition validate (df : DataFrame) (config : Config)
  : Raises (list ValidationError) :=
  match get_column df config "strasse" with
  | None => Return []
  | Some strasse_col =>
    iterrows df (fun idx row =>
                   check_value strasse_col idx
                               (cell (df_columns df) row strasse_col))
  end.

Definition rule : BaseRule :=
  Build_BaseRule metadata (default_is_applicable metadata) (reads_only validate).

End StreetFormatRule.

(* ================================================================== *)
(** * rules/coordinates.py *)

Record BoundsLV95 : Type := {
  e_min : Z; e_max : Z; n_min : Z; n_max : Z
}.

Record BoundsWGS84 : Type := {
  lon_min : PyFloat.float; lon_max : PyFloat.float;
  lat_min : PyFloat.float; lat_max : PyFloat.float
}.

Definition CH_BOUNDS_LV95 : BoundsLV95 :=
  {| e_min := 2485000; e_max := 2834000; n_min := 1075000; n_max := 1296000 |}.

(** The float literals 5.9, 10.5, 45.8 and 47.9. *)
Definition CH_BOUNDS_WGS84 : BoundsWGS84 :=
  {| lon_min := PyFloat.of_decimal false 59 (-1);
     lon_max := PyFloat.of_decimal false 105 (-1);
     lat_min := PyFloat.of_decimal false 458 (-1);
     lat_max := PyFloat.of_decimal false 479 (-1) |}.

Definition detect_coordinate_system (e n : PyFloat.float) : option string :=
  if PyFloat.int_lt 2000000 e && PyFloat.lt_int e 3000000
     && PyFloat.int_lt 1000000 n && PyFloat.lt_int n 2000000
  then Some "LV95"
  else if PyFloat.int_lt 5 e && PyFloat.lt_int e 11
          && PyFloat.int_lt 45 n && PyFloat.lt_int n 48
  then Some "WGS84"
  else None.

Module CoordinatePresenceRule.

Definition metadata : RuleMetadata :=
  {| id := "R-COORD-01";
     name := "Coordinate Presence";
     name_de := "Koordinaten vorhanden";
     description := "Checks that both E and N coordinates are provided";
     description_de := "Prüft, ob E- und N-Koordinaten vorhanden sind";
     category := COORDINATES;
     md_severity := WARNING;
     required_columns := ["easting"; "northing"];
     example_valid := Some "E: 2600000, N: 1200000";
     example_invalid := Some "E: 2600000, N: (leer)" |}.

Definition finding (col : string) (idx : Z) (msg : string) : ValidationError :=
  {| row_index := idx;
     column := col;
     rule_id := id metadata;
     rule_name := name_de metadata;
     severity := md_severity metadata;
     message := msg;
     value := CNone;
     suggestion := None |}.

Definition check_values (e_col n_col : string) (idx : Z) (e_val n_val : Cell)
  : Raises (list ValidationError) :=
  let e_missing := is_blank e_val in
  let n_missing := is_blank n_val in
  if e_missing && negb n_missing then
    Return [finding e_col idx "E-Koordinate fehlt (N-Koordinate vorhanden)"]
  else if n_missing && negb e_missing then
    Return [finding n_col idx "N-Koordinate fehlt (E-Koordinate vorhanden)"]
  else Return [].

Definition validate (df : DataFrame) (config : Config)
  : Raises (list ValidationError) :=
  match get_column df config "easting", get_column df config "northing" with
  | Some e_col, Some n_col =>
    iterrows df (fun idx row =>
                   check_values e_col n_col idx
                                (cell (df_columns df) row e_col)
                                (cell (df_columns df) row n_col))
  | _, _ => Return []
  end.

Definition rule : BaseRule :=
  Build_BaseRule metadata (default_is_applicable metadata) (reads_only validate).

End CoordinatePresenceRule.

Module SwissBoundsRule.

Definition metadata : RuleMetadata :=
  {| id := "R-COORD-02";
     name := "Swiss Bounds Check";
     name_de := "Schweizer Grenzen";
     description := "Coordinates must fall within Switzerland's boundaries";
     description_de :=
       "Koordinaten müssen innerhalb der Schweizer Grenzen liegen";
     category := COORDINATES;
     md_severity := ERROR;
     required_columns := ["easting"; "northing"];
     example_valid := Some "E: 2600000, N: 1200000 (Bern, LV95)";
     example_invalid := Some "E: 1000000, N: 500000 (ausserhalb CH)" |}.

Definition finding (col : string) (idx : Z) (msg : string) (v : Cell)
  : ValidationError :=
  {| row_index := idx;
     column := col;
     rule_id := id metadata;
     rule_name := name_de metadata;
     severity := md_severity metadata;
     message := msg;
     value := v;
     suggestion := None |}.

(** [config.get('options', {}).get('coordinate_system', 'auto')] *)
Definition coord_system_of (config : Config) : string :=
  match coordinate_system (get_options config) with
  | Some s => s
  | None => "auto"
  end.

Definition int_range (lo hi : Z) : string :=
  (PyStr.str_of_int lo ++ "-" ++ PyStr.str_of_int hi)%string.

Definition float_range (lo hi : PyFloat.float) : string :=
  (PyFloat.repr lo ++ "-" ++ PyFloat.repr hi)%string.

(** The bounds check of one row once the system is known. *)
Definition check_bounds (system e_col n_col : string) (idx : Z)
  (e n : PyFloat.float) : list ValidationError :=
  if String.eqb system "LV95" then
    let bounds := CH_BOUNDS_LV95 in
    (if negb (PyFloat.int_le (e_min bounds) e && PyFloat.le_int e (e_max bounds))
     then [finding e_col idx
             ("E-Koordinate ausserhalb Schweiz: " ++ PyFloat.repr e ++ " (LV95: "
              ++ int_range (e_min bounds) (e_max bounds) ++ ")") (CFloat e)]
     else [])
    ++
    (if negb (PyFloat.int_le (n_min bounds) n && PyFloat.le_int n (n_max bounds))
     then [finding n_col idx
             ("N-Koordinate ausserhalb Schweiz: " ++ PyFloat.repr n ++ " (LV95: "
              ++ int_range (n_min bounds) (n_max bounds) ++ ")") (CFloat n)]
     else [])
  else
    let bounds := CH_BOUNDS_WGS84 in
    (if negb (PyFloat.leb (lon_min bounds) e && PyFloat.leb e (lon_max bounds))
     then [finding e_col idx
             ("Longitude ausserhalb Schweiz: " ++ PyFloat.repr e ++ " (WGS84: "
              ++ float_range (lon_min bounds) (lon_max bounds) ++ ")") (CFloat e)]
     else [])
    ++
    (if negb (PyFloat.leb (lat_min bounds) n && PyFloat.leb n (lat_max bounds))
     then [finding n_col idx
             ("Latitude ausserhalb Schweiz: " ++ PyFloat.repr n ++ " (WGS84: "
              ++ float_range (lat_min bounds) (lat_max bounds) ++ ")") (CFloat n)]
     else []).

(** [e = float(e_val); n = float(n_val)] *)
Definition parse_pair (e_val n_val : Cell) : Raises (PyFloat.float * PyFloat.float) :=
  bind (float_of e_val) (fun e =>
  bind (float_of n_val) (fun n =>
  Return (e, n))).

Definition check_values (coord_system e_col n_col : string) (idx : Z)
  (e_val n_val : Cell) : Raises (list ValidationError) :=
  if isna e_val || isna n_val then Return []
  else
    bind (except_ValueError_TypeError
            (bind (parse_pair e_val n_val) (fun en => Return (Some en)))
            (Return None))
         (fun parsed =>
    match parsed with
    | None =>
      let shown := ("E=" ++ str e_val ++ ", N=" ++ str n_val)%string in
      Return [finding (e_col ++ "/" ++ n_col) idx
                ("Ungültige Koordinatenwerte: " ++ shown) (CStr shown)]
    | Some (e, n) =>
      if String.eqb coord_system "auto" then
        match detect_coordinate_system e n with
        | None =>
          let shown :=
            ("E=" ++ PyFloat.repr e ++ ", N=" ++ PyFloat.repr n)%string in
          Return [finding (e_col ++ "/" ++ n_col) idx
                    ("Koordinatensystem nicht erkennbar: " ++ shown)
                    (CStr shown)]
        | Some detected => Return (check_bounds detected e_col n_col idx e n)
        end
      else Return (check_bounds coord_system e_col n_col idx e n)
    end).

Definition validate (df : DataFrame) (config : Config)
  : Raises (list ValidationError) :=
  match get_column df config "easting", get_column df config "northing" with
  | Some e_col, Some n_col =>
    let coord_system := coord_system_of config in
    iterrows df (fun idx row =>
                   check_values coord_system e_col n_col idx
                                (cell (df_columns df) row e_col)
                                (cell (df_columns df) row n_col))
  | _, _ => Return []
  end.

Definition rule : BaseRule :=
  Build_BaseRule metadata (default_is_applicable metadata) (reads_only validate).

End SwissBoundsRule.

Module CoordinatePrecisionRule.

Definition metadata : RuleMetadata :=
  {| id := "R-COORD-04";
     name := "Coordinate Precision";
     name_de := "Koordinaten-Präzision";
     description :=
       "Checks that coordinates have appropriate precision for building location";
     description_de :=
       "Prüft, ob Koordinaten ausreichende Präzision für Gebäudestandort haben";
     category := COORDINATES;
     md_severity := WARNING;
     required_columns := ["easting"; "northing"];
     example_valid := Some "E: 2600123.45, N: 1200456.78";
     example_invalid := Some "E: 2600000, N: 1200000 (zu rund)" |}.

(** [x % 1000 == 0] *)
Definition multiple_of_1000 (x : PyFloat.float) : Raises bool :=
  bind (PyFloat.rem x (PyFloat.lit 1000)) (fun r =>
  Return (PyFloat.eq_int r 0)).

Definition check_values (e_col n_col : string) (idx : Z) (e_val n_val : Cell)
  : Raises (list ValidationError) :=
  if isna e_val || isna n_val then Return []
  else
    bind (except_ValueError_TypeError
            (bind (SwissBoundsRule.parse_pair e_val n_val)
                  (fun en => Return (Some en)))
            (Return None))
         (fun parsed =>
    match parsed with
    | None => Return []
    | Some (e, n) =>
      match detect_coordinate_system e n with
      | None => Return []
      | Some system =>
        if String.eqb system "LV95" then
          bind (multiple_of_1000 e) (fun e_round =>
          bind (if e_round then multiple_of_1000 n else Return false)
               (fun both_round =>
          if both_round then
            let shown :=
              ("E=" ++ PyFloat.repr e ++ ", N=" ++ PyFloat.repr n)%string in
            Return [{| row_index := idx;
                       column := e_col ++ "/" ++ n_col;
                       rule_id := id metadata;
                       rule_name := name_de metadata;
                       severity := md_severity metadata;
                       message :=
                         "Koordinaten ungewöhnlich rund (auf 1000m): " ++ shown;
                       value := CStr shown;
                       suggestion :=
                         Some "Koordinaten könnten ungenau oder gerundet sein" |}]
          else Return []))
        else Return []
      end
    end).

Definition validate (df : DataFrame) (config : Config)
  : Raises (list ValidationError) :=
  match get_column df config "easting", get_column df config "northing" with
  | Some e_col, Some n_col =>
    iterrows df (fun idx row =>
                   check_values e_col n_col idx
                                (cell (df_columns df) row e_col)
                                (cell (df_columns df) row n_col))
  | _, _ => Return []
  end.

Definition rule : BaseRule :=
  Build_BaseRule metadata (default_is_applicable metadata) (reads_only validate).

End CoordinatePrecisionRule.

(* ================================================================== *)
(** * rules/egid.py *)

Module EGIDFormatRule.

Definition metadata : RuleMetadata :=
  {| id := "R-EGID-01";
     name := "EGID Format";
     name_de := "EGID-Format";
     description :=
       "EGID must be a positive integer (federal building identifier)";
     description_de :=
       "EGID muss eine positive Ganzzahl sein (Eidgenössischer Gebäudeidentifikator)";
     category := EGID;
     md_severity := ERROR;
     required_columns := ["egid"];
     example_valid := Some "123456789";
     example_invalid := Some "12-345, EGID123, -500" |}.

Definition finding (egid_col : string) (idx : Z) (value : Cell)
  (sev : Severity) (msg : string) : ValidationError :=
  {| row_index := idx;
     column := egid_col;
     rule_id := id metadata;
     rule_name := name_de metadata;
     severity := sev;
     message := msg;
     value := value;
     suggestion := None |}.

(** [int(float(s))] for a text with a decimal point, [int(s)] otherwise. *)
Definition parse_egid (egid_str : string) : Raises Z :=
  if PyStr.contains "." egid_str then
    bind (PyFloat.float_of_str egid_str) PyFloat.int_of_float
  else PyStr.int_of_str egid_str.

Definition check_value (egid_col : string) (idx : Z) (value : Cell)
  : Raises (list ValidationError) :=
  if is_blank value then Return []
  else
    except_ValueError_TypeError
      (bind (parse_egid (PyStr.strip (str value))) (fun egid =>
       if (egid <=? 0)%Z then
         Return [finding egid_col idx value (md_severity metadata)
                   ("EGID muss positiv sein: '" ++ str value ++ "'")]
       else if (999999999 <? egid)%Z then
         Return [finding egid_col idx value WARNING
                   ("EGID ungewöhnlich gross: '" ++ str value ++ "'")]
       else Return []))
      (Return [finding egid_col idx value (md_severity metadata)
                 ("Ungültiges EGID-Format: '" ++ str value
                  ++ "' (muss eine Zahl sein)")]).

Definition validate (df : DataFrame) (config : Config)
  : Raises (list ValidationError) :=
  match get_column df config "egid" with
  | None => Return []
  | Some egid_col =>
    iterrows df (fun idx row =>
                   check_value egid_col idx (cell (df_columns df) row egid_col))
  end.

Definition rule : BaseRule :=
  Build_BaseRule metadata (default_is_applicable metadata) (reads_only validate).

End EGIDFormatRule.

Module EGIDUniquenessRule.

Definition metadata : RuleMetadata :=
  {| id := "R-EGID-02";
     name := "EGID Uniqueness";
     name_de := "EGID-Eindeutigkeit";
     description :=
       "Each EGID should appear only once (unless multiple units per building)";
     description_de :=
       "Jedes EGID sollte nur einmal vorkommen (ausser bei mehreren Einheiten pro Gebäude)";
     category := EGID;
     md_severity := WARNING;
     required_columns := ["egid"];
     example_valid := Some "123, 456, 789 (alle unterschiedlich)";
     example_invalid := Some "123, 123, 456 (123 doppelt)" |}.

(** The normalised key of a value, [None] where the source's
    [except (ValueError, TypeError): continue] skips the row. *)
Definition egid_key_of (value : Cell) : Raises (option string) :=
  let egid_str := PyStr.strip (str value) in
  except_ValueError_TypeError
    (if PyStr.contains "." egid_str then
       bind (PyFloat.float_of_str egid_str) (fun x =>
       bind (PyFloat.int_of_float x) (fun n =>
       Return (Some (PyStr.str_of_int n))))
     else Return (Some egid_str))
    (Return None).

(** The first loop: [egid_rows], the rows of every key in first-seen
    order. *)
Fixpoint track (cols : list string) (egid_col : string) (idx : Z)
  (rows : list Row) (egid_rows : Dict (list Z)) : Raises (Dict (list Z)) :=
  match rows with
  | [] => Return egid_rows
  | row :: rest =>
    let value := cell cols row egid_col in
    if is_blank value then track cols egid_col (idx + 1) rest egid_rows
    else
      bind (egid_key_of value) (fun key =>
      match key with
      | None => track cols egid_col (idx + 1) rest egid_rows
      | Some egid_key =>
        let seen :=
          match dict_get egid_rows egid_key with
          | Some l => l
          | None => []
          end in
        track cols egid_col (idx + 1) rest
              (dict_set egid_rows egid_key (seen ++ [idx]))
      end)
  end.

(** The second loop: one finding for every occurrence after the first. *)
Definition report (egid_col : string) (entry : string * list Z)
  : list ValidationError :=
  let (egid, rows) := entry in
  if Nat.ltb 1 (List.length rows) then
    map (fun idx =>
           {| row_index := idx;
              column := egid_col;
              rule_id := id metadata;
              rule_name := name_de metadata;
              severity := md_severity metadata;
              message :=
                "EGID '" ++ egid ++ "' kommt mehrfach vor (Zeilen: "
                ++ PyStr.join ", " (map (fun r => PyStr.str_of_int (r + 2)) rows)
                ++ ")";
              value := CStr egid;
              suggestion :=
                Some "Prüfen Sie, ob es sich um Duplikate oder verschiedene Einheiten handelt" |})
        (tl rows)
  else [].

Definition validate (df : DataFrame) (config : Config)
  : Raises (list ValidationError) :=
  match get_column df config "egid" with
  | None => Return []
  | Some egid_col =>
    bind (track (df_columns df) egid_col 0 (df_rows df) []) (fun egid_rows =>
    Return (flat_map (report egid_col) egid_rows))
  end.

Definition rule : BaseRule :=
  Build_BaseRule metadata (default_is_applicable metadata) (reads_only validate).

End EGIDUniquenessRule.

Module EGIDPresenceRule.

Definition metadata : RuleMetadata :=
  {| id := "R-EGID-03";
     name := "EGID Presence";
     name_de := "EGID vorhanden";
     description := "Every building record should have an EGID";
     description_de := "Jeder Gebäudedatensatz sollte eine EGID haben";
     category := EGID;
     md_severity := ERROR;
     required_columns := ["egid"];
     example_valid := Some "123456789";
     example_invalid := Some "(leer)" |}.

Definition check_value (egid_col : string) (idx : Z) (value : Cell)
  : Raises (list ValidationError) :=
  if is_blank value then
    Return [{| row_index := idx;
               column := egid_col;
               rule_id := id metadata;
               rule_name := name_de metadata;
               severity := md_severity metadata;
               message := "EGID fehlt";
               value := CNone;
               suggestion := None |}]
  else Return [].

Definition validate (df : DataFrame) (config : Config)
  : Raises (list ValidationError) :=
  match get_column df config "egid" with
  | None => Return []
  | Some egid_col =>
    iterrows df (fun idx row =>
                   check_value egid_col idx (cell (df_columns df) row egid_col))
  end.

Definition rule : BaseRule :=
  Build_BaseRule metadata (default_is_applicable metadata) (reads_only validate).

End EGIDPresenceRule.

(* ================================================================== *)
(** * hashlib.md5 *)

Module MD5.

Local Open Scope Z_scope.

Definition mask32 : Z := 0xFFFFFFFF.

Definition add32 (a b : Z) : Z := Z.land (a + b) mask32.
Definition not32 (a : Z) : Z := Z.lxor a mask32.
Definition rotl32 (x c : Z) : Z :=
  Z.lor (Z.land (Z.shiftl x c) mask32) (Z.shiftr x (32 - c)).

(** [floor(2^32 * abs(sin(i + 1)))] *)
Definition K : list Z :=
  [
   0xd76aa478; 0xe8c7b756; 0x242070db; 0xc1bdceee;
   0xf57c0faf; 0x4787c62a; 0xa8304613; 0xfd469501;
   0x698098d8; 0x8b44f7af; 0xffff5bb1; 0x895cd7be;
   0x6b901122; 0xfd987193; 0xa679438e; 0x49b40821;
   0xf61e2562; 0xc040b340; 0x265e5a51; 0xe9b6c7aa;
   0xd62f105d; 0x02441453; 0xd8a1e681; 0xe7d3fbc8;
   0x21e1cde6; 0xc33707d6; 0xf4d50d87; 0x455a14ed;
   0xa9e3e905; 0xfcefa3f8; 0x676f02d9; 0x8d2a4c8a;
   0xfffa3942; 0x8771f681; 0x6d9d6122; 0xfde5380c;
   0xa4beea44; 0x4bdecfa9; 0xf6bb4b60; 0xbebfbc70;
   0x289b7ec6; 0xeaa127fa; 0xd4ef3085; 0x04881d05;
   0xd9d4d039; 0xe6db99e5; 0x1fa27cf8; 0xc4ac5665;
   0xf4292244; 0x432aff97; 0xab9423a7; 0xfc93a039;
   0x655b59c3; 0x8f0ccc92; 0xffeff47d; 0x85845dd1;
   0x6fa87e4f; 0xfe2ce6e0; 0xa3014314; 0x4e0811a1;
   0xf7537e82; 0xbd3af235; 0x2ad7d2bb; 0xeb86d391].

Definition shifts : list Z :=
  [7; 12; 17; 22; 7; 12; 17; 22; 7; 12; 17; 22; 7; 12; 17; 22;
   5; 9; 14; 20; 5; 9; 14; 20; 5; 9; 14; 20; 5; 9; 14; 20;
   4; 11; 16; 23; 4; 11; 16; 23; 4; 11; 16; 23; 4; 11; 16; 23;
   6; 10; 15; 21; 6; 10; 15; 21; 6; 10; 15; 21; 6; 10; 15; 21].

(** [n] as [k] bytes, least significant first. *)
Fixpoint le_bytes (k : nat) (n : Z) : list Z :=
  match k with
  | O => []
  | S k' => Z.land n 0xFF :: le_bytes k' (Z.shiftr n 8)
  end.

Fixpoint of_le_bytes (bs : list Z) : Z :=
  match bs with
  | [] => 0
  | b :: rest => b + 256 * of_le_bytes rest
  end.

(** The message followed by a one bit, zeros up to 56 modulo 64 and the
    bit length as 8 bytes. *)
Definition pad (msg : list Z) : list Z :=
  let n := Z.of_nat (List.length msg) in
  msg ++ [0x80] ++ repeat 0 (Z.to_nat ((55 - n) mod 64)) ++ le_bytes 8 (8 * n).

Fixpoint chunks {A : Type} (count size : nat) (l : list A) : list (list A) :=
  match count with
  | O => []
  | S count' => firstn size l :: chunks count' size (skipn size l)
  end.

Definition words (block : list Z) : list Z :=
  map of_le_bytes (chunks 16 4 block).

Definition State : Type := (Z * Z * Z * Z)%type.

Definition round (M : list Z) (st : State) (i : nat) : State :=
  let '(A, B, C, D) := st in
  let zi := Z.of_nat i in
  let '(F, g) :=
    if zi <? 16 then (Z.lor (Z.land B C) (Z.land (not32 B) D), zi)
    else if zi <? 32 then
      (Z.lor (Z.land D B) (Z.land (not32 D) C), (5 * zi + 1) mod 16)
    else if zi <? 48 then (Z.lxor B (Z.lxor C D), (3 * zi + 5) mod 16)
    else (Z.lxor C (Z.lor B (not32 D)), (7 * zi) mod 16) in
  let F' := add32 (add32 (add32 F A) (nth i K 0)) (nth (Z.to_nat g) M 0) in
  (D, add32 B (rotl32 F' (nth i shifts 0)), B, C).

Definition process (st : State) (block : list Z) : State :=
  let '(a0, b0, c0, d0) := st in
  let '(A, B, C, D) := fold_left (round (words block)) (seq 0 64) st in
  (add32 a0 A, add32 b0 B, add32 c0 C, add32 d0 D).

Definition init : State := (0x67452301, 0xefcdab89, 0x98badcfe, 0x10325476).

Definition digest (msg : list Z) : list Z :=
  let padded := pad msg in
  let '(A, B, C, D) :=
    fold_left process (chunks (List.length padded / 64) 64 padded) init in
  le_bytes 4 A ++ le_bytes 4 B ++ le_bytes 4 C ++ le_bytes 4 D.

Definition hex_digit (n : Z) : ascii :=
  nth (Z.to_nat n) (list_ascii_of_string "0123456789abcdef") "0"%char.

Definition hex (bs : list Z) : string :=
  string_of_list_ascii
    (flat_map (fun b => [hex_digit (b / 16); hex_digit (b mod 16)]) bs).

(** [hashlib.md5(s.encode()).hexdigest()] *)
Definition hexdigest (s : string) : string :=
  hex (digest (map Z.of_N (PyStr.bytes s))).

End MD5.

(* ================================================================== *)
(** * rules/general.py *)

Module DuplicateRowsRule.

Definition metadata : RuleMetadata :=
  {| id := "R-GEN-01";
     name := "Duplicate Rows";
     name_de := "Doppelte Zeilen";
     description :=
       "Detects rows that appear to be duplicates based on key fields";
     description_de :=
       "Erkennt Zeilen, die auf Basis von Schlüsselfeldern Duplikate zu sein scheinen";
     category := GENERAL;
     md_severity := WARNING;
     required_columns := [];
     example_valid := Some "Jede Zeile ist einzigartig";
     example_invalid := Some "Zeile 5 und Zeile 10 sind identisch" |}.

(** [df[key_cols]]: the rows restricted to the key columns, in their
    order. *)
Definition select (df : DataFrame) (key_cols : list string) : DataFrame :=
  {| df_columns := key_cols;
     df_rows := map (fun row => map (cell (df_columns df) row) key_cols)
                    (df_rows df) |}.

(** [hashlib.md5('|'.join(str(v) for v in row.values).encode()).hexdigest()] *)
Definition row_hash (row : Row) : string :=
  MD5.hexdigest (PyStr.join "|" (map str row)).

Fixpoint scan (idx : Z) (rows : list Row) (seen : Dict Z)
  : list ValidationError :=
  match rows with
  | [] => []
  | row :: rest =>
    let h := row_hash row in
    match dict_get seen h with
    | Some first_idx =>
      {| row_index := idx;
         column := "(alle)";
         rule_id := id metadata;
         rule_name := name_de metadata;
         severity := md_severity metadata;
         message :=
           "Mögliches Duplikat von Zeile " ++ PyStr.str_of_int (first_idx + 2);
         value := CNone;
         suggestion :=
           Some "Prüfen Sie, ob diese Zeile versehentlich doppelt erfasst wurde" |}
      :: scan (idx + 1) rest seen
    | None => scan (idx + 1) rest (dict_set seen h idx)
    end
  end.

Definition validate (df : DataFrame) (config : Config)
  : Raises (list ValidationError) :=
  match duplicate_key_columns (get_options config) with
  | Some (k :: ks) =>
    match filter (fun c => PyStr.mem c (df_columns df)) (k :: ks) with
    | [] => Return []
    | key_cols => Return (scan 0 (df_rows (select df key_cols)) [])
    end
  | _ => Return (scan 0 (df_rows df) [])
  end.

Definition rule : BaseRule :=
  Build_BaseRule metadata (default_is_applicable metadata) (reads_only validate).

End DuplicateRowsRule.

Module EmptyRowsRule.

Definition metadata : RuleMetadata :=
  {| id := "R-GEN-02";
     name := "Empty Rows";
     name_de := "Leere Zeilen";
     description := "Detects rows where all cells are empty";
     description_de := "Erkennt Zeilen, in denen alle Zellen leer sind";
     category := GENERAL;
     md_severity := INFO;
     required_columns := [];
     example_valid := Some "Zeile hat mindestens einen Wert";
     example_invalid := Some "Komplett leere Zeile" |}.

Definition check_row (idx : Z) (row : Row) : Raises (list ValidationError) :=
  if forallb is_blank row then
    Return [{| row_index := idx;
               column := "(alle)";
               rule_id := id metadata;
               rule_name := name_de metadata;
               severity := md_severity metadata;
               message := "Zeile ist komplett leer";
               value := CNone;
               suggestion := None |}]
  else Return [].

Definition validate (df : DataFrame) (config : Config)
  : Raises (list ValidationError) :=
  iterrows df check_row.

Definition rule : BaseRule :=
  Build_BaseRule metadata (default_is_applicable metadata) (reads_only validate).

End EmptyRowsRule.

Module DataTypeConsistencyRule.

Definition metadata : RuleMetadata :=
  {| id := "R-GEN-03";
     name := "Data Type Consistency";
     name_de := "Datentyp-Konsistenz";
     description := "Checks that numeric columns contain only numeric values";
     description_de :=
       "Prüft, ob numerische Spalten nur numerische Werte enthalten";
     category := GENERAL;
     md_severity := WARNING;
     required_columns := [];
     example_valid := Some "PLZ-Spalte enthält nur Zahlen";
     example_invalid := Some "PLZ-Spalte enthält 'k.A.', 'n/a'" |}.

(** One turn of the loop over the logical names: [numeric_cols.append(col)]
    when the name is mapped to a column of the dataset not yet listed. *)
Definition add_mapped (df : DataFrame) (columns : Dict string)
  (numeric_cols : list string) (logical_name : string) : list string :=
  match dict_get columns logical_name with
  | Some col =>
    if PyStr.mem col (df_columns df) && negb (PyStr.mem col numeric_cols)
    then numeric_cols ++ [col]
    else numeric_cols
  | None => numeric_cols
  end.

(** [numeric_cols] once the loop over the logical names has run. *)
Definition numeric_cols_of (df : DataFrame) (config : Config) : list string :=
  let numeric_cols :=
    match numeric_columns (get_options config) with
    | Some l => l
    | None => []
    end in
  fold_left (add_mapped df (get_columns config))
            ["plz"; "egid"; "easting"; "northing"] numeric_cols.

(** [numeric_cols] is the very list stored under
    [config['options']['numeric_columns']] whenever that key is present,
    so the appends show in the configuration; with the key (or the whole
    options dict) absent, [get] hands out a fresh list and the
    configuration stays as it is. *)
Definition config_after (df : DataFrame) (config : Config) : Config :=
  match cfg_options config with
  | Some o =>
    match numeric_columns o with
    | Some _ =>
      {| cfg_columns := cfg_columns config;
         cfg_options :=
           Some {| coordinate_system := coordinate_system o;
                   duplicate_key_columns := duplicate_key_columns o;
                   numeric_columns := Some (numeric_cols_of df config) |} |}
    | None => config
    end
  | None => config
  end.

Definition check_value (col : string) (idx : Z) (value : Cell)
  : Raises (list ValidationError) :=
  if is_blank value then Return []
  else
    except_ValueError_TypeError
      (bind (float_of value) (fun _ => Return []))
      (Return [{| row_index := idx;
                  column := col;
                  rule_id := id metadata;
                  rule_name := name_de metadata;
                  severity := md_severity metadata;
                  message :=
                    "Nicht-numerischer Wert in numerischer Spalte: '"
                    ++ str value ++ "'";
                  value := value;
                  suggestion := None |}]).

Fixpoint check_columns (df : DataFrame) (numeric_cols : list string)
  : Raises (list ValidationError) :=
  match numeric_cols with
  | [] => Return []
  | col :: rest =>
    if negb (PyStr.mem col (df_columns df)) then check_columns df rest
    else
      bind (iterrows df (fun idx row =>
                           check_value col idx (cell (df_columns df) row col)))
           (fun found =>
      bind (check_columns df rest) (fun more =>
      Return (found ++ more)))
  end.

Definition validate (df : DataFrame) (config : Config)
  : Config * Raises (list ValidationError) :=
  (config_after df config, check_columns df (numeric_cols_of df config)).

Definition rule : BaseRule :=
  Build_BaseRule metadata (default_is_applicable metadata) validate.

End DataTypeConsistencyRule.

Module EncodingIssuesRule.

Definition metadata : RuleMetadata :=
  {| id := "R-GEN-04";
     name := "Encoding Issues";
     name_de := "Zeichenkodierung";
     description :=
       "Detects potential character encoding problems (replacement characters, etc.)";
     description_de :=
       "Erkennt mögliche Zeichenkodierungsprobleme (Ersetzungszeichen, etc.)";
     category := GENERAL;
     md_severity := WARNING;
     required_columns := [];
     example_valid := Some "Zürich, Genève, Müller";
     example_invalid := Some "Z�rich, Gen�ve, M�ller" |}.

Definition ENCODING_ISSUES : list string :=
  ["�"; "Ã¼"; "Ã¤"; "Ã¶"; "Ã©"; "Ã¨"; "Ã "; String "000"%char EmptyString].

Definition check_value (col : string) (idx : Z) (value : Cell)
  : Raises (list ValidationError) :=
  if isna value then Return []
  else
    let value_str := str value in
    if existsb (fun issue => PyStr.contains issue value_str) ENCODING_ISSUES then
      Return [{| row_index := idx;
                 column := col;
                 rule_id := id metadata;
                 rule_name := name_de metadata;
                 severity := md_severity metadata;
                 message :=
                   if Nat.ltb 50 (PyStr.len value_str)
                   then "Mögliches Kodierungsproblem: '"
                        ++ PyStr.take 50 value_str ++ "...' "
                   else "Mögliches Kodierungsproblem: '" ++ value_str ++ "'";
                 value := CStr (PyStr.take 100 value_str);
                 suggestion :=
                   Some "Prüfen Sie die Zeichenkodierung der Quelldatei (UTF-8 empfohlen)" |}]
    else Return [].

Fixpoint check_columns (df : DataFrame) (cols : list string)
  : Raises (list ValidationError) :=
  match cols with
  | [] => Return []
  | col :: rest =>
    bind (iterrows df (fun idx row =>
                         check_value col idx (cell (df_columns df) row col)))
         (fun found =>
    bind (check_columns df rest) (fun more =>
    Return (found ++ more)))
  end.

Definition validate (df : DataFrame) (config : Config)
  : Raises (list ValidationError) :=
  check_columns df (df_columns df).

Definition rule : BaseRule :=
  Build_BaseRule metadata (default_is_applicable metadata) (reads_only validate).

End EncodingIssuesRule.

(* ================================================================== *)
(** * engine.py *)

(** ** RuleRegistry *)

Definition RuleRegistry : Type := Dict BaseRule.

Definition empty_registry : RuleRegistry := [].

Definition register (registry : RuleRegistry) (rule : BaseRule) : RuleRegistry :=
  dict_set registry (id (metadata rule)) rule.

Definition get_rule (registry : RuleRegistry) (rule_id : string)
  : option BaseRule :=
  dict_get registry rule_id.

Definition get_all_rules (registry : RuleRegistry) : list BaseRule :=
  dict_values registry.

Definition get_rules_by_category (registry : RuleRegistry) (c : Category)
  : list BaseRule :=
  filter (fun r => Category_eqb (category (metadata r)) c) (dict_values registry).

Definition get_rule_ids (registry : RuleRegistry) : list string :=
  dict_keys registry.

Fixpoint insert_by_id (r : BaseRule) (l : list BaseRule) : list BaseRule :=
  match l with
  | [] => [r]
  | y :: rest =>
    if String.leb (id (metadata r)) (id (metadata y)) then r :: l
    else y :: insert_by_id r rest
  end.

Definition get_documentation (registry : RuleRegistry) : list RuleMetadata :=
  map metadata (fold_right insert_by_id [] (dict_values registry)).

(** ** ValidationResult *)

Record ValidationResult : Type := {
  total_rows : Z;
  errors : list ValidationError;
  rules_executed : list string;
  rules_skipped : list string
}.

Definition count_severity (s : Severity) (r : ValidationResult) : Z :=
  Z.of_nat (List.length
              (filter (fun e => Severity_eqb (severity e) s) (errors r))).

Definition error_count : ValidationResult -> Z := count_severity ERROR.
Definition warning_count : ValidationResult -> Z := count_severity WARNING.
Definition info_count : ValidationResult -> Z := count_severity INFO.

(** [set(e.row_index for e in self.errors if e.severity == Severity.ERROR)],
    as a list without repetition. *)
Definition error_rows (r : ValidationResult) : list Z :=
  nodup Z.eq_dec
        (map row_index
             (filter (fun e => Severity_eqb (severity e) ERROR) (errors r))).

Definition passed_rows (r : ValidationResult) : Z :=
  total_rows r - Z.of_nat (List.length (error_rows r)).

Definition cat_map : Dict string :=
  [("ADDR", "address"); ("COORD", "coordinates"); ("EGID", "egid");
   ("GEN", "general"); ("CUSTOM", "custom")].

(** The category a finding is counted under, if it is counted. *)
Definition category_key (rule_id : string) : option string :=
  match PyStr.split_on "-" rule_id with
  | _ :: second :: _ =>
    Some match dict_get cat_map second with
         | Some cat => cat
         | None => "general"
         end
  | _ => None
  end.

(** [counts[k] += 1] on a [defaultdict(int)]. *)
Definition increment (counts : Dict Z) (k : string) : Dict Z :=
  dict_set counts k (match dict_get counts k with
                     | Some n => n + 1
                     | None => 1
                     end)%Z.

Definition get_errors_by_category (r : ValidationResult) : Dict Z :=
  fold_left (fun counts e =>
               match category_key (rule_id e) with
               | Some cat => increment counts cat
               | None => counts
               end)
            (errors r) [].

Definition get_errors_by_rule (r : ValidationResult) : Dict Z :=
  fold_left (fun counts e => increment counts (rule_id e)) (errors r) [].

(** A JSON number. *)
Inductive Number : Type :=
| Int (z : Z)
| Float (x : PyFloat.float).

(** [round(self.passed_rows / self.total_rows * 100, 1)
     if self.total_rows > 0 else 100] *)
Definition pass_rate (r : ValidationResult) : Raises Number :=
  if (0 <? total_rows r)%Z then
    bind (PyFloat.int_truediv (passed_rows r) (total_rows r)) (fun q =>
    Return (Float (PyFloat.round1 (PyFloat.mul q (PyFloat.lit 100)))))
  else Return (Int 100).

(** The dict [ValidationResult.to_dict] builds. *)
Record ResultDict : Type := {
  d_total_rows : Z;
  d_error_count : Z;
  d_warning_count : Z;
  d_info_count : Z;
  d_passed_rows : Z;
  d_pass_rate : Number;
  d_errors : list ErrorDict;
  d_errors_by_category : Dict Z;
  d_errors_by_rule : Dict Z;
  d_rules_executed : list string;
  d_rules_skipped : list string
}.

Definition to_dict (r : ValidationResult) : Raises ResultDict :=
  bind (pass_rate r) (fun rate =>
  Return {| d_total_rows := total_rows r;
            d_error_count := error_count r;
            d_warning_count := warning_count r;
            d_info_count := info_count r;
            d_passed_rows := passed_rows r;
            d_pass_rate := rate;
            d_errors := map ValidationError_to_dict (errors r);
            d_errors_by_category := get_errors_by_category r;
            d_errors_by_rule := get_errors_by_rule r;
            d_rules_executed := rules_executed r;
            d_rules_skipped := rules_skipped r |}).

(** ** ValidationEngine *)

(** What a call of [validate] leaves behind: the result under
    construction, the caller's configuration as the rules left it, and the
    lines printed, a line [Error executing rule <id>: <e>] being kept as
    the pair of the id and the exception. *)
Record Run : Type := {
  run_result : ValidationResult;
  run_config : Config;
  run_stdout : list (string * Exception)
}.

(** [if rule_ids: ... else: ...]: an absent and an empty selection both
    take every registered rule; unknown ids are dropped. *)
Definition select_rules (registry : RuleRegistry)
  (rule_ids : option (list string)) : list BaseRule :=
  match rule_ids with
  | Some (rid :: rids) =>
    flat_map (fun rid => match get_rule registry rid with
                         | Some r => [r]
                         | None => []
                         end)
             (rid :: rids)
  | _ => get_all_rules registry
  end.

Definition record_executed (st : Run) (config : Config)
  (found : list ValidationError) (rule_id : string) : Run :=
  {| run_result :=
       {| total_rows := total_rows (run_result st);
          errors := errors (run_result st) ++ found;
          rules_executed := rules_executed (run_result st) ++ [rule_id];
          rules_skipped := rules_skipped (run_result st) |};
     run_config := config;
     run_stdout := run_stdout st |}.

Definition record_skipped (st : Run) (config : Config)
  (printed : list (string * Exception)) (rule_id : string) : Run :=
  {| run_result :=
       {| total_rows := total_rows (run_result st);
          errors := errors (run_result st);
          rules_executed := rules_executed (run_result st);
          rules_skipped := rules_skipped (run_result st) ++ [rule_id] |};
     run_config := config;
     run_stdout := run_stdout st ++ printed |}.

(** The body of the loop over the rules; only the applicability check is
    outside the [try]. *)
Definition execute (df : DataFrame) (st : Run) (rule : BaseRule) : Raises Run :=
  let rule_id := id (metadata rule) in
  bind (is_applicable rule df (run_config st)) (fun applicable =>
  if applicable then
    match validate rule df (run_config st) with
    | (config, Return found) => Return (record_executed st config found rule_id)
    | (config, Raise e) => Return (record_skipped st config [(rule_id, e)] rule_id)
    end
  else Return (record_skipped st (run_config st) [] rule_id)).

Fixpoint run (df : DataFrame) (rules : list BaseRule) (st : Run) : Raises Run :=
  match rules with
  | [] => Return st
  | rule :: rest => bind (execute df st rule) (run df rest)
  end.

(** The state a run starts from: [ValidationResult(total_rows=n)]. *)
Definition start (n : Z) (config : Config) : Run :=
  {| run_result := {| total_rows := n; errors := [];
                      rules_executed := []; rules_skipped := [] |};
     run_config := config;
     run_stdout := [] |}.

(** [ValidationEngine.validate] *)
Definition Engine_validate (registry : RuleRegistry) (df : DataFrame)
  (config : Config) (rule_ids : option (list string)) : Raises Run :=
  run df (select_rules registry rule_ids) (start (df_len df) config).

(** ** ValidationResult.get_errors_by_dimension *)










(** ** ValidationEngine.detect_columns *)

Definition patterns : Dict (list string) :=
  [("plz", ["plz"; "postleitzahl"; "postal_code"; "zip"; "npa"]);
   ("ort", ["ort"; "stadt"; "gemeinde"; "city"; "town"; "locality"; "ortschaft"]);
   ("strasse", ["strasse"; "street"; "adresse"; "address"; "str"; "rue"]);
   ("hausnummer", ["hausnummer"; "hausnr"; "nr"; "number"; "no"]);
   ("kanton", ["kanton"; "kt"; "canton"; "state"; "ct"]);
   ("egid", ["egid"; "gebäude_id"; "building_id"; "geb_id"; "egid_edid"]);
   ("ewid", ["ewid"; "wohnung_id"; "dwelling_id"]);
   ("easting", ["e"; "e_coord"; "x"; "x_coord"; "easting"; "lon"; "longitude";
                "e_lv95"; "koordinate_e"]);
   ("northing", ["n"; "n_coord"; "y"; "y_coord"; "northing"; "lat"; "latitude";
                 "n_lv95"; "koordinate_n"]);
   ("region", ["region"; "gebiet"; "zone"; "area"]);
   ("portfolio", ["portfolio"; "portfolio_typ"; "kategorie"; "type";
                  "asset_type"; "objekttyp"]);
   ("responsible", ["verantwortlich"; "zuständig"; "owner"; "responsible";
                    "bearbeiter"; "sachbearbeiter"])].

(** [{col.lower(): col for col in df.columns}] *)
Definition df_cols_lower (df : DataFrame) : Dict string :=
  fold_left (fun d col => dict_set d (PyStr.lower col) col) (df_columns df) [].

(** The inner loop: the column of the first name that is a key. *)
Fixpoint first_known (cols_lower : Dict string) (possible_names : list string)
  : option string :=
  match possible_names with
  | [] => None
  | name :: rest =>
    match dict_get cols_lower name with
    | Some col => Some col
    | None => first_known cols_lower rest
    end
  end.

Definition detect_step (cols_lower : Dict string) (detected : Dict string)
  (entry : string * list string) : Dict string :=
  let (logical_name, possible_names) := entry in
  match first_known cols_lower possible_names with
  | Some col => dict_set detected logical_name col
  | None => detected
  end.

Definition detect_columns (df : DataFrame) : Dict string :=
  fold_left (detect_step (df_cols_lower df)) patterns [].

(* ================================================================== *)
(** * The default registry *)

Definition ALL_RULES : list BaseRule :=
  [RequiredFieldsRule.rule; PLZFormatRule.rule; CantonValidationRule.rule;
   StreetFormatRule.rule;
   CoordinatePresenceRule.rule; SwissBoundsRule.rule;
   CoordinatePrecisionRule.rule;
   EGIDFormatRule.rule; EGIDUniquenessRule.rule; EGIDPresenceRule.rule;
   DuplicateRowsRule.rule; EmptyRowsRule.rule; DataTypeConsistencyRule.rule;
   EncodingIssuesRule.rule].

Definition create_default_registry : RuleRegistry :=
  fold_left register ALL_RULES empty_registry.

(* ================================================================== *)
(** * Sample inputs *)

Definition no_options : Options := empty_options.

(** [{'columns': {}, 'options': {}}] *)
Definition plain_config : Config :=
  {| cfg_columns := Some []; cfg_options := Some no_options |}.

(** A postal code whose float value is infinite makes [int(float(...))]
    raise [OverflowError], which the rule does not catch. *)
Definition overflow_df : DataFrame :=
  {| df_columns := ["plz"; "strasse"];
     df_rows := [[CStr "1.0e999"; CStr "12"]; [CStr "800"; CStr "Seeweg 3"]] |}.

(** The postal codes of the specification's examples, and one four-digit
    text below 1000. *)
Definition plz_df : DataFrame :=
  {| df_columns := ["plz"];
     df_rows := [[CStr "8001"]; [CStr "800"]; [CStr "ABCD"]; [CStr "12000"];
                 [CStr "8001.0"]; [CStr "0999"]] |}.

(** The float literals 7.5 and 46.9. *)
Definition f7_5 : PyFloat.float := PyFloat.of_decimal false 75 (-1).
Definition f46_9 : PyFloat.float := PyFloat.of_decimal false 469 (-1).

Definition coords_df : DataFrame :=
  {| df_columns := ["easting"; "northing"];
     df_rows := [[CInt 2600000; CInt 1200000]; [CInt 1000000; CInt 500000];
                 [CFloat f7_5; CFloat f46_9]] |}.

Definition lv95_config : Config :=
  {| cfg_columns := Some [];
     cfg_options := Some {| coordinate_system := Some "LV95";
                            duplicate_key_columns := None;
                            numeric_columns := None |} |}.

Definition egid_df : DataFrame :=
  {| df_columns := ["egid"];
     df_rows := [[CInt 123]; [CInt 123]; [CInt 456]] |}.

(** A dataset whose header is upper case while the logical name is not. *)
Definition upper_df : DataFrame :=
  {| df_columns := ["PLZ"]; df_rows := [[CStr "800"]] |}.

(** [{'columns': {'plz': 'PLZ'}, 'options': {'numeric_columns': []}}] *)
Definition numeric_config : Config :=
  {| cfg_columns := Some [("plz", "PLZ")];
     cfg_options := Some {| coordinate_system := None;
                            duplicate_key_columns := None;
                            numeric_columns := Some [] |} |}.

Definition finding_of (rid : string) (sev : Severity) (row : Z) : ValidationError :=
  {| row_index := row; column := "c"; rule_id := rid; rule_name := "n";
     severity := sev; message := "m"; value := CNone; suggestion := None |}.

(** A result holding a finding of a custom rule and one of a rule whose id
    has no dash. *)
Definition custom_result : ValidationResult :=
  {| total_rows := 3;
     errors := [finding_of "R-CUSTOM-01" ERROR 0; finding_of "LEGACY" ERROR 0;
                finding_of "R-ADDR-02" WARNING 2];
     rules_executed := ["R-CUSTOM-01"; "LEGACY"; "R-ADDR-02"];
     rules_skipped := [] |}.

(** ** Readings of the result views *)

(** The count recorded for a category, zero when it has no entry. *)
Definition tally (counts : Dict Z) (k : string) : Z :=
  match dict_get counts k with
  | Some n => n
  | None => 0%Z
  end.

Definition total (counts : Dict Z) : Z :=
  fold_right Z.add 0%Z (dict_values counts).

(** The table of [cat_map] written out, for the second segment of an id. *)
Definition category_of_segment (second : string) : string :=
  if String.eqb second "ADDR" then "address"
  else if String.eqb second "COORD" then "coordinates"
  else if String.eqb second "EGID" then "egid"
  else if String.eqb second "GEN" then "general"
  else if String.eqb second "CUSTOM" then "custom"
  else "general".

(** The table as the specification words it: CUSTOM, any other segment
    and an id without a second segment all count as general. *)
Definition spec_category (rule_id : string) : string :=
  match PyStr.split_on "-" rule_id with
  | _ :: second :: _ =>
    if String.eqb second "ADDR" then "address"
    else if String.eqb second "COORD" then "coordinates"
    else if String.eqb second "EGID" then "egid"
    else "general"
  | _ => "general"
  end.

(** One turn of a counting loop: the finding is counted under its key,
    if it has one. *)
Definition tally_step (key : ValidationError -> option string)
  (counts : Dict Z) (e : ValidationError) : Dict Z :=
  match key e with
  | Some k => increment counts k
  | None => counts
  end.

Definition keyed (key : ValidationError -> option string) (k : string)
  (e : ValidationError) : bool :=
  match key e with
  | Some c => String.eqb c k
  | None => false
  end.

Definition has_key (key : ValidationError -> option string)
  (e : ValidationError) : bool :=
  match key e with
  | Some _ => true
  | None => false
  end.

(** The finding is counted by [get_errors_by_category], and under which
    category. *)
Definition counted : ValidationError -> bool :=
  has_key (fun e => category_key (rule_id e)).

Definition counted_as (cat : string) : ValidationError -> bool :=
  keyed (fun e => category_key (rule_id e)) cat.

(* ================================================================== *)
(** * Properties of the engine loop *)


Definition rule_key (r : BaseRule) : string := id (metadata r).

(** No applicability check of the rules raises on this dataset. *)
Definition applicability_returns (df : DataFrame) (rules : list BaseRule) : Prop :=
  forall r, In r rules -> forall config, exists b, is_applicable r df config = Return b.

(** The outcome [b] of a run that began in [a]: the lists of [b] follow
    those of [a], the configuration is the one [b] ends with. *)
Definition follow (a b : Run) : Run :=
  {| run_result :=
       {| total_rows := total_rows (run_result a);
          errors := errors (run_result a) ++ errors (run_result b);
          rules_executed :=
            rules_executed (run_result a) ++ rules_executed (run_result b);
          rules_skipped :=
            rules_skipped (run_result a) ++ rules_skipped (run_result b) |};
     run_config := run_config b;
     run_stdout := run_stdout a ++ run_stdout b |}.

(** ** Invariants of registries, findings and loops *)

(** The keys of the registry are distinct and each is the id of the rule
    stored under it, as for a Python dict filled by [register] alone. *)
Definition well_keyed (registry : RuleRegistry) : Prop :=
  NoDup (dict_keys registry)
  /\ Forall (fun entry => fst entry = rule_key (snd entry)) registry.

(** The order [get_documentation] sorts by. *)
Definition id_le (a b : RuleMetadata) : Prop := String.leb (id a) (id b) = true.

(** The finding carries this rule id and points at a row of a dataset of
    [n] rows. *)
Definition stamped (rid : string) (n : Z) (e : ValidationError) : Prop :=
  rule_id e = rid /\ (0 <= row_index e < n)%Z.

(** The finding carries this rule id and this row index. *)
Definition stamped_at (rid : string) (idx : Z) (e : ValidationError) : Prop :=
  rule_id e = rid /\ row_index e = idx.

(** The findings of a rule all carry its id and point into the dataset,
    whatever the configuration, and its applicability check returns. *)
Definition well_behaved (r : BaseRule) : Prop :=
  (forall df config, exists b, is_applicable r df config = Return b)
  /\ forall df config found,
       snd (validate r df config) = Return found ->
       Forall (stamped (rule_key r) (df_len df)) found.

(** The logical name as [is_applicable] and [get_column] resolve it. *)
Definition resolve (config : Config) (logical_name : string) : string :=
  match dict_get (get_columns config) logical_name with
  | Some c => c
  | None => logical_name
  end.







(** Every finding of the result carries the id of an executed rule and
    points at a row of a dataset of [n] rows. *)
Definition attributed (n : Z) (res : ValidationResult) : Prop :=
  Forall (fun e => In (rule_id e) (rules_executed res)
                   /\ (0 <= row_index e < n)%Z)
         (errors res).

(** The finding carries the German name of the rule and its declared
    severity; among the built-in rules only the EGID format rule departs
    from its declared severity, with a warning. *)
Definition labelled (md : RuleMetadata) (e : ValidationError) : Prop :=
  rule_name e = name_de md
  /\ (severity e = md_severity md
      \/ (id md = "R-EGID-01" /\ severity e = WARNING)).

(** The finding is one of the rule described by [md] for row [idx], or
    for a row of a dataset of [n] rows. *)
Definition marked_at (md : RuleMetadata) (idx : Z) (e : ValidationError) : Prop :=
  stamped_at (id md) idx e /\ labelled md e.

Definition marked (md : RuleMetadata) (n : Z) (e : ValidationError) : Prop :=
  stamped (id md) n e /\ labelled md e.

(** [config.get('options', {}).get('numeric_columns', [])] *)
Definition given_numeric_columns (config : Config) : list string :=
  match numeric_columns (get_options config) with
  | Some l => l
  | None => []
  end.

(** The column is one of the dataset that the mapping gives for one of the
    logical names. *)
Definition mappable (df : DataFrame) (columns : Dict string)
  (names : list string) (col : string) : Prop :=
  In col (df_columns df)
  /\ exists name, In name names /\ dict_get columns name = Some col.


(** The normalised EGID a row is tracked under by the uniqueness rule, if
    it is tracked: the cell is not blank and normalises. *)
Definition tracked_key (cols : list string) (egid_col : string) (row : Row)
  : option string :=
  let value := cell cols row egid_col in
  if is_blank value then None
  else match EGIDUniquenessRule.egid_key_of value with
       | Return key => key
       | Raise _ => None
       end.

(** The row indices from [idx] on of the rows tracked under [k]. *)
Fixpoint rows_keyed (cols : list string) (egid_col k : string) (idx : Z)
  (rows : list Row) : list Z :=
  match rows with
  | [] => []
  | row :: rest =>
    match tracked_key cols egid_col row with
    | Some key =>
      if String.eqb key k
      then idx :: rows_keyed cols egid_col k (idx + 1) rest
      else rows_keyed cols egid_col k (idx + 1) rest
    | None => rows_keyed cols egid_col k (idx + 1) rest
    end
  end.

(** [d.get(k, [])] *)
Definition rows_of (d : Dict (list Z)) (k : string) : list Z :=
  match dict_get d k with
  | Some l => l
  | None => []
  end.

(** The text of four decimal digits. *)
Definition digits4 (a b c d : nat) : string :=
  String (ascii_of_nat (48 + a))
    (String (ascii_of_nat (48 + b))
       (String (ascii_of_nat (48 + c))
          (String (ascii_of_nat (48 + d)) EmptyString))).

(** What the postal code rule computes from a text before it decides. *)
Definition plz_probe (a b c d : nat) : bool :=
  let s := digits4 a b c d in
  negb (is_blank (CStr s))
  && match PLZFormatRule.normalize (PyStr.strip s) with
     | Return plz_str =>
       String.eqb plz_str s
       && PyStr.isdigit plz_str
       && Nat.eqb (PyStr.len plz_str) 4
       && match PyStr.int_of_str plz_str with
          | Return n => Z.eqb n (Z.of_nat (1000 * a + 100 * b + 10 * c + d))
          | Raise _ => false
          end
     | Raise _ => false
     end.

(** The configuration with another coordinate system. *)
Definition with_coordinate_system (config : Config) (system : string) : Config :=
  {| cfg_columns := cfg_columns config;
     cfg_options :=
       Some {| coordinate_system := Some system;
               duplicate_key_columns :=
                 duplicate_key_columns (get_options config);
               numeric_columns := numeric_columns (get_options config) |} |}.

(** ** Rules a user registers *)

(** The registry takes any subclass of [BaseRule].  A custom rule that
    reads the first declared numeric column:
    [[
    class DeclaredNumericColumnsRule(BaseRule):
        @property
        def metadata(self):
            return RuleMetadata(
                id="R-CUSTOM-01", name="Declared Numeric Columns",
                name_de="Deklarierte numerische Spalten",
                description="Requires a declared numeric column",
                description_de="Verlangt eine deklarierte numerische Spalte",
                category=Category.CUSTOM, severity=Severity.INFO,
                required_columns=[])
        def validate(self, df, config):
            first = config['options']['numeric_columns'][0]
            return []
    ]]
    [validate] raises [KeyError] without the key and [IndexError] on an
    empty list. *)
Module DeclaredNumericColumnsRule.

Definition metadata : RuleMetadata :=
  {| id := "R-CUSTOM-01";
     name := "Declared Numeric Columns";
     name_de := "Deklarierte numerische Spalten";
     description := "Requires a declared numeric column";
     description_de := "Verlangt eine deklarierte numerische Spalte";
     category := CUSTOM;
     md_severity := INFO;
     required_columns := [];
     example_valid := None;
     example_invalid := None |}.

Definition validate (df : DataFrame) (config : Config)
  : Raises (list ValidationError) :=
  match cfg_options config with
  | Some o =>
    match numeric_columns o with
    | Some (first :: _) => Return []
    | Some [] => Raise (RuntimeError "IndexError")
    | None => Raise (RuntimeError "KeyError")
    end
  | None => Raise (RuntimeError "KeyError")
  end.

Definition rule : BaseRule :=
  Build_BaseRule metadata (default_is_applicable metadata) (reads_only validate).

End DeclaredNumericColumnsRule.

(** A custom rule that overrides the applicability check:
    [[
    class MappedColumnsRule(BaseRule):
        @property
        def metadata(self):
            return RuleMetadata(
                id="R-CUSTOM-02", name="Mapped Columns",
                name_de="Zugeordnete Spalten",
                description="Requires a mapped postal code column",
                description_de="Verlangt eine zugeordnete PLZ-Spalte",
                category=Category.CUSTOM, severity=Severity.INFO,
                required_columns=[])
        def is_applicable(self, df, config):
            return config['columns']['plz'] in df.columns
        def validate(self, df, config):
            return []
    ]]
    The check raises [KeyError] when the mapping lacks [plz]. *)
Module MappedColumnsRule.

Definition metadata : RuleMetadata :=
  {| id := "R-CUSTOM-02";
     name := "Mapped Columns";
     name_de := "Zugeordnete Spalten";
     description := "Requires a mapped postal code column";
     description_de := "Verlangt eine zugeordnete PLZ-Spalte";
     category := CUSTOM;
     md_severity := INFO;
     required_columns := [];
     example_valid := None;
     example_invalid := None |}.

Definition is_applicable (df : DataFrame) (config : Config) : Raises bool :=
  match cfg_columns config with
  | Some columns =>
    match dict_get columns "plz" with
    | Some col => Return (PyStr.mem col (df_columns df))
    | None => Raise (RuntimeError "KeyError")
    end
  | None => Raise (RuntimeError "KeyError")
  end.

Definition validate (df : DataFrame) (config : Config)
  : Raises (list ValidationError) :=
  Return [].

Definition rule : BaseRule :=
  Build_BaseRule metadata is_applicable (reads_only validate).

End MappedColumnsRule.

(** The default registry with the two custom rules registered. *)
Definition custom_registry : RuleRegistry :=
  fold_left register
            [DeclaredNumericColumnsRule.rule; MappedColumnsRule.rule]
            create_default_registry.

Section EngineLoop.

Variable df : DataFrame.

Lemma bind_Return {A B : Type} (a : A) (k : A -> Raises B) :
  bind (Return a) k = k a.
Proof. reflexivity. Qed.

Lemma bind_assoc {A B C : Type} (m : Raises A) (f : A -> Raises B)
  (g : B -> Raises C) :
  bind (bind m f) g = bind m (fun a => bind (f a) g).
Proof. destruct m; reflexivity. Qed.

Lemma follow_assoc (a b c : Run) : follow (follow a b) c = follow a (follow b c).
Proof.
  unfold follow; simpl. now rewrite !app_assoc.
Qed.

Lemma follow_start (a : Run) (n : Z) :
  follow a (start n (run_config a)) = a.
Proof.
  destruct a as [[t e x s] c o]; unfold follow, start; simpl.
  now rewrite !app_nil_r.
Qed.

Lemma run_app (l1 l2 : list BaseRule) (st : Run) :
  run df (l1 ++ l2) st = bind (run df l1 st) (run df l2).
Proof.
  revert st; induction l1 as [|r l1 IH]; intro st; simpl.
  - reflexivity.
  - rewrite bind_assoc. destruct (execute df st r) as [st'|e]; simpl; auto.
Qed.

(** One turn of the loop does not look at what was collected so far. *)
Lemma execute_follow (st : Run) (n : Z) (r : BaseRule) :
  execute df st r =
  bind (execute df (start n (run_config st)) r) (fun d => Return (follow st d)).
Proof.
  unfold execute; simpl.
  destruct (is_applicable r df (run_config st)) as [[|]|e]; simpl; trivial.
  - destruct (validate r df (run_config st)) as [c [found|e]]; simpl;
      unfold follow, record_executed, record_skipped; simpl;
      now rewrite ?app_nil_r.
  - unfold follow, record_skipped; simpl. now rewrite !app_nil_r.
Qed.

Lemma run_follow (rules : list BaseRule) (st : Run) (n : Z) :
  run df rules st =
  bind (run df rules (start n (run_config st))) (fun d => Return (follow st d)).
Proof.
  revert st; induction rules as [|r rules IH]; intro st; simpl.
  - now rewrite follow_start.
  - rewrite (execute_follow st n r), !bind_assoc.
    destruct (execute df (start n (run_config st)) r) as [d|e]; simpl; trivial.
    rewrite (IH (follow st d)), (IH d), bind_assoc; simpl.
    destruct (run df rules (start n (run_config d))) as [d'|e]; simpl; trivial.
    now rewrite follow_assoc.
Qed.

Lemma execute_returns (st : Run) (r : BaseRule) :
  (forall config, exists b, is_applicable r df config = Return b) ->
  exists st', execute df st r = Return st'.
Proof.
  intro H. unfold execute. destruct (H (run_config st)) as [b ->]; simpl.
  destruct b; [|eauto].
  destruct (validate r df (run_config st)) as [c [found|e]]; eauto.
Qed.

Lemma run_returns (rules : list BaseRule) (st : Run) :
  applicability_returns df rules -> exists final, run df rules st = Return final.
Proof.
  revert st; induction rules as [|r rules IH]; intros st H; simpl.
  - eauto.
  - destruct (execute_returns st r) as [st' ->].
    + intro c. apply (H r). now left.
    + simpl. apply IH. intros r' Hin. apply H. now right.
Qed.

Lemma execute_total_rows (st st' : Run) (r : BaseRule) :
  execute df st r = Return st' ->
  total_rows (run_result st') = total_rows (run_result st).
Proof.
  unfold execute.
  destruct (is_applicable r df (run_config st)) as [[|]|e]; simpl;
    try discriminate.
  - destruct (validate r df (run_config st)) as [c [found|e]]; intro H;
      inversion H; reflexivity.
  - intro H; inversion H; reflexivity.
Qed.

(** Every turn records the id of its rule once, as executed or as
    skipped. *)
Lemma execute_records (st st' : Run) (r : BaseRule) :
  execute df st r = Return st' ->
  (rules_executed (run_result st') = rules_executed (run_result st) ++ [rule_key r]
   /\ rules_skipped (run_result st') = rules_skipped (run_result st))
  \/ (rules_executed (run_result st') = rules_executed (run_result st)
      /\ rules_skipped (run_result st') = rules_skipped (run_result st) ++ [rule_key r]).
Proof.
  unfold execute.
  destruct (is_applicable r df (run_config st)) as [[|]|e]; simpl;
    try discriminate.
  - destruct (validate r df (run_config st)) as [c [found|e]]; intro H;
      inversion H; simpl; auto.
  - intro H; inversion H; simpl; auto.
Qed.

Lemma run_records (rules : list BaseRule) (st final : Run) :
  run df rules st = Return final ->
  Permutation (rules_executed (run_result final) ++ rules_skipped (run_result final))
              (rules_executed (run_result st) ++ rules_skipped (run_result st)
               ++ map rule_key rules).
Proof.
  revert st; induction rules as [|r rules IH]; intros st H; simpl in *.
  - inversion H; subst. now rewrite app_nil_r.
  - destruct (execute df st r) as [st'|e] eqn:E; simpl in H; [|discriminate].
    rewrite (IH _ H).
    destruct (execute_records _ _ _ E) as [[-> ->]|[-> ->]].
    + rewrite <- !app_assoc. apply Permutation_app_head. simpl.
      apply Permutation_middle.
    + rewrite <- !app_assoc. reflexivity.
Qed.

Lemma run_executed_among (rules : list BaseRule) (st final : Run) :
  run df rules st = Return final ->
  forall x, In x (rules_executed (run_result final)) ->
            In x (rules_executed (run_result st)) \/ In x (map rule_key rules).
Proof.
  revert st; induction rules as [|r rules IH]; intros st H x Hx; simpl in *.
  - inversion H; subst. now left.
  - destruct (execute df st r) as [st'|e] eqn:E; simpl in H; [|discriminate].
    destruct (IH _ H x Hx) as [Hin|Hin]; [|now right; right].
    destruct (execute_records _ _ _ E) as [[Hex _]|[Hex _]]; rewrite Hex in Hin.
    + apply in_app_or in Hin as [Hin|[<-|[]]]; auto.
    + now left.
Qed.

End EngineLoop.

(** ** The selection of rules *)

Lemma dict_get_among {V : Type} (d : Dict V) (k : string) (v : V) :
  dict_get d k = Some v -> In v (dict_values d).
Proof.
  induction d as [|[k' v'] d IH]; simpl; [discriminate|].
  destruct (String.eqb k' k).
  - intro H; injection H as ->. now left.
  - intro H. right. now apply IH.
Qed.

Lemma select_rules_among (registry : RuleRegistry)
  (rule_ids : option (list string)) (r : BaseRule) :
  In r (select_rules registry rule_ids) -> In r (get_all_rules registry).
Proof.
  destruct rule_ids as [[|rid rids]|]; trivial.
  unfold select_rules. rewrite in_flat_map. intros [x [_ Hx]].
  destruct (get_rule registry x) as [r'|] eqn:E; [|contradiction].
  destruct Hx as [<-|[]]. exact (dict_get_among _ _ _ E).
Qed.

Lemma default_rules_applicability_returns (df : DataFrame) :
  applicability_returns df (get_all_rules create_default_registry).
Proof.
  intros r Hin c. simpl in Hin.
  repeat (destruct Hin as [<-|Hin]; [eexists; reflexivity|]).
  contradiction.
Qed.

(** ** The catalogue *)

(** C9, as the code has it: the default registry holds 14 rules under 14
    distinct ids (four address, three coordinate, three EGID and four
    general rules), in this order. *)
Theorem default_registry_has_14_rules :
  List.length (get_all_rules create_default_registry) = 14%nat /\
  get_rule_ids create_default_registry =
    ["R-ADDR-01"; "R-ADDR-02"; "R-ADDR-04"; "R-ADDR-05";
     "R-COORD-01"; "R-COORD-02"; "R-COORD-04";
     "R-EGID-01"; "R-EGID-02"; "R-EGID-03";
     "R-GEN-01"; "R-GEN-02"; "R-GEN-03"; "R-GEN-04"] /\
  NoDup (get_rule_ids create_default_registry) /\
  get_all_rules create_default_registry = ALL_RULES.
Proof.
  split; [reflexivity|]. split; [reflexivity|]. split; [|reflexivity].
  change (get_rule_ids create_default_registry) with
    ["R-ADDR-01"; "R-ADDR-02"; "R-ADDR-04"; "R-ADDR-05";
     "R-COORD-01"; "R-COORD-02"; "R-COORD-04";
     "R-EGID-01"; "R-EGID-02"; "R-EGID-03";
     "R-GEN-01"; "R-GEN-02"; "R-GEN-03"; "R-GEN-04"].
  repeat (constructor; [simpl; intuition discriminate|]).
  constructor.
Qed.

(** C9 as stated fails: the registry does not hold 13 rules. *)
Lemma default_registry_has_not_13_rules :
  List.length (get_rule_ids create_default_registry) <> 13%nat.
Proof. discriminate. Qed.

(** ** The configuration across a run *)

(** C2 fails on the code: with [options.numeric_columns] present, the data
    type rule appends the mapped postal-code column to the caller's own
    list, so the configuration the caller holds after the run differs from
    the one passed in. *)
Theorem validate_appends_to_numeric_columns :
  exists final,
    Engine_validate create_default_registry upper_df numeric_config None
    = Return final /\
    numeric_columns (get_options numeric_config) = Some [] /\
    numeric_columns (get_options (run_config final)) = Some ["PLZ"] /\
    run_config final <> numeric_config.
Proof.
  eexists. split; [vm_compute; reflexivity|].
  split; [reflexivity|]. split; [reflexivity|].
  simpl. discriminate.
Qed.

(** What does hold: a rule whose [validate] hands the configuration back
    as it got it leaves it unchanged over a whole run. *)
Lemma run_keeps_config (df : DataFrame) (config : Config)
  (rules : list BaseRule) :
  (forall r, In r rules -> fst (validate r df config) = config) ->
  forall st final,
    run_config st = config -> run df rules st = Return final ->
    run_config final = config.
Proof.
  induction rules as [|r rules IH]; intros Hkeep st final Hst Hrun; simpl in Hrun.
  - now injection Hrun as <-.
  - destruct (execute df st r) as [st'|e] eqn:E; simpl in Hrun; [|discriminate].
    apply (IH (fun r' Hin => Hkeep r' (or_intror Hin)) st' final); trivial.
    unfold execute in E. rewrite Hst in E.
    destruct (is_applicable r df config) as [[|]|e]; simpl in E;
      try discriminate.
    + specialize (Hkeep r (or_introl eq_refl)).
      destruct (validate r df config) as [c [found|e]]; simpl in Hkeep;
        injection E as <-; exact Hkeep.
    + now injection E as <-.
Qed.

(** Every default rule but the data type rule only reads the
    configuration, and that one appends only to a list the caller put
    under [numeric_columns]: without that key the run leaves the
    configuration as it was. *)
Lemma config_untouched_without_numeric_columns (df : DataFrame)
  (config : Config) (rule_ids : option (list string)) :
  numeric_columns (get_options config) = None ->
  exists final,
    Engine_validate create_default_registry df config rule_ids = Return final /\
    run_config final = config.
Proof.
  intro Hnone. unfold Engine_validate.
  destruct (run_returns df (select_rules create_default_registry rule_ids)
                        (start (df_len df) config)) as [final Hfinal].
  { intros r Hin. apply default_rules_applicability_returns.
    exact (select_rules_among _ _ _ Hin). }
  exists final. split; [exact Hfinal|].
  apply (run_keeps_config df config
                          (select_rules create_default_registry rule_ids))
    with (st := start (df_len df) config); trivial.
  intros r Hin. apply select_rules_among in Hin. simpl in Hin.
  repeat (destruct Hin as [<-|Hin]; [try reflexivity|]); try contradiction.
  simpl. unfold DataTypeConsistencyRule.config_after.
  unfold get_options in Hnone.
  destruct (cfg_options config) as [o|]; trivial.
  now rewrite Hnone.
Qed.

(** ** Applicability *)

(** The default policy, spelled out: the rule is applicable exactly when
    every required logical name, mapped through [columns] or else taken
    as it is, is literally one of the dataset's column names. *)
Lemma default_is_applicable_iff (md : RuleMetadata) (df : DataFrame)
  (config : Config) :
  default_is_applicable md df config = Return true <->
  forall required, In required (required_columns md) ->
    In (match dict_get (get_columns config) required with
        | Some c => c
        | None => required
        end) (df_columns df).
Proof.
  unfold default_is_applicable, required_present.
  split.
  - intro H. injection H as H. rewrite forallb_forall in H.
    intros required Hin. specialize (H required Hin).
    unfold PyStr.mem in H. apply existsb_exists in H as [x [Hx Heq]].
    apply String.eqb_eq in Heq. now subst.
  - intro H. f_equal. apply forallb_forall. intros required Hin.
    unfold PyStr.mem. apply existsb_exists.
    eexists. split; [exact (H required Hin)|]. apply String.eqb_refl.
Qed.

(** C3 fails on the code: a dataset whose header is [PLZ] and a
    configuration without a mapping.  [get_column] resolves the logical
    name [plz] to that column (ignoring case) and the postal-code rule
    would report the value; [is_applicable] compares literally, answers
    no, and the engine skips the rule. *)
Theorem applicability_ignores_case_insensitive_match :
  get_column upper_df plain_config "plz" = Some "PLZ" /\
  is_applicable PLZFormatRule.rule upper_df plain_config = Return false /\
  PLZFormatRule.validate upper_df plain_config =
    Return [PLZFormatRule.finding "PLZ" 0 (CStr "800")
              "PLZ muss 4-stellig sein: '800' (3 Stellen)"] /\
  exists final,
    Engine_validate create_default_registry upper_df plain_config
                    (Some ["R-ADDR-02"]) = Return final /\
    rules_skipped (run_result final) = ["R-ADDR-02"] /\
    rules_executed (run_result final) = [] /\
    errors (run_result final) = [].
Proof.
  split; [reflexivity|]. split; [reflexivity|].
  split; [vm_compute; reflexivity|].
  eexists. split; [vm_compute; reflexivity|]. repeat split.
Qed.

(* ================================================================== *)
(** * Properties of the result views *)

Lemma Severity_eqb_eq (a b : Severity) : Severity_eqb a b = true <-> a = b.
Proof. destruct a, b; simpl; split; congruence. Qed.

Lemma error_rows_spec (r : ValidationResult) (i : Z) :
  In i (error_rows r) <->
  exists e, In e (errors r) /\ severity e = ERROR /\ row_index e = i.
Proof.
  unfold error_rows. rewrite nodup_In, in_map_iff.
  split.
  - intros [e [Hrow Hin]]. apply filter_In in Hin as [Hin Hsev].
    exists e. repeat split; trivial. now apply Severity_eqb_eq.
  - intros [e [Hin [Hsev Hrow]]]. exists e. split; trivial.
    apply filter_In. split; trivial. now apply Severity_eqb_eq.
Qed.

(** C4. [passed_rows] is [total_rows] minus the number of distinct row
    indices carrying an ERROR finding ([error_rows] lists exactly those
    indices, each once); the serialised [passed_rows] and [pass_rate] are
    those of the result; [pass_rate] is the int 100 when [total_rows] is 0
    and otherwise the float [passed_rows / total_rows * 100] rounded to one
    decimal by [round]. *)
Theorem passed_rows_and_pass_rate (r : ValidationResult) :
  (NoDup (error_rows r) /\
   (forall i, In i (error_rows r) <->
              exists e, In e (errors r) /\ severity e = ERROR /\ row_index e = i) /\
   passed_rows r = (total_rows r - Z.of_nat (List.length (error_rows r)))%Z)
  /\ (forall d, to_dict r = Return d ->
                d_passed_rows d = passed_rows r /\
                pass_rate r = Return (d_pass_rate d))
  /\ (total_rows r = 0%Z -> pass_rate r = Return (Int 100))
  /\ ((0 < total_rows r)%Z ->
      pass_rate r =
        bind (PyFloat.int_truediv (passed_rows r) (total_rows r)) (fun q =>
        Return (Float (PyFloat.round1 (PyFloat.mul q (PyFloat.lit 100)))))).
Proof.
  split; [|split; [|split]].
  - split; [apply NoDup_nodup|]. split; [apply error_rows_spec|reflexivity].
  - intros d. unfold to_dict.
    destruct (pass_rate r) as [rate|e]; simpl; [|discriminate].
    intro H; injection H as <-. split; reflexivity.
  - intro H0. unfold pass_rate. now rewrite H0.
  - intro Hpos. unfold pass_rate.
    apply Z.ltb_lt in Hpos. now rewrite Hpos.
Qed.

Lemma passed_rows_and_pass_rate_witness :
  total_rows custom_result = 3%Z /\ error_rows custom_result = [0%Z] /\
  exists d x,
    to_dict custom_result = Return d /\
    d_passed_rows d = 2%Z /\
    d_pass_rate d = Float x /\ PyFloat.repr x = "66.7".
Proof.
  split; [reflexivity|]. split; [reflexivity|].
  destruct (to_dict custom_result) as [d|e] eqn:E; [|discriminate E].
  destruct (proj1 (proj2 (passed_rows_and_pass_rate custom_result)) d E)
    as [Hpassed Hrate].
  rewrite (proj2 (proj2 (proj2 (passed_rows_and_pass_rate custom_result))))
    in Hrate by reflexivity.
  exists d. eexists. split; [reflexivity|]. split; [exact Hpassed|].
  vm_compute in Hrate. injection Hrate as Hrate.
  split; [symmetry; exact Hrate|]. vm_compute. reflexivity.
Defined.

(** ** Counting dicts *)

Lemma dict_get_set_same {V : Type} (d : Dict V) (k : string) (v : V) :
  dict_get (dict_set d k v) k = Some v.
Proof.
  induction d as [|[k' v'] d IH]; simpl.
  - now rewrite String.eqb_refl.
  - destruct (String.eqb k' k) eqn:E; simpl.
    + now rewrite String.eqb_refl.
    + now rewrite E.
Qed.

Lemma dict_get_set_other {V : Type} (d : Dict V) (k k' : string) (v : V) :
  k <> k' -> dict_get (dict_set d k v) k' = dict_get d k'.
Proof.
  intro Hne. induction d as [|[k0 v0] d IH]; simpl.
  - destruct (String.eqb k k') eqn:E; trivial.
    apply String.eqb_eq in E. contradiction.
  - destruct (String.eqb k0 k) eqn:E; simpl.
    + apply String.eqb_eq in E; subst k0.
      destruct (String.eqb k k') eqn:E'; trivial.
      apply String.eqb_eq in E'. contradiction.
    + now rewrite IH.
Qed.

Lemma dict_set_keys {V : Type} (d : Dict V) (k : string) (v : V) :
  dict_keys (dict_set d k v) =
  if PyStr.mem k (dict_keys d) then dict_keys d else dict_keys d ++ [k].
Proof.
  unfold PyStr.mem, dict_keys.
  induction d as [|[k' v'] d IH]; simpl; trivial.
  rewrite (String.eqb_sym k k').
  destruct (String.eqb k' k) eqn:E; simpl.
  - apply String.eqb_eq in E. now subst.
  - rewrite IH. now destruct (existsb (String.eqb k) (map fst d)).
Qed.

Lemma dict_set_NoDup {V : Type} (d : Dict V) (k : string) (v : V) :
  NoDup (dict_keys d) -> NoDup (dict_keys (dict_set d k v)).
Proof.
  intro H. rewrite dict_set_keys.
  destruct (PyStr.mem k (dict_keys d)) eqn:E; trivial.
  apply NoDup_app; [exact H|repeat constructor; intros []|].
  intros x Hx [Heq|[]]. subst x.
  assert (PyStr.mem k (dict_keys d) = true); [|congruence].
  apply existsb_exists. exists k. split; trivial. apply String.eqb_refl.
Qed.

Lemma total_set (d : Dict Z) (k : string) (v : Z) :
  total (dict_set d k v) = (total d - tally d k + v)%Z.
Proof.
  unfold total, tally, dict_values.
  induction d as [|[k' v'] d IH]; simpl.
  - lia.
  - destruct (String.eqb k' k); simpl; [lia|].
    rewrite IH. lia.
Qed.

Lemma tally_increment (counts : Dict Z) (k k' : string) :
  tally (increment counts k) k' =
  (tally counts k' + if String.eqb k k' then 1 else 0)%Z.
Proof.
  unfold increment, tally.
  destruct (String.eqb k k') eqn:E.
  - apply String.eqb_eq in E; subst k'. rewrite dict_get_set_same.
    destruct (dict_get counts k); lia.
  - rewrite dict_get_set_other; [lia|].
    intro Heq. subst. now rewrite String.eqb_refl in E.
Qed.

Lemma total_increment (counts : Dict Z) (k : string) :
  total (increment counts k) = (total counts + 1)%Z.
Proof.
  unfold increment. rewrite total_set. unfold tally.
  destruct (dict_get counts k); lia.
Qed.

Section Tally.

Variable key : ValidationError -> option string.

Lemma fold_tally (l : list ValidationError) (init : Dict Z) (k : string) :
  tally (fold_left (tally_step key) l init) k =
  (tally init k + Z.of_nat (List.length (filter (keyed key k) l)))%Z.
Proof.
  revert init; induction l as [|e l IH]; intro init; simpl; [lia|].
  rewrite IH. unfold tally_step.
  assert (Hk : keyed key k e = match key e with
                               | Some c => String.eqb c k
                               | None => false
                               end) by reflexivity.
  rewrite Hk. destruct (key e) as [c|]; [|lia].
  rewrite tally_increment.
  destruct (String.eqb c k); cbv beta iota; simpl List.length; lia.
Qed.

Lemma fold_total (l : list ValidationError) (init : Dict Z) :
  total (fold_left (tally_step key) l init) =
  (total init + Z.of_nat (List.length (filter (has_key key) l)))%Z.
Proof.
  revert init; induction l as [|e l IH]; intro init; simpl; [lia|].
  rewrite IH. unfold tally_step.
  assert (Hk : has_key key e = match key e with
                               | Some _ => true
                               | None => false
                               end) by reflexivity.
  rewrite Hk. destruct (key e) as [c|]; [|lia].
  rewrite total_increment. simpl List.length. lia.
Qed.

Lemma fold_NoDup (l : list ValidationError) (init : Dict Z) :
  NoDup (dict_keys init) ->
  NoDup (dict_keys (fold_left (tally_step key) l init)).
Proof.
  revert init; induction l as [|e l IH]; intros init H; simpl; trivial.
  apply IH. unfold tally_step. destruct (key e); trivial.
  now apply dict_set_NoDup.
Qed.

End Tally.

Lemma split_on_nonempty (sep : ascii) (s : string) : PyStr.split_on sep s <> [].
Proof.
  induction s as [|c s IH]; simpl; [discriminate|].
  destruct (Ascii.eqb c sep); [discriminate|].
  destruct (PyStr.split_on sep s); [contradiction|discriminate].
Qed.

(** C8, as the code has it.  A finding is counted when its rule id has a
    second dash-separated segment, under the category the table ADDR to
    address, COORD to coordinates, EGID to egid, GEN to general, CUSTOM to
    custom, anything else to general gives for that segment; a finding
    whose rule id has no dash is not counted.  The count of a category is
    the number of findings counted under it, every category has one entry,
    and the counts sum to the number of counted findings. *)
Theorem errors_by_category_tally (r : ValidationResult) :
  (forall cat, tally (get_errors_by_category r) cat =
               Z.of_nat (List.length (filter (counted_as cat) (errors r))))
  /\ total (get_errors_by_category r) =
       Z.of_nat (List.length (filter counted (errors r)))
  /\ NoDup (dict_keys (get_errors_by_category r))
  /\ (forall rid first second rest,
         PyStr.split_on "-" rid = first :: second :: rest ->
         category_key rid = Some (category_of_segment second))
  /\ (forall rid, category_key rid = None <->
                  exists only, PyStr.split_on "-" rid = [only]).
Proof.
  split; [|split; [|split; [|split]]].
  - intro cat. exact (fold_tally (fun e => category_key (rule_id e)) (errors r) [] cat).
  - exact (fold_total (fun e => category_key (rule_id e)) (errors r) []).
  - apply (fold_NoDup (fun e => category_key (rule_id e))). constructor.
  - intros rid first second rest H. unfold category_key. rewrite H.
    unfold category_of_segment, cat_map. cbn [dict_get].
    rewrite !(String.eqb_sym second).
    repeat match goal with
           | |- context [String.eqb ?a second] => destruct (String.eqb a second)
           end; reflexivity.
  - intro rid. unfold category_key.
    destruct (PyStr.split_on "-" rid) as [|a [|b l]] eqn:E.
    + now destruct (split_on_nonempty "-" rid).
    + split; eauto.
    + split; [discriminate|]. intros [only H]. discriminate.
Qed.

(** C8 as stated fails on a result with a finding of a custom rule and one
    whose rule id has no dash: neither is counted as general, and the
    counts sum to less than the number of findings. *)
Lemma custom_and_dashless_ids_are_not_general :
  get_errors_by_category custom_result = [("custom", 1%Z); ("address", 1%Z)] /\
  tally (get_errors_by_category custom_result) "general" <>
    Z.of_nat (List.length
                (filter (fun e => String.eqb (spec_category (rule_id e)) "general")
                        (errors custom_result))) /\
  total (get_errors_by_category custom_result) <>
    Z.of_nat (List.length (errors custom_result)).
Proof.
  split; [reflexivity|]. split; vm_compute; discriminate.
Qed.

(* ================================================================== *)
(** * Properties of single rules *)

(** C5, as the code has it.  On any dataset and configuration in which the
    logical postal-code column resolves and holds the texts 8001, 800,
    ABCD, 12000 and 8001.0 in this order, the rule returns three findings:
    a length finding for 800, a not-numeric finding for ABCD and a length
    finding for 12000 (five digits: the range check is only reached by
    four-digit text); 8001 and 8001.0 yield none. *)
Theorem plz_format_examples (df : DataFrame) (config : Config) (plz_col : string) :
  get_column df config "plz" = Some plz_col ->
  map (fun row => cell (df_columns df) row plz_col) (df_rows df) =
    [CStr "8001"; CStr "800"; CStr "ABCD"; CStr "12000"; CStr "8001.0"] ->
  PLZFormatRule.validate df config =
    Return [PLZFormatRule.finding plz_col 1 (CStr "800")
              "PLZ muss 4-stellig sein: '800' (3 Stellen)";
            PLZFormatRule.finding plz_col 2 (CStr "ABCD")
              "PLZ muss numerisch sein: 'ABCD'";
            PLZFormatRule.finding plz_col 3 (CStr "12000")
              "PLZ muss 4-stellig sein: '12000' (5 Stellen)"].
Proof.
  intros Hcol Hcells. unfold PLZFormatRule.validate, iterrows. rewrite Hcol.
  destruct (df_rows df) as [|r0 [|r1 [|r2 [|r3 [|r4 [|r5 rest]]]]]];
    try discriminate Hcells.
  cbn [map] in Hcells. injection Hcells as H0 H1 H2 H3 H4.
  cbn [for_rows]. rewrite H0, H1, H2, H3, H4.
  vm_compute. reflexivity.
Qed.

Lemma plz_format_examples_witness :
  exists found,
    PLZFormatRule.validate
      {| df_columns := ["plz"]; df_rows := firstn 5 (df_rows plz_df) |}
      plain_config = Return found /\
    map row_index found = [1; 2; 3]%Z.
Proof.
  eexists. split.
  - apply (plz_format_examples
             {| df_columns := ["plz"]; df_rows := firstn 5 (df_rows plz_df) |}
             plain_config "plz"); reflexivity.
  - reflexivity.
Defined.

(** The range check is reached by four-digit text: 0999 is out of range. *)
Lemma plz_below_1000_is_out_of_range (plz_col : string) (idx : Z) :
  PLZFormatRule.check_value plz_col idx (CStr "0999") =
    Return [PLZFormatRule.finding plz_col idx (CStr "0999")
              "PLZ ausserhalb gültiger Bereich: '0999' (muss 1000-9999 sein)"].
Proof. vm_compute. reflexivity. Qed.

(** C5 as stated fails: the finding for 12000 is not an out-of-range
    finding. *)
Lemma plz_12000_is_not_out_of_range :
  ~ exists found e,
      PLZFormatRule.validate plz_df plain_config = Return found /\
      In e found /\ row_index e = 3%Z /\
      PyStr.contains "ausserhalb" (message e) = true.
Proof.
  intros [found [e [Hrun [Hin [Hrow Hmsg]]]]].
  vm_compute in Hrun. injection Hrun as <-.
  repeat (destruct Hin as [<-|Hin]; [vm_compute in Hrow, Hmsg; discriminate|]).
  contradiction.
Qed.

(** C6, as the code has it.  On any dataset and configuration in which
    easting and northing resolve, the coordinate system is not forced, and
    the rows hold (2600000, 1200000), (1000000, 500000) and (7.5, 46.9) in
    this order, the rule returns one finding: for the second row, whose
    coordinate system cannot be detected, so the bounds check is skipped.
    The first and third rows yield none. *)
Theorem swiss_bounds_examples (df : DataFrame) (config : Config)
  (e_col n_col : string) :
  get_column df config "easting" = Some e_col ->
  get_column df config "northing" = Some n_col ->
  SwissBoundsRule.coord_system_of config = "auto" ->
  map (fun row => (cell (df_columns df) row e_col, cell (df_columns df) row n_col))
      (df_rows df) =
    [(CInt 2600000, CInt 1200000); (CInt 1000000, CInt 500000);
     (CFloat f7_5, CFloat f46_9)] ->
  SwissBoundsRule.validate df config =
    Return [SwissBoundsRule.finding (e_col ++ "/" ++ n_col) 1
              "Koordinatensystem nicht erkennbar: E=1000000.0, N=500000.0"
              (CStr "E=1000000.0, N=500000.0")].
Proof.
  intros He Hn Hauto Hcells. unfold SwissBoundsRule.validate, iterrows.
  rewrite He, Hn, Hauto.
  destruct (df_rows df) as [|r0 [|r1 [|r2 [|r3 rest]]]]; try discriminate Hcells.
  cbn [map] in Hcells. injection Hcells as E0 N0 E1 N1 E2 N2.
  cbn [for_rows]. rewrite E0, N0, E1, N1, E2, N2.
  vm_compute. reflexivity.
Qed.

Lemma swiss_bounds_examples_witness :
  exists found,
    SwissBoundsRule.validate coords_df plain_config = Return found /\
    List.length found = 1%nat.
Proof.
  eexists. split.
  - apply (swiss_bounds_examples coords_df plain_config "easting" "northing");
      reflexivity.
  - reflexivity.
Defined.

(** With LV95 forced the same row is checked against the bounds, and both
    axes are reported. *)
Lemma swiss_bounds_forced_lv95 (e_col n_col : string) (idx : Z) :
  SwissBoundsRule.check_values "LV95" e_col n_col idx
                               (CInt 1000000) (CInt 500000) =
    Return [SwissBoundsRule.finding e_col idx
              "E-Koordinate ausserhalb Schweiz: 1000000.0 (LV95: 2485000-2834000)"
              (CFloat (PyFloat.lit 1000000));
            SwissBoundsRule.finding n_col idx
              "N-Koordinate ausserhalb Schweiz: 500000.0 (LV95: 1075000-1296000)"
              (CFloat (PyFloat.lit 500000))].
Proof. vm_compute. reflexivity. Qed.

(** C6 as stated fails: without a forced system the row (1000000, 500000)
    does not yield two findings. *)
Lemma swiss_bounds_undetected_row_has_not_two_findings :
  ~ exists found,
      SwissBoundsRule.validate coords_df plain_config = Return found /\
      List.length (filter (fun e => Z.eqb (row_index e) 1) found) = 2%nat.
Proof.
  intros [found [Hrun Hlen]].
  vm_compute in Hrun. injection Hrun as <-.
  vm_compute in Hlen. discriminate.
Qed.

(** C7. On any dataset and configuration in which the logical EGID column
    resolves and holds 123, 123 and 456 in this order, the rule returns
    exactly one finding, attached to row index 1, whose message lists the
    display rows 2 (the first occurrence, index 0 plus 2) and 3. *)
Theorem egid_uniqueness_example (df : DataFrame) (config : Config)
  (egid_col : string) :
  get_column df config "egid" = Some egid_col ->
  map (fun row => cell (df_columns df) row egid_col) (df_rows df) =
    [CInt 123; CInt 123; CInt 456] ->
  EGIDUniquenessRule.validate df config =
    Return [{| row_index := 1;
               column := egid_col;
               rule_id := "R-EGID-02";
               rule_name := "EGID-Eindeutigkeit";
               severity := WARNING;
               message := "EGID '123' kommt mehrfach vor (Zeilen: 2, 3)";
               value := CStr "123";
               suggestion :=
                 Some "Prüfen Sie, ob es sich um Duplikate oder verschiedene Einheiten handelt" |}].
Proof.
  intros Hcol Hcells. unfold EGIDUniquenessRule.validate. rewrite Hcol.
  destruct (df_rows df) as [|r0 [|r1 [|r2 [|r3 rest]]]]; try discriminate Hcells.
  cbn [map] in Hcells. injection Hcells as H0 H1 H2.
  cbn [EGIDUniquenessRule.track]. rewrite H0, H1, H2.
  vm_compute. reflexivity.
Qed.

Lemma egid_uniqueness_example_witness :
  exists e,
    EGIDUniquenessRule.validate egid_df plain_config = Return [e] /\
    row_index e = 1%Z /\
    message e = "EGID '123' kommt mehrfach vor (Zeilen: 2, 3)".
Proof.
  eexists. split.
  - apply (egid_uniqueness_example egid_df plain_config "egid"); reflexivity.
  - split; reflexivity.
Defined.

Lemma errors_by_category_tally_witness :
  tally (get_errors_by_category custom_result) "custom" = 1%Z /\
  total (get_errors_by_category custom_result) = 2%Z /\
  category_key "R-GEN-01" = Some "general" /\
  category_key "LEGACY" = None.
Proof.
  destruct (errors_by_category_tally custom_result)
    as [Htally [Htotal [_ [Hsegment Hnone]]]].
  split; [rewrite Htally; reflexivity|].
  split; [rewrite Htotal; reflexivity|].
  split.
  - apply (Hsegment "R-GEN-01" "R" "GEN" ["01"]). reflexivity.
  - apply Hnone. exists "LEGACY". reflexivity.
Defined.

(* ================================================================== *)
(** * Further properties: the registry *)

(** X1. Lookup after [register]: the rule is found under its own id, and
    the lookup of every other id is as before. *)
Theorem register_then_get_rule (registry : RuleRegistry) (r : BaseRule) :
  get_rule (register registry r) (rule_key r) = Some r
  /\ forall rid, rid <> rule_key r ->
                 get_rule (register registry r) rid = get_rule registry rid.
Proof.
  split.
  - apply dict_get_set_same.
  - intros rid Hne. apply dict_get_set_other.
    intro Heq. apply Hne. symmetry. exact Heq.
Qed.

Lemma register_then_get_rule_witness :
  get_rule (register create_default_registry PLZFormatRule.rule) "R-ADDR-02"
  = Some PLZFormatRule.rule
  /\ get_rule (register create_default_registry PLZFormatRule.rule) "R-GEN-01"
     = Some DuplicateRowsRule.rule.
Proof.
  destruct (register_then_get_rule create_default_registry PLZFormatRule.rule)
    as [Hsame Hother].
  split; [exact Hsame|].
  rewrite Hother; [reflexivity|]. discriminate.
Defined.

Lemma dict_set_entries {V : Type} (P : string * V -> Prop) (d : Dict V)
  (k : string) (v : V) :
  Forall P d -> P (k, v) -> Forall P (dict_set d k v).
Proof.
  intros Hd Hkv. induction d as [|[k' v'] d IH]; simpl.
  - now constructor.
  - inversion Hd; subst. destruct (String.eqb k' k); constructor; auto.
Qed.

Lemma register_well_keyed (registry : RuleRegistry) (r : BaseRule) :
  well_keyed registry -> well_keyed (register registry r).
Proof.
  intros [Hnodup Hkeys]. split.
  - now apply dict_set_NoDup.
  - apply dict_set_entries; trivial.
Qed.

Lemma registered_well_keyed (rules : list BaseRule) (registry : RuleRegistry) :
  well_keyed registry -> well_keyed (fold_left register rules registry).
Proof.
  revert registry; induction rules as [|r rules IH]; intros registry H; simpl.
  - exact H.
  - apply IH. now apply register_well_keyed.
Qed.

Lemma find_over_app {A : Type} (f : A -> bool) (l1 l2 : list A) :
  find f (l1 ++ l2) = match find f l1 with
                      | Some a => Some a
                      | None => find f l2
                      end.
Proof.
  induction l1 as [|a l1 IH]; simpl; trivial. now destruct (f a).
Qed.

Lemma registered_lookup (rules : list BaseRule) (registry : RuleRegistry)
  (rid : string) :
  get_rule (fold_left register rules registry) rid =
  match find (fun r => String.eqb (rule_key r) rid) (rev rules) with
  | Some r => Some r
  | None => get_rule registry rid
  end.
Proof.
  revert registry; induction rules as [|r rules IH]; intro registry; simpl.
  - reflexivity.
  - rewrite IH, find_over_app.
    destruct (find (fun r0 => String.eqb (rule_key r0) rid) (rev rules)); trivial.
    simpl. destruct (String.eqb (rule_key r) rid) eqn:E.
    + apply String.eqb_eq in E. subst rid. apply dict_get_set_same.
    + apply dict_get_set_other. intro Heq. unfold rule_key in E.
      rewrite Heq, String.eqb_refl in E. discriminate.
Qed.

Lemma well_keyed_ids (registry : RuleRegistry) :
  well_keyed registry ->
  get_rule_ids registry = map rule_key (get_all_rules registry).
Proof.
  intros [_ Hkeys]. unfold get_rule_ids, get_all_rules, dict_keys, dict_values.
  induction Hkeys as [|[k v] d Hkv _ IH]; simpl; trivial.
  simpl in Hkv. now rewrite Hkv, IH.
Qed.

(** X2. A registry filled by registering a list of rules one after the
    other: its ids are distinct, each is the id of the rule stored under
    it, and looking an id up gives the rule registered last under it (none
    when no rule of the list has the id): a later registration replaces. *)
Theorem registry_keeps_last_registration (rules : list BaseRule) :
  let registry := fold_left register rules empty_registry in
  NoDup (get_rule_ids registry)
  /\ get_rule_ids registry = map rule_key (get_all_rules registry)
  /\ forall rid,
       get_rule registry rid =
       find (fun r => String.eqb (rule_key r) rid) (rev rules).
Proof.
  intro registry.
  assert (H : well_keyed registry).
  { apply registered_well_keyed. split; constructor. }
  split; [exact (proj1 H)|]. split; [exact (well_keyed_ids registry H)|].
  intro rid. unfold registry. rewrite registered_lookup.
  now destruct (find (fun r => String.eqb (rule_key r) rid) (rev rules)).
Qed.

Lemma leb_false_flip (a b : string) :
  String.leb a b = false -> String.leb b a = true.
Proof.
  intro E. destruct (String.leb_total a b) as [H|H]; [|exact H].
  rewrite H in E. discriminate.
Qed.

Lemma insert_by_id_sorted (r : BaseRule) (l : list BaseRule) :
  Sorted id_le (map metadata l) -> Sorted id_le (map metadata (insert_by_id r l)).
Proof.
  induction l as [|y l IH]; simpl; intro H.
  - repeat constructor.
  - destruct (String.leb (id (metadata r)) (id (metadata y))) eqn:E; simpl.
    + constructor; trivial. constructor. exact E.
    + inversion H as [|? ? Hs Hh]; subst. constructor; [now apply IH|].
      destruct l as [|z l]; simpl.
      * constructor. now apply leb_false_flip.
      * destruct (String.leb (id (metadata r)) (id (metadata z))); simpl.
        -- constructor. now apply leb_false_flip.
        -- inversion Hh; subst. now constructor.
Qed.

Lemma insert_by_id_perm (r : BaseRule) (l : list BaseRule) :
  Permutation (insert_by_id r l) (r :: l).
Proof.
  induction l as [|y l IH]; simpl; trivial.
  destruct (String.leb (id (metadata r)) (id (metadata y))); trivial.
  rewrite IH. apply perm_swap.
Qed.

(** X3. [get_documentation] lists the metadata of every registered rule,
    each once, in ascending order of the rule ids. *)
Theorem documentation_is_sorted_by_id (registry : RuleRegistry) :
  Sorted id_le (get_documentation registry)
  /\ Permutation (get_documentation registry)
                 (map metadata (get_all_rules registry)).
Proof.
  unfold get_documentation, get_all_rules.
  induction (dict_values registry) as [|r l [IHs IHp]]; simpl.
  - split; constructor.
  - split.
    + now apply insert_by_id_sorted.
    + rewrite (Permutation_map metadata (insert_by_id_perm r _)). simpl.
      now constructor.
Qed.

Lemma category_partition (l : list BaseRule) :
  (List.length (filter (fun r => Category_eqb (category (metadata r)) ADDRESS) l)
   + List.length (filter (fun r => Category_eqb (category (metadata r)) COORDINATES) l)
   + List.length (filter (fun r => Category_eqb (category (metadata r)) EGID) l)
   + List.length (filter (fun r => Category_eqb (category (metadata r)) GENERAL) l)
   + List.length (filter (fun r => Category_eqb (category (metadata r)) CUSTOM) l)
   = List.length l)%nat.
Proof.
  induction l as [|r l IH]; simpl; trivial.
  destruct (category (metadata r)); simpl; lia.
Qed.

(** X4. [get_rules_by_category] lists exactly the registered rules of the
    category, and the listings of the five categories together hold every
    registered rule once. *)
Theorem rules_by_category_partition (registry : RuleRegistry) :
  (forall c r, In r (get_rules_by_category registry c) <->
               In r (get_all_rules registry) /\ category (metadata r) = c)
  /\ (List.length (get_rules_by_category registry ADDRESS)
      + List.length (get_rules_by_category registry COORDINATES)
      + List.length (get_rules_by_category registry EGID)
      + List.length (get_rules_by_category registry GENERAL)
      + List.length (get_rules_by_category registry CUSTOM)
      = List.length (get_all_rules registry))%nat.
Proof.
  split.
  - intros c r. unfold get_rules_by_category, get_all_rules.
    rewrite filter_In. split; intros [Hin Hc]; split; trivial.
    + destruct (category (metadata r)), c; simpl in Hc; congruence.
    + rewrite Hc. now destruct c.
  - apply category_partition.
Qed.

(* ================================================================== *)
(** * Further properties: the result views *)

Lemma severity_partition (l : list ValidationError) :
  (List.length (filter (fun e => Severity_eqb (severity e) ERROR) l)
   + List.length (filter (fun e => Severity_eqb (severity e) WARNING) l)
   + List.length (filter (fun e => Severity_eqb (severity e) INFO) l)
   = List.length l)%nat.
Proof.
  induction l as [|e l IH]; simpl; trivial.
  destruct (severity e); simpl; lia.
Qed.

(** X5. Every finding is counted by exactly one of [error_count],
    [warning_count] and [info_count]: the three add up to the number of
    findings. *)
Theorem severity_counts_add_up (r : ValidationResult) :
  (error_count r + warning_count r + info_count r
   = Z.of_nat (List.length (errors r)))%Z
  /\ (0 <= error_count r)%Z /\ (0 <= warning_count r)%Z /\ (0 <= info_count r)%Z.
Proof.
  unfold error_count, warning_count, info_count, count_severity.
  pose proof (severity_partition (errors r)). lia.
Qed.

Lemma nodup_length_le (l : list Z) :
  (List.length (nodup Z.eq_dec l) <= List.length l)%nat.
Proof.
  induction l as [|x l IH]; simpl; trivial.
  destruct (in_dec Z.eq_dec x l); simpl; lia.
Qed.

Lemma filter_nothing {A : Type} (f : A -> bool) (l : list A) :
  (forall a, In a l -> f a = false) -> filter f l = [].
Proof.
  induction l as [|a l IH]; simpl; intro H; trivial.
  rewrite (H a (or_introl eq_refl)). apply IH. intros b Hb. apply H. now right.
Qed.

Lemma filter_everything {A : Type} (f : A -> bool) (l : list A) :
  (forall a, f a = true) -> filter f l = l.
Proof.
  intro H. induction l as [|a l IH]; simpl; trivial. now rewrite H, IH.
Qed.

(** X6. [passed_rows] never exceeds [total_rows] and falls short of it by
    at most the number of ERROR findings; it equals [total_rows] exactly
    when no finding has severity ERROR, so warnings and infos never lower
    it. *)
Theorem passed_rows_bounds (r : ValidationResult) :
  (total_rows r - error_count r <= passed_rows r <= total_rows r)%Z
  /\ (passed_rows r = total_rows r <->
      forall e, In e (errors r) -> severity e <> ERROR).
Proof.
  unfold passed_rows, error_count, count_severity, error_rows.
  set (errs := filter (fun e => Severity_eqb (severity e) ERROR) (errors r)).
  pose proof (nodup_length_le (map row_index errs)) as Hle.
  rewrite length_map in Hle.
  split; [lia|]. split.
  - intros Heq e Hin Hsev.
    assert (Hmem : In (row_index e) (nodup Z.eq_dec (map row_index errs))).
    { apply nodup_In, in_map, filter_In. split; trivial.
      now apply Severity_eqb_eq. }
    destruct (nodup Z.eq_dec (map row_index errs)); [contradiction|].
    simpl List.length in Heq. lia.
  - intro Hnone.
    assert (Hnil : errs = []).
    { apply filter_nothing. intros e Hin.
      destruct (Severity_eqb (severity e) ERROR) eqn:E; trivial.
      apply Severity_eqb_eq in E. now destruct (Hnone e Hin). }
    rewrite Hnil. simpl. lia.
Qed.

Lemma tally_present (counts : Dict Z) (k : string) :
  In k (dict_keys counts) <-> dict_get counts k <> None.
Proof.
  unfold dict_keys. induction counts as [|[k' v] d IH]; simpl.
  - split; [contradiction|congruence].
  - destruct (String.eqb k' k) eqn:E.
    + apply String.eqb_eq in E. split; [discriminate|now left].
    + rewrite <- IH. split; [intros [H|H]; trivial|now right].
      subst. now rewrite String.eqb_refl in E.
Qed.

Lemma increment_present (counts : Dict Z) (k k' : string) :
  dict_get (increment counts k) k' <> None <->
  k = k' \/ dict_get counts k' <> None.
Proof.
  unfold increment. destruct (String.eqb k k') eqn:E.
  - apply String.eqb_eq in E. subst k'. rewrite dict_get_set_same.
    split; [now left|discriminate].
  - assert (Hne : k <> k').
    { intro Heq. subst. now rewrite String.eqb_refl in E. }
    rewrite dict_get_set_other by exact Hne.
    split; [now right|intros [H|H]; [contradiction|exact H]].
Qed.

Lemma errors_by_rule_keys (l : list ValidationError) (init : Dict Z)
  (k : string) :
  dict_get (fold_left (fun counts e => increment counts (rule_id e)) l init) k
    <> None <->
  dict_get init k <> None \/ exists e, In e l /\ rule_id e = k.
Proof.
  revert init; induction l as [|e l IH]; intro init; simpl.
  - split; [now left|intros [H|[e [[] _]]]; exact H].
  - rewrite IH, increment_present. split.
    + intros [[H|H]|[e' [Hin H]]]; eauto.
    + intros [H|[e' [[->|Hin] H]]]; eauto.
Qed.

(** X7. [get_errors_by_rule] holds one entry for every rule id that occurs
    among the findings and for no other; the entry of an id is the number
    of findings carrying it, and the entries add up to the number of
    findings. *)
Theorem errors_by_rule_tally (r : ValidationResult) :
  NoDup (dict_keys (get_errors_by_rule r))
  /\ (forall rid, In rid (dict_keys (get_errors_by_rule r)) <->
                  exists e, In e (errors r) /\ rule_id e = rid)
  /\ (forall rid, tally (get_errors_by_rule r) rid =
                  Z.of_nat (List.length
                              (filter (fun e => String.eqb (rule_id e) rid)
                                      (errors r))))
  /\ total (get_errors_by_rule r) = Z.of_nat (List.length (errors r)).
Proof.
  unfold get_errors_by_rule. split; [|split; [|split]].
  - apply (fold_NoDup (fun e => Some (rule_id e))). constructor.
  - intro rid. rewrite tally_present, errors_by_rule_keys. simpl.
    split; [intros [H|H]; [congruence|exact H]|now right].
  - intro rid.
    exact (fold_tally (fun e => Some (rule_id e)) (errors r) [] rid).
  - pose proof (fold_total (fun e => Some (rule_id e)) (errors r) []) as Ht.
    rewrite filter_everything in Ht by reflexivity. exact Ht.
Qed.

(* ================================================================== *)
(** * Further properties: column resolution and detection *)

Lemma mem_In (x : string) (l : list string) : PyStr.mem x l = true <-> In x l.
Proof.
  unfold PyStr.mem. rewrite existsb_exists. split.
  - intros [y [Hy Heq]]. apply String.eqb_eq in Heq. now subst.
  - intro H. exists x. split; trivial. apply String.eqb_refl.
Qed.

Lemma find_none_iff {A : Type} (f : A -> bool) (l : list A) :
  find f l = None <-> forall a, In a l -> f a = false.
Proof.
  induction l as [|a l IH]; simpl.
  - split; [contradiction|trivial].
  - destruct (f a) eqn:E.
    + split; [discriminate|]. intro H. rewrite (H a (or_introl eq_refl)) in E.
      discriminate.
    + rewrite IH. split.
      * intros H b [<-|Hb]; auto.
      * intros H b Hb. apply H. now right.
Qed.

(** X8. [get_column] answers with a column of the dataset that equals the
    resolved name up to case; the resolved name itself when it is a
    column; and [None] exactly when no column equals it up to case. *)
Theorem get_column_finds_column (df : DataFrame) (config : Config)
  (logical_name : string) :
  (forall col, get_column df config logical_name = Some col ->
     In col (df_columns df)
     /\ PyStr.lower col = PyStr.lower (resolve config logical_name))
  /\ (In (resolve config logical_name) (df_columns df) ->
      get_column df config logical_name = Some (resolve config logical_name))
  /\ (get_column df config logical_name = None <->
      forall col, In col (df_columns df) ->
                  PyStr.lower col <> PyStr.lower (resolve config logical_name)).
Proof.
  unfold get_column. fold (resolve config logical_name).
  set (actual_col := resolve config logical_name).
  destruct (PyStr.mem actual_col (df_columns df)) eqn:E.
  - apply mem_In in E. split; [|split].
    + intros col H. injection H as <-. now split.
    + trivial.
    + split; [discriminate|]. intro H. now destruct (H actual_col E).
  - split; [|split].
    + intros col H. pose proof (find_some _ _ H) as [Hin Heq].
      apply String.eqb_eq in Heq. now split.
    + intro Hin. apply mem_In in Hin. congruence.
    + rewrite find_none_iff. split; intros H col Hin.
      * apply String.eqb_neq. now apply H.
      * apply String.eqb_neq. now apply H.
Qed.

(** X9. When the default applicability check answers [True], every
    required logical name resolves, through [get_column], to exactly the
    name the check looked for: the mapped name, or the logical name where
    the mapping has none. *)
Theorem applicable_columns_resolve (md : RuleMetadata) (df : DataFrame)
  (config : Config) (required : string) :
  default_is_applicable md df config = Return true ->
  In required (required_columns md) ->
  get_column df config required = Some (resolve config required).
Proof.
  intros Happ Hin. apply default_is_applicable_iff with (required := required) in Happ;
    trivial.
  unfold get_column. fold (resolve config required) in *.
  apply mem_In in Happ. now rewrite Happ.
Qed.

Lemma applicable_columns_resolve_witness :
  get_column coords_df plain_config "northing" = Some "northing".
Proof.
  apply (applicable_columns_resolve SwissBoundsRule.metadata coords_df
                                    plain_config "northing").
  - reflexivity.
  - simpl. right. left. reflexivity.
Defined.

Lemma dict_get_absent {V : Type} (d : Dict V) (k : string) :
  ~ In k (dict_keys d) -> dict_get d k = None.
Proof.
  unfold dict_keys. induction d as [|[k' v] d IH]; simpl; trivial.
  intro H. destruct (String.eqb k' k) eqn:E.
  - apply String.eqb_eq in E. destruct H. now left.
  - apply IH. intro Hin. apply H. now right.
Qed.

Lemma cols_lower_lookup (cols : list string) (init : Dict string) (n : string) :
  dict_get (fold_left (fun d col => dict_set d (PyStr.lower col) col) cols init) n
  = match find (fun col => String.eqb (PyStr.lower col) n) (rev cols) with
    | Some col => Some col
    | None => dict_get init n
    end.
Proof.
  revert init; induction cols as [|c cols IH]; intro init; simpl; trivial.
  rewrite IH, find_over_app.
  destruct (find (fun col => String.eqb (PyStr.lower col) n) (rev cols)); trivial.
  simpl. destruct (String.eqb (PyStr.lower c) n) eqn:E.
  - apply String.eqb_eq in E. subst n. apply dict_get_set_same.
  - apply dict_get_set_other. now apply String.eqb_neq.
Qed.

Lemma df_cols_lower_lookup (df : DataFrame) (n : string) :
  dict_get (df_cols_lower df) n
  = find (fun col => String.eqb (PyStr.lower col) n) (rev (df_columns df)).
Proof.
  unfold df_cols_lower. rewrite cols_lower_lookup.
  now destruct (find _ (rev (df_columns df))).
Qed.

Lemma first_known_some (cols_lower : Dict string) (names : list string)
  (col : string) :
  first_known cols_lower names = Some col ->
  exists n, In n names /\ dict_get cols_lower n = Some col.
Proof.
  induction names as [|n names IH]; simpl; [discriminate|].
  destruct (dict_get cols_lower n) as [c|] eqn:E.
  - intro H. injection H as <-. exists n. split; [now left|trivial].
  - intro H. destruct (IH H) as [n' [Hin Hget]]. exists n'. split; [now right|trivial].
Qed.

Lemma first_known_none (cols_lower : Dict string) (names : list string) :
  first_known cols_lower names = None <->
  forall n, In n names -> dict_get cols_lower n = None.
Proof.
  induction names as [|n names IH]; simpl.
  - split; [contradiction|trivial].
  - destruct (dict_get cols_lower n) as [c|] eqn:E.
    + split; [discriminate|]. intro H. rewrite (H n (or_introl eq_refl)) in E.
      discriminate.
    + rewrite IH. split.
      * intros H n' [<-|Hin]; auto.
      * intros H n' Hin. apply H. now right.
Qed.

Lemma detect_lookup (cols_lower : Dict string) (pats : Dict (list string))
  (init : Dict string) (k : string) :
  NoDup (dict_keys pats) ->
  dict_get (fold_left (detect_step cols_lower) pats init) k
  = match dict_get pats k with
    | Some names =>
      match first_known cols_lower names with
      | Some col => Some col
      | None => dict_get init k
      end
    | None => dict_get init k
    end.
Proof.
  revert init; induction pats as [|[k0 names0] pats IH]; intros init Hnd;
    cbn [fold_left dict_get]; trivial.
  inversion Hnd as [|? ? Hnotin Hnd']; subst. rewrite (IH _ Hnd').
  destruct (String.eqb k0 k) eqn:E.
  - apply String.eqb_eq in E. subst k0.
    rewrite (dict_get_absent pats k Hnotin). unfold detect_step.
    destruct (first_known cols_lower names0); trivial. apply dict_get_set_same.
  - assert (Hsame : dict_get (detect_step cols_lower init (k0, names0)) k
                    = dict_get init k).
    { unfold detect_step. destruct (first_known cols_lower names0); trivial.
      apply dict_get_set_other. now apply String.eqb_neq. }
    now rewrite Hsame.
Qed.

Lemma detect_keys (cols_lower : Dict string) (pats : Dict (list string))
  (init : Dict string) :
  NoDup (dict_keys init) ->
  NoDup (dict_keys (fold_left (detect_step cols_lower) pats init)).
Proof.
  revert init; induction pats as [|[k0 names0] pats IH]; intros init H; simpl;
    trivial.
  apply IH. destruct (first_known cols_lower names0); trivial.
  now apply dict_set_NoDup.
Qed.

Lemma patterns_keys_distinct : NoDup (dict_keys patterns).
Proof.
  assert (H : nodup string_dec (dict_keys patterns) = dict_keys patterns)
    by (vm_compute; reflexivity).
  rewrite <- H. apply NoDup_nodup.
Qed.

Lemma detect_columns_lookup (df : DataFrame) (logical_name : string) :
  dict_get (detect_columns df) logical_name
  = match dict_get patterns logical_name with
    | Some names => first_known (df_cols_lower df) names
    | None => None
    end.
Proof.
  unfold detect_columns. rewrite detect_lookup by exact patterns_keys_distinct.
  destruct (dict_get patterns logical_name) as [names|]; trivial.
  now destruct (first_known (df_cols_lower df) names).
Qed.

(** X10. [detect_columns] maps a logical name only to a column of the
    dataset whose lower-cased name is one of the synonyms listed for it,
    holds every logical name at most once, and leaves a listed logical
    name out exactly when no column's lower-cased name is one of its
    synonyms. *)
Theorem detect_columns_sound_and_complete (df : DataFrame) :
  NoDup (dict_keys (detect_columns df))
  /\ (forall logical_name col,
        dict_get (detect_columns df) logical_name = Some col ->
        In col (df_columns df)
        /\ exists names, dict_get patterns logical_name = Some names
                         /\ In (PyStr.lower col) names)
  /\ (forall logical_name names,
        dict_get patterns logical_name = Some names ->
        (dict_get (detect_columns df) logical_name = None <->
         forall col, In col (df_columns df) -> ~ In (PyStr.lower col) names)).
Proof.
  split; [|split].
  - apply detect_keys. constructor.
  - intros logical_name col. rewrite detect_columns_lookup.
    destruct (dict_get patterns logical_name) as [names|]; [|discriminate].
    intro H. apply first_known_some in H as [n [Hin Hget]].
    rewrite df_cols_lower_lookup in Hget.
    apply find_some in Hget as [Hcol Heq]. apply String.eqb_eq in Heq.
    split; [now apply in_rev|]. exists names. split; trivial. now rewrite Heq.
  - intros logical_name names Hpat. rewrite detect_columns_lookup, Hpat.
    rewrite first_known_none. split.
    + intros H col Hcol Hin. specialize (H _ Hin).
      rewrite df_cols_lower_lookup, find_none_iff in H.
      specialize (H col (proj1 (in_rev _ _) Hcol)).
      now rewrite String.eqb_refl in H.
    + intros H n Hin. rewrite df_cols_lower_lookup, find_none_iff.
      intros col Hcol. apply String.eqb_neq. intro Heq. subst n.
      apply (H col); trivial. now apply in_rev.
Qed.

(** X11. A configuration whose column mapping is the one [detect_columns]
    found: a rule all of whose required logical names were detected is
    applicable under the default check, and [get_column] resolves each of
    them to the detected column. *)
Theorem detected_columns_make_rule_applicable (md : RuleMetadata)
  (df : DataFrame) (options : option Options) :
  (forall required, In required (required_columns md) ->
                    dict_get (detect_columns df) required <> None) ->
  let config := {| cfg_columns := Some (detect_columns df);
                   cfg_options := options |} in
  default_is_applicable md df config = Return true
  /\ forall required, In required (required_columns md) ->
       get_column df config required = dict_get (detect_columns df) required.
Proof.
  intros Hall config.
  assert (Hres : forall required, In required (required_columns md) ->
            dict_get (detect_columns df) required = Some (resolve config required)
            /\ In (resolve config required) (df_columns df)).
  { intros required Hin. specialize (Hall required Hin).
    unfold resolve, config, get_columns; simpl.
    destruct (dict_get (detect_columns df) required) as [col|] eqn:E;
      [|congruence].
    split; trivial.
    rewrite detect_columns_lookup in E.
    destruct (dict_get patterns required) as [names|]; [|discriminate].
    apply first_known_some in E as [n [_ Hget]].
    rewrite df_cols_lower_lookup in Hget. apply find_some in Hget as [Hcol _].
    now apply in_rev. }
  split.
  - apply default_is_applicable_iff. intros required Hin.
    exact (proj2 (Hres required Hin)).
  - intros required Hin. destruct (Hres required Hin) as [-> Hcol].
    unfold get_column. fold (resolve config required).
    apply mem_In in Hcol. now rewrite Hcol.
Qed.

Lemma detected_columns_make_rule_applicable_witness :
  default_is_applicable PLZFormatRule.metadata upper_df
    {| cfg_columns := Some (detect_columns upper_df);
       cfg_options := None |} = Return true.
Proof.
  apply (detected_columns_make_rule_applicable PLZFormatRule.metadata upper_df
                                               None).
  intros required [<-|[]]. vm_compute. discriminate.
Defined.

(* ================================================================== *)
(** * Further properties: the breakdown by a dimension column *)




Section Dimension.

Variable df : DataFrame.
Variable dimension_col : string.











End Dimension.







(* ================================================================== *)
(** * Further properties: the findings of the built-in rules *)

(** Case analysis on everything a returned value was computed from. *)
Ltac crack H :=
  repeat (cbv beta iota zeta in H;
          match type of H with
          | context [match ?x with _ => _ end] =>
            lazymatch x with
            | context [match _ with _ => _ end] => fail
            | _ => destruct x eqn:?; try discriminate H
            end
          end);
  cbv beta iota zeta in H.

Lemma Return_inj {A : Type} (a b : A) : Return a = Return b -> a = b.
Proof. congruence. Qed.

Ltac mark :=
  split; [split; reflexivity|];
  split; [reflexivity|];
  first [left; reflexivity | right; split; reflexivity].

Ltac stamp_cases H :=
  unfold bind, except_ValueError, except_ValueError_TypeError in H;
  crack H; apply Return_inj in H; subst; cbn [app];
  repeat (constructor; try mark).

Lemma for_rows_marked (md : RuleMetadata)
  (body : Z -> Row -> Raises (list ValidationError)) :
  (forall idx row found, body idx row = Return found ->
                         Forall (marked_at md idx) found) ->
  forall rows idx found,
    for_rows idx rows body = Return found ->
    Forall (fun e => (rule_id e = id md
                      /\ (idx <= row_index e
                          < idx + Z.of_nat (List.length rows))%Z)
                     /\ labelled md e)
           found.
Proof.
  intros Hbody rows; induction rows as [|row rows IH]; intros idx found H;
    cbn [for_rows] in H.
  - injection H as <-. constructor.
  - destruct (body idx row) as [first|] eqn:E; [|discriminate].
    cbn [bind] in H.
    destruct (for_rows (idx + 1) rows body) as [more|] eqn:E'; [|discriminate].
    cbn [bind] in H. injection H as <-.
    apply Forall_app. split.
    + apply Hbody in E. eapply Forall_impl; [|exact E].
      intros e [[Hid Hrow] Hlab]. split; [split; [exact Hid|cbn [List.length]; lia]|exact Hlab].
    + apply IH in E'. eapply Forall_impl; [|exact E'].
      intros e [[Hid Hrow] Hlab]. split; [split; [exact Hid|cbn [List.length]; lia]|exact Hlab].
Qed.

Lemma iterrows_stamped (md : RuleMetadata) (df : DataFrame)
  (body : Z -> Row -> Raises (list ValidationError)) (found : list ValidationError) :
  (forall idx row found, body idx row = Return found ->
                         Forall (marked_at md idx) found) ->
  iterrows df body = Return found ->
  Forall (marked md (df_len df)) found.
Proof.
  intros Hbody H. unfold iterrows in H.
  apply (for_rows_marked md body Hbody) in H.
  eapply Forall_impl; [|exact H]. intros e [[Hid Hrow] Hlab].
  split; [split; [exact Hid|unfold df_len; lia]|exact Hlab].
Qed.

Lemma nothing_stamped (md : RuleMetadata) (n : Z) (found : list ValidationError) :
  Return (@nil ValidationError) = Return found -> Forall (marked md n) found.
Proof. intro H. injection H as <-. constructor. Qed.

Lemma plz_stamped (df : DataFrame) (config : Config) (found : list ValidationError) :
  PLZFormatRule.validate df config = Return found ->
  Forall (marked PLZFormatRule.metadata (df_len df)) found.
Proof.
  unfold PLZFormatRule.validate.
  destruct (get_column df config "plz") as [col|]; [|apply nothing_stamped].
  apply iterrows_stamped. intros idx row found' H.
  unfold PLZFormatRule.check_value in H. stamp_cases H.
Qed.

Lemma canton_stamped (df : DataFrame) (config : Config)
  (found : list ValidationError) :
  CantonValidationRule.validate df config = Return found ->
  Forall (marked CantonValidationRule.metadata (df_len df)) found.
Proof.
  unfold CantonValidationRule.validate.
  destruct (get_column df config "kanton") as [col|]; [|apply nothing_stamped].
  apply iterrows_stamped. intros idx row found' H.
  unfold CantonValidationRule.check_value in H. stamp_cases H.
Qed.

Lemma street_stamped (df : DataFrame) (config : Config)
  (found : list ValidationError) :
  StreetFormatRule.validate df config = Return found ->
  Forall (marked StreetFormatRule.metadata (df_len df)) found.
Proof.
  unfold StreetFormatRule.validate.
  destruct (get_column df config "strasse") as [col|]; [|apply nothing_stamped].
  apply iterrows_stamped. intros idx row found' H.
  unfold StreetFormatRule.check_value in H. stamp_cases H.
Qed.

Lemma coordinate_presence_stamped (df : DataFrame) (config : Config)
  (found : list ValidationError) :
  CoordinatePresenceRule.validate df config = Return found ->
  Forall (marked CoordinatePresenceRule.metadata (df_len df)) found.
Proof.
  unfold CoordinatePresenceRule.validate.
  destruct (get_column df config "easting") as [e_col|];
    [|apply nothing_stamped].
  destruct (get_column df config "northing") as [n_col|];
    [|apply nothing_stamped].
  apply iterrows_stamped. intros idx row found' H.
  unfold CoordinatePresenceRule.check_values in H. stamp_cases H.
Qed.

Lemma swiss_bounds_stamped (df : DataFrame) (config : Config)
  (found : list ValidationError) :
  SwissBoundsRule.validate df config = Return found ->
  Forall (marked SwissBoundsRule.metadata (df_len df)) found.
Proof.
  unfold SwissBoundsRule.validate.
  destruct (get_column df config "easting") as [e_col|];
    [|apply nothing_stamped].
  destruct (get_column df config "northing") as [n_col|];
    [|apply nothing_stamped].
  apply iterrows_stamped. intros idx row found' H.
  unfold SwissBoundsRule.check_values, SwissBoundsRule.check_bounds in H.
  stamp_cases H.
Qed.

Lemma coordinate_precision_stamped (df : DataFrame) (config : Config)
  (found : list ValidationError) :
  CoordinatePrecisionRule.validate df config = Return found ->
  Forall (marked CoordinatePrecisionRule.metadata (df_len df)) found.
Proof.
  unfold CoordinatePrecisionRule.validate.
  destruct (get_column df config "easting") as [e_col|];
    [|apply nothing_stamped].
  destruct (get_column df config "northing") as [n_col|];
    [|apply nothing_stamped].
  apply iterrows_stamped. intros idx row found' H.
  unfold CoordinatePrecisionRule.check_values in H. stamp_cases H.
Qed.

Lemma egid_format_stamped (df : DataFrame) (config : Config)
  (found : list ValidationError) :
  EGIDFormatRule.validate df config = Return found ->
  Forall (marked EGIDFormatRule.metadata (df_len df)) found.
Proof.
  unfold EGIDFormatRule.validate.
  destruct (get_column df config "egid") as [col|]; [|apply nothing_stamped].
  apply iterrows_stamped. intros idx row found' H.
  unfold EGIDFormatRule.check_value in H. stamp_cases H.
Qed.

Lemma egid_presence_stamped (df : DataFrame) (config : Config)
  (found : list ValidationError) :
  EGIDPresenceRule.validate df config = Return found ->
  Forall (marked EGIDPresenceRule.metadata (df_len df)) found.
Proof.
  unfold EGIDPresenceRule.validate.
  destruct (get_column df config "egid") as [col|]; [|apply nothing_stamped].
  apply iterrows_stamped. intros idx row found' H.
  unfold EGIDPresenceRule.check_value in H. stamp_cases H.
Qed.

Lemma empty_rows_stamped (df : DataFrame) (config : Config)
  (found : list ValidationError) :
  EmptyRowsRule.validate df config = Return found ->
  Forall (marked EmptyRowsRule.metadata (df_len df)) found.
Proof.
  unfold EmptyRowsRule.validate.
  apply iterrows_stamped. intros idx row found' H.
  unfold EmptyRowsRule.check_row in H. stamp_cases H.
Qed.

Lemma required_fields_stamped (df : DataFrame) (config : Config)
  (found : list ValidationError) :
  RequiredFieldsRule.validate df config = Return found ->
  Forall (marked RequiredFieldsRule.metadata (df_len df)) found.
Proof.
  unfold RequiredFieldsRule.validate.
  generalize RequiredFieldsRule.required_fields. intro fields. revert found.
  induction fields as [|[logical_name display_name] fields IH]; intros found H;
    cbn [RequiredFieldsRule.check_fields] in H.
  - now apply nothing_stamped.
  - destruct (get_column df config logical_name) as [col|]; [|now apply IH].
    destruct (iterrows df _) as [first|] eqn:E; [|discriminate].
    cbn [bind] in H.
    destruct (RequiredFieldsRule.check_fields df config fields) as [more|];
      [|discriminate].
    cbn [bind] in H. injection H as <-. apply Forall_app. split; [|now apply IH].
    revert E. apply iterrows_stamped. intros idx row found' H.
    unfold RequiredFieldsRule.check_row in H. stamp_cases H.
Qed.

Lemma data_type_stamped (df : DataFrame) (config : Config)
  (found : list ValidationError) :
  snd (DataTypeConsistencyRule.validate df config) = Return found ->
  Forall (marked DataTypeConsistencyRule.metadata (df_len df)) found.
Proof.
  unfold DataTypeConsistencyRule.validate. cbn [snd].
  generalize (DataTypeConsistencyRule.numeric_cols_of df config).
  intro cols. revert found.
  induction cols as [|col cols IH]; intros found H;
    cbn [DataTypeConsistencyRule.check_columns] in H.
  - now apply nothing_stamped.
  - destruct (negb (PyStr.mem col (df_columns df))); [now apply IH|].
    destruct (iterrows df _) as [first|] eqn:E; [|discriminate].
    cbn [bind] in H.
    destruct (DataTypeConsistencyRule.check_columns df cols) as [more|];
      [|discriminate].
    cbn [bind] in H. injection H as <-. apply Forall_app. split; [|now apply IH].
    revert E. apply iterrows_stamped. intros idx row found' H.
    unfold DataTypeConsistencyRule.check_value in H. stamp_cases H.
Qed.

Lemma encoding_stamped (df : DataFrame) (config : Config)
  (found : list ValidationError) :
  EncodingIssuesRule.validate df config = Return found ->
  Forall (marked EncodingIssuesRule.metadata (df_len df)) found.
Proof.
  unfold EncodingIssuesRule.validate.
  generalize (df_columns df) at 1. intro cols. revert found.
  induction cols as [|col cols IH]; intros found H;
    cbn [EncodingIssuesRule.check_columns] in H.
  - now apply nothing_stamped.
  - destruct (iterrows df _) as [first|] eqn:E; [|discriminate].
    cbn [bind] in H.
    destruct (EncodingIssuesRule.check_columns df cols) as [more|];
      [|discriminate].
    cbn [bind] in H. injection H as <-. apply Forall_app. split; [|now apply IH].
    revert E. apply iterrows_stamped. intros idx row found' H.
    unfold EncodingIssuesRule.check_value in H. stamp_cases H.
Qed.

Lemma scan_stamped (rows : list Row) (idx : Z) (seen : Dict Z) :
  Forall (fun e => (rule_id e = "R-GEN-01"
                    /\ (idx <= row_index e
                        < idx + Z.of_nat (List.length rows))%Z)
                   /\ labelled DuplicateRowsRule.metadata e)
         (DuplicateRowsRule.scan idx rows seen).
Proof.
  revert idx seen; induction rows as [|row rows IH]; intros idx seen;
    cbn [DuplicateRowsRule.scan].
  - constructor.
  - destruct (dict_get seen (DuplicateRowsRule.row_hash row)).
    + constructor.
      * split; [split; [reflexivity|cbn [row_index List.length]; lia]|].
        split; [reflexivity|left; reflexivity].
      * eapply Forall_impl; [|apply IH]. intros e [[Hid Hrow] Hlab].
        split; [split; [exact Hid|cbn [List.length]; lia]|exact Hlab].
    + eapply Forall_impl; [|apply IH]. intros e [[Hid Hrow] Hlab].
      split; [split; [exact Hid|cbn [List.length]; lia]|exact Hlab].
Qed.

Lemma duplicate_rows_stamped (df : DataFrame) (config : Config)
  (found : list ValidationError) :
  DuplicateRowsRule.validate df config = Return found ->
  Forall (marked DuplicateRowsRule.metadata (df_len df)) found.
Proof.
  unfold DuplicateRowsRule.validate.
  assert (Hall : Forall (marked DuplicateRowsRule.metadata (df_len df))
                        (DuplicateRowsRule.scan 0 (df_rows df) [])).
  { eapply Forall_impl; [|apply scan_stamped]. intros e [[Hid Hrow] Hlab].
    split; [split; [exact Hid|unfold df_len; lia]|exact Hlab]. }
  assert (Hsel : forall key_cols,
            Forall (marked DuplicateRowsRule.metadata (df_len df))
                   (DuplicateRowsRule.scan
                      0 (df_rows (DuplicateRowsRule.select df key_cols)) [])).
  { intro key_cols. eapply Forall_impl; [|apply scan_stamped].
    intros e [[Hid Hrow] Hlab].
    unfold DuplicateRowsRule.select in Hrow. cbn [df_rows] in Hrow.
    rewrite length_map in Hrow. split; [split; [exact Hid|unfold df_len; lia]|exact Hlab]. }
  destruct (duplicate_key_columns (get_options config)) as [[|k ks]|];
    try (intro H; apply Return_inj in H; subst found; exact Hall).
  destruct (filter _ (k :: ks)) as [|c cs]; intro H; apply Return_inj in H;
    subst found; [constructor|apply Hsel].
Qed.

Lemma dict_get_In {V : Type} (d : Dict V) (k : string) (v : V) :
  dict_get d k = Some v -> In (k, v) d.
Proof.
  induction d as [|[k0 v0] d IH]; simpl; [discriminate|].
  destruct (String.eqb k0 k) eqn:E.
  - apply String.eqb_eq in E. intro H; injection H as ->. subst. now left.
  - intro H. right. now apply IH.
Qed.

Lemma track_range (cols : list string) (egid_col : string) (hi : Z)
  (rows : list Row) (idx : Z) (egid_rows final : Dict (list Z)) :
  (0 <= idx)%Z -> (idx + Z.of_nat (List.length rows) <= hi)%Z ->
  Forall (fun entry => Forall (fun i => 0 <= i < hi)%Z (snd entry)) egid_rows ->
  EGIDUniquenessRule.track cols egid_col idx rows egid_rows = Return final ->
  Forall (fun entry => Forall (fun i => 0 <= i < hi)%Z (snd entry)) final.
Proof.
  revert idx egid_rows; induction rows as [|row rows IH];
    intros idx egid_rows Hlo Hhi Hinv H; cbn [EGIDUniquenessRule.track] in H.
  - now injection H as <-.
  - cbn [List.length] in Hhi.
    destruct (is_blank (cell cols row egid_col)).
    { apply (IH (idx + 1)%Z egid_rows); trivial; lia. }
    destruct (EGIDUniquenessRule.egid_key_of (cell cols row egid_col))
      as [[key|]|]; cbn [bind] in H; [| |discriminate].
    + apply (IH (idx + 1)%Z _) in H; trivial; try lia.
      apply dict_set_entries; trivial. cbn [snd].
      apply Forall_app. split.
      * destruct (dict_get egid_rows key) as [l|] eqn:E; [|constructor].
        apply dict_get_In in E.
        rewrite Forall_forall in Hinv. exact (Hinv _ E).
      * constructor; [lia|constructor].
    + apply (IH (idx + 1)%Z egid_rows); trivial; lia.
Qed.

Lemma egid_uniqueness_stamped (df : DataFrame) (config : Config)
  (found : list ValidationError) :
  EGIDUniquenessRule.validate df config = Return found ->
  Forall (marked EGIDUniquenessRule.metadata (df_len df)) found.
Proof.
  unfold EGIDUniquenessRule.validate.
  destruct (get_column df config "egid") as [col|]; [|apply nothing_stamped].
  destruct (EGIDUniquenessRule.track _ _ _ _ _) as [egid_rows|] eqn:E;
    [|discriminate].
  cbn [bind]. intro H. injection H as <-.
  apply (track_range _ _ (df_len df)) in E;
    [|lia|unfold df_len; lia|constructor].
  apply Forall_flat_map. eapply Forall_impl; [|exact E].
  intros [egid rows] Hrows. cbn [snd] in Hrows.
  unfold EGIDUniquenessRule.report.
  destruct (Nat.ltb 1 (List.length rows)); [|constructor].
  apply Forall_map. destruct rows as [|first rest]; [constructor|].
  inversion Hrows; subst. cbn [tl]. eapply Forall_impl; [|eassumption].
  intros i Hi. split; [split; [reflexivity|exact Hi]|].
  split; [reflexivity|left; reflexivity].
Qed.

Lemma default_rules_marked (r : BaseRule) (df : DataFrame) (config : Config)
  (found : list ValidationError) :
  In r ALL_RULES ->
  snd (validate r df config) = Return found ->
  Forall (marked (metadata r) (df_len df)) found.
Proof.
  intro Hin. cbn [ALL_RULES In] in Hin.
  repeat (destruct Hin as [<-|Hin];
          [first [ apply required_fields_stamped | apply plz_stamped
                 | apply canton_stamped | apply street_stamped
                 | apply coordinate_presence_stamped | apply swiss_bounds_stamped
                 | apply coordinate_precision_stamped | apply egid_format_stamped
                 | apply egid_uniqueness_stamped | apply egid_presence_stamped
                 | apply duplicate_rows_stamped | apply empty_rows_stamped
                 | apply data_type_stamped | apply encoding_stamped ]|]).
  contradiction.
Qed.

Lemma default_rules_well_behaved (r : BaseRule) :
  In r ALL_RULES -> well_behaved r.
Proof.
  intro Hin. split.
  - intros df config. cbn in Hin.
    repeat (destruct Hin as [<-|Hin]; [eexists; reflexivity|]). contradiction.
  - intros df config found H.
    eapply Forall_impl; [|exact (default_rules_marked r df config found Hin H)].
    intros e [Hst _]. exact Hst.
Qed.

(** X15. Every finding a built-in rule returns carries the id and the
    German name of that rule and the index of a row of the dataset, and
    has the severity the rule declares; the one exception is the EGID
    format rule, which declares ERROR and also returns warnings. *)
Theorem default_findings_are_marked (r : BaseRule) (df : DataFrame)
  (config : Config) (found : list ValidationError) (e : ValidationError) :
  In r ALL_RULES ->
  snd (validate r df config) = Return found ->
  In e found ->
  rule_id e = id (metadata r)
  /\ rule_name e = name_de (metadata r)
  /\ (0 <= row_index e < df_len df)%Z
  /\ (severity e = md_severity (metadata r)
      \/ (id (metadata r) = "R-EGID-01" /\ severity e = WARNING)).
Proof.
  intros Hin Hrun He.
  pose proof (default_rules_marked r df config found Hin Hrun) as Hall.
  rewrite Forall_forall in Hall.
  destruct (Hall e He) as [[Hid Hrow] [Hname Hsev]]. auto.
Qed.

Lemma default_findings_are_marked_witness :
  rule_id (PLZFormatRule.finding "plz" 1 (CStr "800")
             "PLZ muss 4-stellig sein: '800' (3 Stellen)") = "R-ADDR-02"
  /\ (0 <= 1 < df_len plz_df)%Z.
Proof.
  destruct (default_findings_are_marked
              PLZFormatRule.rule plz_df plain_config
              [PLZFormatRule.finding "plz" 1 (CStr "800")
                 "PLZ muss 4-stellig sein: '800' (3 Stellen)";
               PLZFormatRule.finding "plz" 2 (CStr "ABCD")
                 "PLZ muss numerisch sein: 'ABCD'";
               PLZFormatRule.finding "plz" 3 (CStr "12000")
                 "PLZ muss 4-stellig sein: '12000' (5 Stellen)";
               PLZFormatRule.finding "plz" 5 (CStr "0999")
                 "PLZ ausserhalb gültiger Bereich: '0999' (muss 1000-9999 sein)"]
              (PLZFormatRule.finding "plz" 1 (CStr "800")
                 "PLZ muss 4-stellig sein: '800' (3 Stellen)"))
    as [Hid [_ [Hrow _]]].
  - simpl. right. left. reflexivity.
  - vm_compute. reflexivity.
  - left. reflexivity.
  - split; [exact Hid|exact Hrow].
Defined.

(* ================================================================== *)
(** * Further properties: the engine *)

Lemma execute_attributed (df : DataFrame) (st st' : Run) (r : BaseRule) :
  well_behaved r ->
  execute df st r = Return st' ->
  attributed (df_len df) (run_result st) ->
  attributed (df_len df) (run_result st').
Proof.
  intros [_ Hfound] H Hinv. unfold execute in H.
  destruct (is_applicable r df (run_config st)) as [[|]|]; cbn [bind] in H;
    [| |discriminate].
  - destruct (validate r df (run_config st)) as [c [found|e]] eqn:V;
      apply Return_inj in H; subst st'; unfold attributed in *;
      cbn [record_executed record_skipped run_result errors rules_executed].
    + apply Forall_app. split.
      * eapply Forall_impl; [|exact Hinv]. intros e [Hid Hrow]. split; trivial.
        apply in_or_app. now left.
      * assert (Hsnd : snd (validate r df (run_config st)) = Return found)
          by now rewrite V.
        apply Hfound in Hsnd. eapply Forall_impl; [|exact Hsnd].
        intros e [Hid Hrow]. split; trivial.
        apply in_or_app. right. left. symmetry. exact Hid.
    + exact Hinv.
  - apply Return_inj in H; subst st'. exact Hinv.
Qed.

Lemma run_attributed (df : DataFrame) (rules : list BaseRule) (st final : Run) :
  (forall r, In r rules -> well_behaved r) ->
  run df rules st = Return final ->
  attributed (df_len df) (run_result st) ->
  attributed (df_len df) (run_result final).
Proof.
  revert st; induction rules as [|r rules IH]; intros st Hall H Hinv;
    cbn [run] in H.
  - apply Return_inj in H. now subst.
  - destruct (execute df st r) as [st'|] eqn:E; [|discriminate].
    cbn [bind] in H. apply (IH st'); trivial.
    + intros r' Hin. apply Hall. now right.
    + apply (execute_attributed df st st' r); trivial. apply Hall. now left.
Qed.

Lemma run_total_rows (df : DataFrame) (rules : list BaseRule) (st final : Run) :
  run df rules st = Return final ->
  total_rows (run_result final) = total_rows (run_result st).
Proof.
  revert st; induction rules as [|r rules IH]; intros st H; cbn [run] in H.
  - apply Return_inj in H. now subst.
  - destruct (execute df st r) as [st'|] eqn:E; [|discriminate].
    cbn [bind] in H. rewrite (IH _ H). exact (execute_total_rows df _ _ _ E).
Qed.

Lemma engine_run_attributed (registry : RuleRegistry) (df : DataFrame)
  (config : Config) (rule_ids : option (list string)) :
  (forall r, In r (get_all_rules registry) -> well_behaved r) ->
  exists final,
    Engine_validate registry df config rule_ids = Return final
    /\ total_rows (run_result final) = df_len df
    /\ attributed (df_len df) (run_result final).
Proof.
  intro Hall. unfold Engine_validate.
  assert (Hsel : forall r, In r (select_rules registry rule_ids) ->
                           well_behaved r).
  { intros r Hin. apply Hall. exact (select_rules_among _ _ _ Hin). }
  destruct (run_returns df (select_rules registry rule_ids)
                        (start (df_len df) config)) as [final Hrun].
  { intros r Hin c. destruct (Hsel r Hin) as [Happ _]. apply Happ. }
  exists final. split; [exact Hrun|]. split.
  - exact (run_total_rows df _ _ _ Hrun).
  - apply (run_attributed df _ _ _ Hsel Hrun). constructor.
Qed.

Lemma default_registry_well_behaved (r : BaseRule) :
  In r (get_all_rules create_default_registry) -> well_behaved r.
Proof. intro Hin. apply default_rules_well_behaved. exact Hin. Qed.

Lemma bounded_distinct (l : list Z) (n : Z) :
  NoDup l -> (forall x, In x l -> (0 <= x < n)%Z) ->
  (Z.of_nat (List.length l) <= Z.max 0 n)%Z.
Proof.
  intros Hnd Hall.
  assert (Hincl : incl l (map Z.of_nat (seq 0 (Z.to_nat n)))).
  { intros x Hx. specialize (Hall x Hx). apply in_map_iff.
    exists (Z.to_nat x). split; [lia|]. apply in_seq. lia. }
  apply (NoDup_incl_length Hnd) in Hincl.
  rewrite length_map, length_seq in Hincl. lia.
Qed.

Lemma attributed_passed_rows (res : ValidationResult) :
  (0 <= total_rows res)%Z ->
  attributed (total_rows res) res ->
  (0 <= passed_rows res <= total_rows res)%Z.
Proof.
  intros Hn Hall. unfold passed_rows.
  assert (H : (Z.of_nat (List.length (error_rows res))
               <= Z.max 0 (total_rows res))%Z).
  { apply bounded_distinct.
    - apply NoDup_nodup.
    - intros x Hx. apply error_rows_spec in Hx as [e [Hin [_ <-]]].
      unfold attributed in Hall. rewrite Forall_forall in Hall.
      exact (proj2 (Hall e Hin)). }
  lia.
Qed.

(** X16. A run of the engine over a registry of rules that mark their
    findings with their own id and a row of the dataset (as every built-in
    rule does): the run returns; [total_rows] is the length of the
    dataset; every finding carries the id of a rule recorded as executed
    and a row index of the dataset; and [passed_rows] lies between 0 and
    [total_rows]. *)
Theorem engine_findings_are_attributed (registry : RuleRegistry)
  (df : DataFrame) (config : Config) (rule_ids : option (list string)) :
  (forall r, In r (get_all_rules registry) -> well_behaved r) ->
  exists final,
    Engine_validate registry df config rule_ids = Return final
    /\ total_rows (run_result final) = df_len df
    /\ (forall e, In e (errors (run_result final)) ->
                  In (rule_id e) (rules_executed (run_result final))
                  /\ (0 <= row_index e < df_len df)%Z)
    /\ (0 <= passed_rows (run_result final) <= total_rows (run_result final))%Z.
Proof.
  intro Hall.
  destruct (engine_run_attributed registry df config rule_ids Hall)
    as [final [Hrun [Hrows Hattr]]].
  exists final. split; [exact Hrun|]. split; [exact Hrows|]. split.
  - unfold attributed in Hattr. now rewrite Forall_forall in Hattr.
  - apply attributed_passed_rows.
    + rewrite Hrows. unfold df_len. lia.
    + now rewrite Hrows.
Qed.

Lemma engine_findings_are_attributed_witness :
  exists final,
    Engine_validate create_default_registry plz_df plain_config None
    = Return final
    /\ (0 <= passed_rows (run_result final) <= 6)%Z.
Proof.
  destruct (engine_findings_are_attributed
              create_default_registry plz_df plain_config None
              default_registry_well_behaved)
    as [final [Hrun [Hrows [_ Hpassed]]]].
  exists final. split; [exact Hrun|]. rewrite Hrows in Hpassed. exact Hpassed.
Defined.




(** X18. On a dataset without rows such a run finds nothing: there are no
    findings, [total_rows] and [passed_rows] are 0 and the pass rate is
    the integer 100. *)
Theorem empty_dataset_passes (registry : RuleRegistry) (df : DataFrame)
  (config : Config) (rule_ids : option (list string)) :
  (forall r, In r (get_all_rules registry) -> well_behaved r) ->
  df_rows df = [] ->
  exists final,
    Engine_validate registry df config rule_ids = Return final
    /\ errors (run_result final) = []
    /\ total_rows (run_result final) = 0%Z
    /\ passed_rows (run_result final) = 0%Z
    /\ pass_rate (run_result final) = Return (Int 100).
Proof.
  intros Hall Hempty.
  destruct (engine_run_attributed registry df config rule_ids Hall)
    as [final [Hrun [Hrows Hattr]]].
  assert (Hlen : df_len df = 0%Z) by (unfold df_len; now rewrite Hempty).
  rewrite Hlen in *.
  assert (Hnone : errors (run_result final) = []).
  { unfold attributed in Hattr.
    destruct (errors (run_result final)) as [|e l]; trivial.
    inversion Hattr as [|? ? [_ Hrow] _]. lia. }
  exists final. split; [exact Hrun|]. split; [exact Hnone|].
  split; [exact Hrows|].
  unfold pass_rate, passed_rows, error_rows. rewrite Hrows, Hnone.
  split; reflexivity.
Qed.

Lemma empty_dataset_passes_witness :
  exists final,
    Engine_validate create_default_registry
                    {| df_columns := ["plz"; "egid"]; df_rows := [] |}
                    plain_config None = Return final
    /\ pass_rate (run_result final) = Return (Int 100).
Proof.
  destruct (empty_dataset_passes
              create_default_registry
              {| df_columns := ["plz"; "egid"]; df_rows := [] |}
              plain_config None default_registry_well_behaved eq_refl)
    as [final [Hrun [_ [_ [_ Hrate]]]]].
  exists final. split; [exact Hrun|exact Hrate].
Defined.

Lemma select_unknown (registry : RuleRegistry) (ids : list string) :
  (forall x, In x ids -> get_rule registry x = None) ->
  flat_map (fun rid => match get_rule registry rid with
                       | Some r => [r]
                       | None => []
                       end) ids = [].
Proof.
  induction ids as [|x ids IH]; intro H; cbn [flat_map]; trivial.
  rewrite (H x (or_introl eq_refl)). cbn [app]. apply IH.
  intros y Hy. apply H. now right.
Qed.

(** X19. A non-empty selection none of whose ids is registered runs no
    rule at all: the result has no findings and no executed or skipped
    rule, and the configuration is untouched (an empty selection, by
    contrast, runs every rule). *)
Theorem unknown_selection_runs_nothing (registry : RuleRegistry)
  (df : DataFrame) (config : Config) (rid : string) (rids : list string) :
  (forall x, In x (rid :: rids) -> get_rule registry x = None) ->
  Engine_validate registry df config (Some (rid :: rids))
  = Return (start (df_len df) config).
Proof.
  intro H. unfold Engine_validate, select_rules.
  now rewrite (select_unknown registry (rid :: rids) H).
Qed.

Lemma unknown_selection_runs_nothing_witness :
  Engine_validate create_default_registry plz_df plain_config
                  (Some ["R-ADDR-03"; "r-addr-02"])
  = Return (start 6 plain_config).
Proof.
  apply (unknown_selection_runs_nothing create_default_registry plz_df
                                        plain_config "R-ADDR-03" ["r-addr-02"]).
  intros x [<-|[<-|[]]]; reflexivity.
Defined.

Lemma well_keyed_lookup (registry : RuleRegistry) (rid : string) (r : BaseRule) :
  well_keyed registry -> get_rule registry rid = Some r -> rule_key r = rid.
Proof.
  intros [_ Hkeys] H. apply dict_get_In in H.
  rewrite Forall_forall in Hkeys. symmetry. exact (Hkeys _ H).
Qed.

Lemma select_known (registry : RuleRegistry) (ids : list string) :
  well_keyed registry ->
  map rule_key (flat_map (fun rid => match get_rule registry rid with
                                     | Some r => [r]
                                     | None => []
                                     end) ids)
  = filter (fun rid => match get_rule registry rid with
                       | Some _ => true
                       | None => false
                       end) ids.
Proof.
  intro Hwk. induction ids as [|x ids IH]; cbn [flat_map filter map]; trivial.
  rewrite map_app, IH.
  destruct (get_rule registry x) as [r|] eqn:E; cbn [map app]; trivial.
  now rewrite (well_keyed_lookup registry x r Hwk E).
Qed.

(** X20. A non-empty selection over a registry filled by [register]: as
    long as the applicability checks return, the run returns and records
    every selected id that is registered once per occurrence in the
    selection, as executed or as skipped; ids that are not registered are
    dropped without a trace. *)
Theorem selection_records_known_ids (rules : list BaseRule) (df : DataFrame)
  (config : Config) (rid : string) (rids : list string) :
  let registry := fold_left register rules empty_registry in
  applicability_returns df (get_all_rules registry) ->
  exists final,
    Engine_validate registry df config (Some (rid :: rids)) = Return final
    /\ Permutation
         (rules_executed (run_result final) ++ rules_skipped (run_result final))
         (filter (fun x => match get_rule registry x with
                           | Some _ => true
                           | None => false
                           end) (rid :: rids)).
Proof.
  intros registry Happ.
  assert (Hwk : well_keyed registry).
  { apply registered_well_keyed. split; constructor. }
  unfold Engine_validate.
  destruct (run_returns df (select_rules registry (Some (rid :: rids)))
                        (start (df_len df) config)) as [final Hrun].
  { intros r Hin. apply Happ. exact (select_rules_among _ _ _ Hin). }
  exists final. split; [exact Hrun|].
  rewrite (run_records df _ _ _ Hrun). cbn [start run_result rules_executed
                                             rules_skipped app].
  unfold select_rules. now rewrite (select_known registry (rid :: rids) Hwk).
Qed.

Lemma selection_records_known_ids_witness :
  exists final,
    Engine_validate create_default_registry egid_df plain_config
                    (Some ["R-EGID-02"; "R-XX-00"; "R-EGID-02"]) = Return final
    /\ Permutation
         (rules_executed (run_result final) ++ rules_skipped (run_result final))
         ["R-EGID-02"; "R-EGID-02"].
Proof.
  destruct (selection_records_known_ids
              ALL_RULES egid_df plain_config "R-EGID-02"
              ["R-XX-00"; "R-EGID-02"]
              (default_rules_applicability_returns egid_df))
    as [final [Hrun Hperm]].
  exists final. split; [exact Hrun|exact Hperm].
Defined.

(* ================================================================== *)
(** * Further properties: the exceptions of the built-in rules *)

































(* ================================================================== *)
(** * Further properties: the numeric columns of the data type rule *)

Section NumericColumns.

Variable df : DataFrame.
Variable columns : Dict string.


Lemma add_mapped_grows (l : list string) (name : string) :
  exists added,
    DataTypeConsistencyRule.add_mapped df columns l name = l ++ added
    /\ NoDup added
    /\ forall col, In col added -> mappable df columns [name] col /\ ~ In col l.
Proof.
  unfold DataTypeConsistencyRule.add_mapped.
  destruct (dict_get columns name) as [col|] eqn:E.
  - destruct (PyStr.mem col (df_columns df)) eqn:Hdf; cbn [andb].
    + destruct (PyStr.mem col l) eqn:Hl; cbn [negb].
      * exists []. rewrite app_nil_r. repeat split; try constructor;
          contradiction.
      * exists [col]. split; [reflexivity|]. split.
        -- repeat constructor. intros [].
        -- intros c [<-|[]]. split.
           ++ split; [now apply mem_In|]. exists name. split; [now left|trivial].
           ++ intro Hin. apply mem_In in Hin. congruence.
    + exists []. rewrite app_nil_r. repeat split; try constructor; contradiction.
  - exists []. rewrite app_nil_r. repeat split; try constructor; contradiction.
Qed.

Lemma fold_add_mapped_grows (names : list string) (l : list string) :
  exists added,
    fold_left (DataTypeConsistencyRule.add_mapped df columns) names l
    = l ++ added
    /\ NoDup added
    /\ forall col, In col added -> mappable df columns names col /\ ~ In col l.
Proof.
  revert l; induction names as [|name names IH]; intro l; cbn [fold_left].
  - exists []. rewrite app_nil_r. repeat split; try constructor; contradiction.
  - destruct (add_mapped_grows l name) as [a1 [H1 [Hn1 Hm1]]].
    destruct (IH (DataTypeConsistencyRule.add_mapped df columns l name))
      as [a2 [H2 [Hn2 Hm2]]].
    exists (a1 ++ a2). rewrite H2, H1, app_assoc. split; [reflexivity|]. split.
    + apply NoDup_app; trivial.
      intros c Hc1 Hc2. destruct (Hm2 c Hc2) as [_ Hnot]. apply Hnot.
      rewrite H1. apply in_or_app. now right.
    + intros c Hc. apply in_app_or in Hc as [Hc|Hc].
      * destruct (Hm1 c Hc) as [[Hdf [n [[Hn0|[]] Hn]]] Hnot]. split; trivial.
        split; trivial. exists n. split; [now left|trivial].
      * destruct (Hm2 c Hc) as [[Hdf [n [Hin Hn]]] Hnot]. split.
        -- split; trivial. exists n. split; [now right|trivial].
        -- intro Hl. apply Hnot. rewrite H1. apply in_or_app. now left.
Qed.

Lemma add_mapped_settled (l : list string) (name : string) :
  (forall col, dict_get columns name = Some col -> In col (df_columns df) ->
               In col l) ->
  DataTypeConsistencyRule.add_mapped df columns l name = l.
Proof.
  intro H. unfold DataTypeConsistencyRule.add_mapped.
  destruct (dict_get columns name) as [col|]; trivial.
  destruct (PyStr.mem col (df_columns df)) eqn:Hdf; trivial.
  apply mem_In in Hdf. specialize (H col eq_refl Hdf). apply mem_In in H.
  now rewrite H.
Qed.

Lemma fold_add_mapped_settled (names : list string) (l : list string) :
  (forall name col, In name names -> dict_get columns name = Some col ->
                    In col (df_columns df) -> In col l) ->
  fold_left (DataTypeConsistencyRule.add_mapped df columns) names l = l.
Proof.
  induction names as [|name names IH]; intro H; cbn [fold_left]; trivial.
  rewrite add_mapped_settled.
  - apply IH. intros n c Hn. apply H. now right.
  - intros c. apply H. now left.
Qed.

Lemma fold_add_mapped_covers (names : list string) (l : list string)
  (name col : string) :
  In name names -> dict_get columns name = Some col ->
  In col (df_columns df) ->
  In col (fold_left (DataTypeConsistencyRule.add_mapped df columns) names l).
Proof.
  revert l; induction names as [|n names IH]; intros l Hin Hget Hdf;
    [contradiction|].
  cbn [fold_left]. destruct Hin as [->|Hin]; [|now apply IH].
  destruct (fold_add_mapped_grows
              names (DataTypeConsistencyRule.add_mapped df columns l name))
    as [added [-> _]].
  apply in_or_app. left.
  unfold DataTypeConsistencyRule.add_mapped. rewrite Hget.
  apply mem_In in Hdf. rewrite Hdf. cbn [andb].
  destruct (PyStr.mem col l) eqn:Hl; cbn [negb].
  - now apply mem_In.
  - apply in_or_app. right. now left.
Qed.

Lemma fold_add_mapped_twice (names : list string) (l : list string) :
  fold_left (DataTypeConsistencyRule.add_mapped df columns) names
            (fold_left (DataTypeConsistencyRule.add_mapped df columns) names l)
  = fold_left (DataTypeConsistencyRule.add_mapped df columns) names l.
Proof.
  apply fold_add_mapped_settled. intros name col Hin Hget Hdf.
  now apply (fold_add_mapped_covers names l name col).
Qed.

End NumericColumns.

Lemma config_after_fixed (df : DataFrame) (config : Config) :
  (forall l, numeric_columns (get_options config) = Some l ->
             DataTypeConsistencyRule.numeric_cols_of df config = l) ->
  DataTypeConsistencyRule.config_after df config = config.
Proof.
  unfold DataTypeConsistencyRule.config_after.
  destruct config as [cols [[cs dk [given|]]|]]; cbn [cfg_options numeric_columns];
    trivial.
  intro H. rewrite (H given eq_refl). reflexivity.
Qed.

(** X23. What the data type rule does to the list of numeric columns: it
    keeps the given list and appends to it, each once, only columns of the
    dataset that the mapping gives for [plz], [egid], [easting] or
    [northing] and that the list did not hold; and a second run on the
    configuration the first one left appends nothing more, leaves that
    configuration as it is and returns the same findings. *)
Theorem numeric_columns_grow_once (df : DataFrame) (config : Config) :
  let config1 := fst (DataTypeConsistencyRule.validate df config) in
  (exists added,
     DataTypeConsistencyRule.numeric_cols_of df config
     = given_numeric_columns config ++ added
     /\ NoDup added
     /\ forall col, In col added ->
          In col (df_columns df)
          /\ ~ In col (given_numeric_columns config)
          /\ exists name, In name ["plz"; "egid"; "easting"; "northing"]
                          /\ dict_get (get_columns config) name = Some col)
  /\ DataTypeConsistencyRule.validate df config1
     = (config1, snd (DataTypeConsistencyRule.validate df config)).
Proof.
  intro config1. split.
  - unfold DataTypeConsistencyRule.numeric_cols_of.
    fold (given_numeric_columns config).
    destruct (fold_add_mapped_grows df (get_columns config)
                ["plz"; "egid"; "easting"; "northing"]
                (given_numeric_columns config)) as [added [Heq [Hnd Hall]]].
    exists added. split; [exact Heq|]. split; [exact Hnd|].
    intros col Hin. destruct (Hall col Hin) as [[Hdf Hname] Hnot]. auto.
  - unfold config1, DataTypeConsistencyRule.validate. cbn [fst snd].
    assert (Hsame : DataTypeConsistencyRule.numeric_cols_of
                      df (DataTypeConsistencyRule.config_after df config)
                    = DataTypeConsistencyRule.numeric_cols_of df config).
    { unfold DataTypeConsistencyRule.config_after.
      destruct (cfg_options config) as [o|] eqn:Ho; trivial.
      destruct (numeric_columns o) as [l|] eqn:Hl; trivial.
      unfold DataTypeConsistencyRule.numeric_cols_of at 1.
      unfold get_options, get_columns. cbn [cfg_options cfg_columns
                                              numeric_columns].
      fold (get_columns config).
      unfold DataTypeConsistencyRule.numeric_cols_of.
      apply fold_add_mapped_twice. }
    rewrite Hsame. f_equal.
    apply config_after_fixed. intros l Hl. rewrite Hsame.
    unfold DataTypeConsistencyRule.config_after in Hl.
    destruct config as [cols [[cs dk [given|]]|]];
      cbn [get_options cfg_options numeric_columns empty_options] in Hl;
      congruence.
Qed.

(* ================================================================== *)
(** * Further properties: the duplicate rows rule *)








Section Scan.

Variable all : list Row.


End Scan.



(* ================================================================== *)
(** * Further properties: the EGID uniqueness rule *)

Lemma rows_of_set (d : Dict (list Z)) (k k' : string) (l : list Z) :
  rows_of (dict_set d k l) k' = if String.eqb k k' then l else rows_of d k'.
Proof.
  unfold rows_of. destruct (String.eqb k k') eqn:E.
  - apply String.eqb_eq in E. subst k'. now rewrite dict_get_set_same.
  - rewrite dict_get_set_other; trivial. now apply String.eqb_neq.
Qed.

Lemma In_dict_get {V : Type} (d : Dict V) (k : string) (v : V) :
  NoDup (dict_keys d) -> In (k, v) d -> dict_get d k = Some v.
Proof.
  unfold dict_keys. induction d as [|[k0 v0] d IH]; intros Hnd Hin;
    [contradiction|].
  cbn [map fst] in Hnd. inversion Hnd as [|? ? Hnot Hnd']; subst.
  cbn [dict_get]. destruct Hin as [Heq|Hin].
  - injection Heq as -> ->. now rewrite String.eqb_refl.
  - destruct (String.eqb k0 k) eqn:E; [|now apply IH].
    apply String.eqb_eq in E. subst k0. destruct Hnot.
    apply in_map_iff. now exists (k, v).
Qed.

Lemma track_spec (cols : list string) (egid_col : string) (rows : list Row)
  (idx : Z) (egid_rows final : Dict (list Z)) :
  EGIDUniquenessRule.track cols egid_col idx rows egid_rows = Return final ->
  (forall k, rows_of final k
             = rows_of egid_rows k ++ rows_keyed cols egid_col k idx rows)
  /\ (NoDup (dict_keys egid_rows) -> NoDup (dict_keys final)).
Proof.
  revert idx egid_rows; induction rows as [|row rows IH]; intros idx egid_rows H;
    cbn [EGIDUniquenessRule.track rows_keyed] in *.
  - apply Return_inj in H. subst final. split; trivial.
    intro k. now rewrite app_nil_r.
  - unfold tracked_key.
    destruct (is_blank (cell cols row egid_col)); [exact (IH _ _ H)|].
    destruct (EGIDUniquenessRule.egid_key_of (cell cols row egid_col))
      as [[key|]|e]; cbn [bind] in H; [| |discriminate].
    + destruct (IH _ _ H) as [Hrows Hnd]. split.
      * intro k. rewrite Hrows, rows_of_set.
        fold (rows_of egid_rows key).
        destruct (String.eqb key k) eqn:E; trivial.
        apply String.eqb_eq in E. subst k. now rewrite <- app_assoc.
      * intro Hd. apply Hnd. now apply dict_set_NoDup.
    + exact (IH _ _ H).
Qed.


(** X25. The EGID uniqueness rule, whenever it returns: for every
    normalised EGID, each row that holds it after the first one is
    reported, and nothing else is; the finding carries the EGID as its
    value and its message lists all the rows holding it, counted as in the
    spreadsheet (index plus two). *)
Theorem egid_uniqueness_reports_repeats (df : DataFrame) (config : Config)
  (egid_col : string) (found : list ValidationError) :
  get_column df config "egid" = Some egid_col ->
  EGIDUniquenessRule.validate df config = Return found ->
  let rows_with := fun k =>
    rows_keyed (df_columns df) egid_col k 0 (df_rows df) in
  (forall e, In e found ->
     exists k,
       value e = CStr k
       /\ In (row_index e) (tl (rows_with k))
       /\ message e
          = ("EGID '" ++ k ++ "' kommt mehrfach vor (Zeilen: "
             ++ PyStr.join ", " (map (fun r => PyStr.str_of_int (r + 2))
                                     (rows_with k))
             ++ ")")%string)
  /\ (forall k i, In i (tl (rows_with k)) ->
        exists e, In e found /\ row_index e = i /\ value e = CStr k).
Proof.
  intros Hcol Hrun rows_with. unfold EGIDUniquenessRule.validate in Hrun.
  rewrite Hcol in Hrun.
  destruct (EGIDUniquenessRule.track (df_columns df) egid_col 0 (df_rows df) [])
    as [egid_rows|] eqn:E; [|discriminate].
  cbn [bind] in Hrun. apply Return_inj in Hrun. subst found.
  destruct (track_spec _ _ _ _ _ _ E) as [Hrows Hnd].
  specialize (Hnd (NoDup_nil _)).
  assert (Hwith : forall k, rows_of egid_rows k = rows_with k).
  { intro k. now rewrite Hrows. }
  split.
  - intros e Hin. apply in_flat_map in Hin as [[k l] [Hentry He]].
    pose proof (In_dict_get _ _ _ Hnd Hentry) as Hget.
    assert (Hl : l = rows_with k).
    { rewrite <- Hwith. unfold rows_of. now rewrite Hget. }
    unfold EGIDUniquenessRule.report in He.
    destruct (Nat.ltb 1 (List.length l)); [|contradiction].
    apply in_map_iff in He as [i [<- Hi]]. exists k.
    cbn [value row_index message]. rewrite <- Hl. auto.
  - intros k i Hi.
    assert (Hget : dict_get egid_rows k = Some (rows_with k)).
    { specialize (Hwith k). unfold rows_of in Hwith.
      destruct (dict_get egid_rows k) as [l|]; [now rewrite Hwith|].
      rewrite <- Hwith in Hi. contradiction. }
    apply dict_get_In in Hget.
    eexists. split.
    + apply in_flat_map. exists (k, rows_with k). split; [exact Hget|].
      unfold EGIDUniquenessRule.report.
      assert (Hlen : Nat.ltb 1 (List.length (rows_with k)) = true).
      { apply Nat.ltb_lt. destruct (rows_with k) as [|a [|b l]];
          cbn [tl List.length] in *; try contradiction; lia. }
      rewrite Hlen. apply in_map_iff. exists i. split; [reflexivity|exact Hi].
    + split; reflexivity.
Qed.

Lemma egid_uniqueness_reports_repeats_witness :
  exists e, row_index e = 1%Z /\ value e = CStr "123".
Proof.
  destruct (EGIDUniquenessRule.validate egid_df plain_config) as [found|]
    eqn:Hrun; [|vm_compute in Hrun; discriminate].
  destruct (egid_uniqueness_reports_repeats egid_df plain_config "egid" found
                                            eq_refl Hrun)
    as [_ Hcomplete].
  destruct (Hcomplete "123" 1%Z) as [e [_ [Hrow Hvalue]]].
  - vm_compute. left. reflexivity.
  - exists e. split; [exact Hrow|exact Hvalue].
Defined.

(* ================================================================== *)
(** * Further properties: missing values *)








(* ================================================================== *)
(** * Further properties: postal codes of four digits *)

Lemma plz_probe_all :
  forallb (fun a =>
    forallb (fun b =>
      forallb (fun c =>
        forallb (fun d => plz_probe a b c d) (seq 0 10)) (seq 0 10))
            (seq 0 10)) (seq 0 10) = true.
Proof. vm_compute. reflexivity. Qed.

Lemma forallb_below (f : nat -> bool) (n k : nat) :
  forallb f (seq 0 n) = true -> (k < n)%nat -> f k = true.
Proof.
  intros H Hk. apply (proj1 (forallb_forall f (seq 0 n)) H). apply in_seq. lia.
Qed.

Lemma plz_probe_digit (a b c d : nat) :
  (a < 10)%nat -> (b < 10)%nat -> (c < 10)%nat -> (d < 10)%nat ->
  plz_probe a b c d = true.
Proof.
  intros Ha Hb Hc Hd. pose proof plz_probe_all as H.
  apply (forallb_below _ 10 a) in H; trivial.
  apply (forallb_below _ 10 b) in H; trivial.
  apply (forallb_below _ 10 c) in H; trivial.
  apply (forallb_below _ 10 d) in H; trivial.
Qed.

(** X28. The postal code rule on a text of exactly four decimal digits:
    nothing is reported unless the first digit is 0, and then the value is
    reported as out of range; so of the range check 1000 to 9999 only the
    lower bound can fail. *)
Theorem plz_four_digit_text (plz_col : string) (idx : Z) (a b c d : nat) :
  (a < 10)%nat -> (b < 10)%nat -> (c < 10)%nat -> (d < 10)%nat ->
  PLZFormatRule.check_value plz_col idx (CStr (digits4 a b c d))
  = Return (if Nat.eqb a 0
            then [PLZFormatRule.finding
                    plz_col idx (CStr (digits4 a b c d))
                    ("PLZ ausserhalb gültiger Bereich: '" ++ digits4 a b c d
                     ++ "' (muss 1000-9999 sein)")%string]
            else []).
Proof.
  intros Ha Hb Hc Hd. pose proof (plz_probe_digit a b c d Ha Hb Hc Hd) as H.
  unfold plz_probe in H. cbv zeta in H.
  apply andb_prop in H as [Hblank H]. apply negb_true_iff in Hblank.
  destruct (PLZFormatRule.normalize (PyStr.strip (digits4 a b c d)))
    as [plz_str|] eqn:Hnorm; [|discriminate].
  apply andb_prop in H as [H Hint]. apply andb_prop in H as [H Hlen].
  apply andb_prop in H as [Hsame Hdigit].
  apply String.eqb_eq in Hsame. subst plz_str.
  destruct (PyStr.int_of_str (digits4 a b c d)) as [n|] eqn:Hn; [|discriminate].
  apply Z.eqb_eq in Hint.
  unfold PLZFormatRule.check_value. rewrite Hblank. cbn [str].
  rewrite Hnorm. cbn [bind]. rewrite Hdigit, Hlen. cbn [negb].
  rewrite Hn. cbn [bind].
  destruct a as [|a].
  - assert (Hlow : (1000 <=? n)%Z = false) by (apply Z.leb_gt; lia).
    rewrite Hlow. reflexivity.
  - assert (Hlow : (1000 <=? n)%Z = true) by (apply Z.leb_le; lia).
    assert (Hhigh : (n <=? 9999)%Z = true) by (apply Z.leb_le; lia).
    rewrite Hlow, Hhigh. reflexivity.
Qed.

Lemma plz_four_digit_text_witness :
  PLZFormatRule.check_value "plz" 5 (CStr "0999")
  = Return [PLZFormatRule.finding
              "plz" 5 (CStr "0999")
              "PLZ ausserhalb gültiger Bereich: '0999' (muss 1000-9999 sein)"].
Proof.
  apply (plz_four_digit_text "plz" 5 0 9 9 9); lia.
Defined.

(* ================================================================== *)
(** * Further properties: the coordinate system option *)

Lemma for_rows_ext {E : Type} (f g : Z -> Row -> Raises (list E))
  (rows : list Row) (idx : Z) :
  (forall i row, f i row = g i row) -> for_rows idx rows f = for_rows idx rows g.
Proof.
  intro H. revert idx; induction rows as [|row rows IH]; intro idx;
    cbn [for_rows]; trivial.
  now rewrite H, IH.
Qed.

(** X29. The Swiss bounds rule with a forced coordinate system: every
    value of the option other than [auto] and [LV95] is taken as WGS84, so
    the findings are those the rule returns with [WGS84] itself. *)
Theorem swiss_bounds_other_system_is_wgs84 (df : DataFrame) (config : Config)
  (system : string) :
  coordinate_system (get_options config) = Some system ->
  system <> "auto" -> system <> "LV95" ->
  SwissBoundsRule.validate df config
  = SwissBoundsRule.validate df (with_coordinate_system config "WGS84").
Proof.
  intros Hsys Hauto Hlv95. unfold SwissBoundsRule.validate.
  assert (Hcol : forall name,
            get_column df (with_coordinate_system config "WGS84") name
            = get_column df config name) by reflexivity.
  rewrite !Hcol.
  destruct (get_column df config "easting") as [e_col|]; trivial.
  destruct (get_column df config "northing") as [n_col|]; trivial.
  unfold iterrows. apply for_rows_ext. intros i row.
  unfold SwissBoundsRule.coord_system_of. rewrite Hsys.
  cbn [with_coordinate_system get_options cfg_options coordinate_system].
  unfold SwissBoundsRule.check_values, SwissBoundsRule.check_bounds.
  apply String.eqb_neq in Hauto, Hlv95. rewrite Hauto, Hlv95. reflexivity.
Qed.

Lemma swiss_bounds_other_system_is_wgs84_witness :
  SwissBoundsRule.validate
    coords_df (with_coordinate_system plain_config "lv95")
  = SwissBoundsRule.validate
      coords_df
      (with_coordinate_system (with_coordinate_system plain_config "lv95")
                              "WGS84").
Proof.
  apply (swiss_bounds_other_system_is_wgs84
           coords_df (with_coordinate_system plain_config "lv95") "lv95");
    [reflexivity|discriminate|discriminate].
Defined.

(* ================================================================== *)
(** * The loop, turn by turn *)

Section Turns.

Variable df : DataFrame.

(** The run over a list of rules comes to each of them in turn. *)
Lemma run_turn (pre post : list BaseRule) (r : BaseRule) (st final : Run) :
  run df (pre ++ r :: post) st = Return final ->
  exists st1 st2,
    run df pre st = Return st1
    /\ execute df st1 r = Return st2
    /\ run df post st2 = Return final.
Proof.
  rewrite run_app. destruct (run df pre st) as [st1|] eqn:Hpre; [|discriminate].
  cbn [bind run].
  destruct (execute df st1 r) as [st2|] eqn:Hturn; [|discriminate].
  cbn [bind]. intro Hpost. now exists st1, st2.
Qed.

(** The three ways a turn can end. *)
Lemma execute_cases (st st' : Run) (r : BaseRule) :
  execute df st r = Return st' ->
  (is_applicable r df (run_config st) = Return false
   /\ st' = record_skipped st (run_config st) [] (rule_key r))
  \/ (is_applicable r df (run_config st) = Return true
      /\ exists c found,
           validate r df (run_config st) = (c, Return found)
           /\ st' = record_executed st c found (rule_key r))
  \/ (is_applicable r df (run_config st) = Return true
      /\ exists c e,
           validate r df (run_config st) = (c, Raise e)
           /\ st' = record_skipped st c [(rule_key r, e)] (rule_key r)).
Proof.
  unfold execute.
  destruct (is_applicable r df (run_config st)) as [[|]|]; cbn [bind];
    [| |discriminate].
  - destruct (validate r df (run_config st)) as [c [found|e]]; intro H;
      injection H as <-.
    + right. left. split; trivial. now exists c, found.
    + right. right. split; trivial. now exists c, e.
  - intro H. injection H as <-. now left.
Qed.

(** A run only appends to what was collected before it. *)
Lemma run_extends (rules : list BaseRule) (st final : Run) :
  run df rules st = Return final ->
  exists found executed skipped printed,
    errors (run_result final) = errors (run_result st) ++ found
    /\ rules_executed (run_result final)
       = rules_executed (run_result st) ++ executed
    /\ rules_skipped (run_result final)
       = rules_skipped (run_result st) ++ skipped
    /\ run_stdout final = run_stdout st ++ printed.
Proof.
  rewrite (run_follow df rules st 0).
  destruct (run df rules (start 0 (run_config st))) as [d|]; [|discriminate].
  cbn [bind]. intro H. injection H as <-.
  exists (errors (run_result d)), (rules_executed (run_result d)),
    (rules_skipped (run_result d)), (run_stdout d).
  repeat split.
Qed.

(** What a run appends comes from the rules that were applicable and
    returned: every new finding is one such a rule returned, and every new
    executed id is the id of such a rule. *)
Lemma run_appends_sound (rules : list BaseRule) (st final : Run) :
  run df rules st = Return final ->
  exists found executed,
    errors (run_result final) = errors (run_result st) ++ found
    /\ rules_executed (run_result final)
       = rules_executed (run_result st) ++ executed
    /\ (forall x, In x found ->
          exists mid r2 rest st2 c2 found2,
            rules = mid ++ r2 :: rest
            /\ run df mid st = Return st2
            /\ is_applicable r2 df (run_config st2) = Return true
            /\ validate r2 df (run_config st2) = (c2, Return found2)
            /\ In x found2)
    /\ (forall rid, In rid executed ->
          exists mid r2 rest st2 c2 found2,
            rules = mid ++ r2 :: rest
            /\ run df mid st = Return st2
            /\ is_applicable r2 df (run_config st2) = Return true
            /\ validate r2 df (run_config st2) = (c2, Return found2)
            /\ rule_key r2 = rid).
Proof.
  revert st; induction rules as [|r rules IH]; intros st H; cbn [run] in H.
  - injection H as <-. exists [], []. rewrite !app_nil_r.
    repeat split; intros x [].
  - destruct (execute df st r) as [st'|] eqn:Hturn; [|discriminate].
    cbn [bind] in H.
    destruct (IH st' H) as [found [executed [Herr [Hex [Hfound Hexecuted]]]]].
    assert (Hlater : forall (P : Run -> Config -> list ValidationError -> BaseRule -> Prop),
              (exists mid r2 rest st2 c2 found2,
                 rules = mid ++ r2 :: rest
                 /\ run df mid st' = Return st2
                 /\ is_applicable r2 df (run_config st2) = Return true
                 /\ validate r2 df (run_config st2) = (c2, Return found2)
                 /\ P st2 c2 found2 r2) ->
              exists mid r2 rest st2 c2 found2,
                r :: rules = mid ++ r2 :: rest
                /\ run df mid st = Return st2
                /\ is_applicable r2 df (run_config st2) = Return true
                /\ validate r2 df (run_config st2) = (c2, Return found2)
                /\ P st2 c2 found2 r2).
    { intros P [mid [r2 [rest [st2 [c2 [found2 [Hsplit [Hmid Hrest]]]]]]]].
      exists (r :: mid), r2, rest, st2, c2, found2. split.
      - cbn [app]. now rewrite Hsplit.
      - split; [|exact Hrest]. cbn [run]. rewrite Hturn. exact Hmid. }
    destruct (execute_cases st st' r Hturn)
      as [[Happ ->]|[[Happ [c [f [Hval ->]]]]|[Happ [c [e [Hval ->]]]]]];
      cbn [record_skipped record_executed run_result errors rules_executed]
        in Herr, Hex.
    + exists found, executed. split; [exact Herr|]. split; [exact Hex|]. split.
      * intros x Hx.
        apply (Hlater (fun _ _ found2 _ => In x found2)). now apply Hfound.
      * intros rid Hrid.
        apply (Hlater (fun _ _ _ r2 => rule_key r2 = rid)). now apply Hexecuted.
    + exists (f ++ found), (rule_key r :: executed).
      split; [now rewrite Herr, <- app_assoc|].
      split; [now rewrite Hex, <- app_assoc|]. split.
      * intros x Hx. apply in_app_or in Hx as [Hx|Hx].
        -- exists [], r, rules, st, c, f. repeat split; trivial.
        -- apply (Hlater (fun _ _ found2 _ => In x found2)). now apply Hfound.
      * intros rid [<-|Hrid].
        -- exists [], r, rules, st, c, f. repeat split; trivial.
        -- apply (Hlater (fun _ _ _ r2 => rule_key r2 = rid)).
           now apply Hexecuted.
    + exists found, executed. split; [exact Herr|]. split; [exact Hex|]. split.
      * intros x Hx.
        apply (Hlater (fun _ _ found2 _ => In x found2)). now apply Hfound.
      * intros rid Hrid.
        apply (Hlater (fun _ _ _ r2 => rule_key r2 = rid)). now apply Hexecuted.
Qed.

(** The outcome of the turn of one rule of the list shows in the result of
    the run: an inapplicable rule is skipped; an applicable rule whose
    [validate] returns is executed and its findings are in the result, in
    one piece; one whose [validate] raises is skipped and the diagnostic
    is printed. *)
Lemma run_turn_shows (pre post : list BaseRule) (r : BaseRule)
  (st st1 final : Run) :
  run df (pre ++ r :: post) st = Return final ->
  run df pre st = Return st1 ->
  (is_applicable r df (run_config st1) = Return false
   /\ In (rule_key r) (rules_skipped (run_result final)))
  \/ (is_applicable r df (run_config st1) = Return true
      /\ exists c outcome,
           validate r df (run_config st1) = (c, outcome)
           /\ match outcome with
              | Return found =>
                In (rule_key r) (rules_executed (run_result final))
                /\ exists l1 l2,
                     errors (run_result final)
                     = errors (run_result st) ++ l1 ++ found ++ l2
              | Raise e =>
                In (rule_key r) (rules_skipped (run_result final))
                /\ In (rule_key r, e) (run_stdout final)
              end).
Proof.
  intros Hrun Hpre.
  destruct (run_turn pre post r st final Hrun)
    as [st1' [st2 [Hpre' [Hturn Hpost]]]].
  rewrite Hpre in Hpre'. injection Hpre' as <-.
  destruct (run_extends pre st st1 Hpre) as [l1 [_ [_ [_ [Herr1 _]]]]].
  destruct (run_extends post st2 final Hpost)
    as [l2 [ex2 [sk2 [out2 [Herr2 [Hex2 [Hsk2 Hout2]]]]]]].
  destruct (execute_cases st1 st2 r Hturn)
    as [[Happ ->]|[[Happ [c [f [Hval ->]]]]|[Happ [c [e [Hval ->]]]]]];
    cbn [record_skipped record_executed run_result errors rules_executed
                        rules_skipped run_stdout] in *.
  - left. split; trivial. rewrite Hsk2. apply in_or_app. left.
    apply in_or_app. right. now left.
  - right. split; trivial. exists c, (Return f). split; trivial. split.
    + rewrite Hex2. apply in_or_app. left. apply in_or_app. right. now left.
    + exists l1, l2. now rewrite Herr2, Herr1, <- !app_assoc.
  - right. split; trivial. exists c, (Raise e). split; trivial. split.
    + rewrite Hsk2. apply in_or_app. left. apply in_or_app. right. now left.
    + rewrite Hout2. apply in_or_app. left. apply in_or_app. right. now left.
Qed.

(** A run ends with an exception only when an applicability check raises
    it: everything else is caught. *)
Lemma run_raises (rules : list BaseRule) (st : Run) (e : Exception) :
  run df rules st = Raise e ->
  exists pre r post st1,
    rules = pre ++ r :: post
    /\ run df pre st = Return st1
    /\ is_applicable r df (run_config st1) = Raise e.
Proof.
  revert st; induction rules as [|r rules IH]; intros st H; cbn [run] in H;
    [discriminate|].
  destruct (execute df st r) as [st'|e0] eqn:Hturn; cbn [bind] in H.
  - destruct (IH st' H) as [pre [r1 [post [st1 [Hsplit [Hpre Hraise]]]]]].
    exists (r :: pre), r1, post, st1. split; [cbn [app]; now rewrite Hsplit|].
    split; [|exact Hraise]. cbn [run]. now rewrite Hturn.
  - injection H as ->. exists [], r, rules, st. repeat split.
    unfold execute in Hturn.
    destruct (is_applicable r df (run_config st)) as [[|]|e1];
      cbn [bind] in Hturn.
    + destruct (validate r df (run_config st)) as [c [found|e2]];
        discriminate.
    + discriminate.
    + now injection Hturn as ->.
Qed.

End Turns.

(* ================================================================== *)
(** * Fault isolation *)

(** C1, as the code has it.  Take any registry, dataset, configuration and
    selection whose applicability checks return, and any rule [r] of the
    selected list, [pre] being the rules before it and [post] those after
    it.  The rules before [r] leave a state [before]; if [r] is then
    applicable and its [validate] raises [e], the engine still returns a
    result [final], in which:
    - the id of [r] is among [rules_skipped] and the diagnostic for [r]
      and [e] was printed;
    - the findings are those collected before [r] followed by a list
      [later] that holds findings of the later rules only: each of its
      members was returned by the [validate] of a rule of [post] that was
      applicable at its turn;
    - every later rule that is applicable at its turn and whose [validate]
      returns is among [rules_executed], and its findings are in [later],
      in one piece;
    - the turn of [r] adds nothing to [rules_executed]: the executed ids
      are those recorded before [r] followed by ids of rules of [post]
      that were applicable and returned; so the id of [r] is not in
      [rules_executed] unless a rule of the selection other than this
      occurrence carries it. *)
Theorem rule_failure_is_isolated
  (registry : RuleRegistry) (df : DataFrame) (config : Config)
  (rule_ids : option (list string)) (pre post : list BaseRule) (r : BaseRule) :
  select_rules registry rule_ids = pre ++ r :: post ->
  applicability_returns df (pre ++ r :: post) ->
  exists before,
    run df pre (start (df_len df) config) = Return before /\
    forall config1 e,
      is_applicable r df (run_config before) = Return true ->
      validate r df (run_config before) = (config1, Raise e) ->
      exists final later executed_later,
        Engine_validate registry df config rule_ids = Return final
        /\ In (rule_key r) (rules_skipped (run_result final))
        /\ In (rule_key r, e) (run_stdout final)
        /\ errors (run_result final) = errors (run_result before) ++ later
        /\ (forall x, In x later ->
              exists mid r2 rest st2 c2 found2,
                post = mid ++ r2 :: rest
                /\ run df (pre ++ r :: mid) (start (df_len df) config)
                   = Return st2
                /\ is_applicable r2 df (run_config st2) = Return true
                /\ validate r2 df (run_config st2) = (c2, Return found2)
                /\ In x found2)
        /\ (forall mid r2 rest st2 c2 found2,
              post = mid ++ r2 :: rest ->
              run df (pre ++ r :: mid) (start (df_len df) config)
              = Return st2 ->
              is_applicable r2 df (run_config st2) = Return true ->
              validate r2 df (run_config st2) = (c2, Return found2) ->
              In (rule_key r2) (rules_executed (run_result final))
              /\ exists l1 l2, later = l1 ++ found2 ++ l2)
        /\ rules_executed (run_result final)
           = rules_executed (run_result before) ++ executed_later
        /\ (forall rid, In rid executed_later ->
              exists r2, In r2 post /\ rule_key r2 = rid)
        /\ (~ In (rule_key r) (map rule_key (pre ++ post)) ->
            ~ In (rule_key r) (rules_executed (run_result final))).
Proof.
  intros Hsel Happ.
  destruct (run_returns df pre (start (df_len df) config)) as [before Hbefore].
  { intros r' Hin. apply Happ, in_or_app. now left. }
  exists before; split; [exact Hbefore|].
  intros config1 e Hyes Hraise.
  destruct (run_returns df (pre ++ r :: post) (start (df_len df) config) Happ)
    as [final Hfinal].
  destruct (run_turn df pre post r _ final Hfinal)
    as [before' [failed [Hbefore' [Hturn Hpost]]]].
  rewrite Hbefore in Hbefore'. injection Hbefore' as <-.
  assert (Hfailed : failed = record_skipped before config1 [(rule_key r, e)]
                                            (rule_key r)).
  { unfold execute in Hturn. rewrite Hyes in Hturn. cbn [bind] in Hturn.
    rewrite Hraise in Hturn. now injection Hturn as <-. }
  assert (Hto : forall mid st2,
            run df (pre ++ r :: mid) (start (df_len df) config) = Return st2
            <-> run df mid failed = Return st2).
  { intros mid st2. rewrite run_app, Hbefore. cbn [bind run].
    unfold execute at 1. rewrite Hyes. cbn [bind]. rewrite Hraise.
    cbn [bind]. fold (rule_key r). now rewrite <- Hfailed. }
  destruct (run_appends_sound df post failed final Hpost)
    as [later [executed_later [Herr [Hex [Hsound Hids]]]]].
  destruct (run_extends df post failed final Hpost)
    as [_ [_ [skipped [printed [_ [_ [Hsk Hout]]]]]]].
  rewrite Hfailed in Herr, Hex, Hsk, Hout.
  cbn [record_skipped run_result errors rules_executed rules_skipped
                      run_stdout] in Herr, Hex, Hsk, Hout.
  exists final, later, executed_later.
  split; [unfold Engine_validate; now rewrite Hsel|].
  split; [rewrite Hsk; apply in_or_app; left; apply in_or_app; right; now left|].
  split; [rewrite Hout; apply in_or_app; left; apply in_or_app; right; now left|].
  split; [exact Herr|].
  split.
  { intros x Hx.
    destruct (Hsound x Hx)
      as [mid [r2 [rest [st2 [c2 [found2 [Hsplit [Hmid Hrest]]]]]]]].
    exists mid, r2, rest, st2, c2, found2. split; [exact Hsplit|].
    split; [now apply Hto|exact Hrest]. }
  split.
  { intros mid r2 rest st2 c2 found2 Hsplit Hmid Hyes2 Hval2.
    apply Hto in Hmid. rewrite Hsplit in Hpost.
    destruct (run_turn_shows df mid rest r2 failed st2 final Hpost Hmid)
      as [[Hno _]|[_ [c [outcome [Hval Hshown]]]]]; [congruence|].
    rewrite Hval2 in Hval. injection Hval as <- <-.
    destruct Hshown as [Hin [l1 [l2 Heq]]]. split; [exact Hin|].
    exists l1, l2. rewrite Hfailed in Heq.
    cbn [record_skipped run_result errors] in Heq. rewrite Herr in Heq.
    now apply app_inv_head in Heq. }
  split; [exact Hex|].
  assert (Hamong : forall rid, In rid executed_later ->
            exists r2, In r2 post /\ rule_key r2 = rid).
  { intros rid Hrid.
    destruct (Hids rid Hrid) as [mid [r2 [rest [_ [_ [_ [Hsplit [_ [_ [_ Hkey]]]]]]]]]].
    exists r2. split; [|exact Hkey]. rewrite Hsplit. apply in_or_app.
    right. now left. }
  split; [exact Hamong|].
  intros Hfresh Hin. rewrite Hex in Hin. apply Hfresh.
  rewrite map_app. apply in_or_app. apply in_app_or in Hin as [Hin|Hin].
  - left.
    destruct (run_executed_among df pre _ _ Hbefore _ Hin) as [[]|H]; exact H.
  - right. destruct (Hamong _ Hin) as [r2 [Hr2 <-]]. now apply in_map.
Qed.

Lemma rule_failure_is_isolated_witness :
  exists final,
    Engine_validate create_default_registry overflow_df plain_config
                    (Some ["R-ADDR-02"; "R-ADDR-05"]) = Return final
    /\ In "R-ADDR-02" (rules_skipped (run_result final))
    /\ ~ In "R-ADDR-02" (rules_executed (run_result final))
    /\ In ("R-ADDR-02", OverflowError) (run_stdout final)
    /\ In "R-ADDR-05" (rules_executed (run_result final))
    /\ In (StreetFormatRule.finding "strasse" 0 (CStr "12")
             "Strasse ist nur numerisch: '12'")
          (errors (run_result final)).
Proof.
  destruct (rule_failure_is_isolated
              create_default_registry overflow_df plain_config
              (Some ["R-ADDR-02"; "R-ADDR-05"])
              [] [StreetFormatRule.rule] PLZFormatRule.rule)
    as [before [Hbefore Hthen]].
  - reflexivity.
  - intros r [<-|[<-|[]]] c; eexists; reflexivity.
  - cbn [run] in Hbefore. injection Hbefore as <-.
    destruct (Hthen plain_config OverflowError)
      as [final [later [executed_later
            [Hfinal [Hskip [Hout [Herr [_ [Hcomplete [_ [_ Hnot]]]]]]]]]]].
    + reflexivity.
    + vm_compute. reflexivity.
    + destruct (Hcomplete
                  [] StreetFormatRule.rule []
                  (record_skipped (start (df_len overflow_df) plain_config)
                                  plain_config
                                  [("R-ADDR-02", OverflowError)] "R-ADDR-02")
                  plain_config
                  [StreetFormatRule.finding "strasse" 0 (CStr "12")
                     "Strasse ist nur numerisch: '12'"])
        as [Hexecuted [l1 [l2 Hlater]]].
      * reflexivity.
      * vm_compute. reflexivity.
      * reflexivity.
      * vm_compute. reflexivity.
      * exists final. split; [exact Hfinal|]. split; [exact Hskip|].
        split; [apply Hnot; cbn; intros [H|[]]; discriminate H|].
        split; [exact Hout|]. split; [exact Hexecuted|].
        rewrite Herr, Hlater. apply in_or_app. right. apply in_or_app. right.
        now left.
Defined.

(** C1, the claim as worded: the id of a rule whose [validate] raised can
    be in [rules_executed] as well.  The custom rule reads the first
    declared numeric column; the selection names it twice, around the data
    type rule.  On its first turn the list is empty and it raises, so its
    id is recorded as skipped; the data type rule then appends the mapped
    column to the list, as it does for a list held by the configuration;
    on its second turn the custom rule returns, and its id is recorded as
    executed. *)
Lemma failed_rule_id_is_also_executed :
  select_rules custom_registry
               (Some ["R-CUSTOM-01"; "R-GEN-03"; "R-CUSTOM-01"])
  = [DeclaredNumericColumnsRule.rule; DataTypeConsistencyRule.rule;
     DeclaredNumericColumnsRule.rule]
  /\ is_applicable DeclaredNumericColumnsRule.rule upper_df numeric_config
     = Return true
  /\ validate DeclaredNumericColumnsRule.rule upper_df numeric_config
     = (numeric_config, Raise (RuntimeError "IndexError"))
  /\ exists final,
       Engine_validate custom_registry upper_df numeric_config
                       (Some ["R-CUSTOM-01"; "R-GEN-03"; "R-CUSTOM-01"])
       = Return final
       /\ rules_skipped (run_result final) = ["R-CUSTOM-01"]
       /\ rules_executed (run_result final) = ["R-GEN-03"; "R-CUSTOM-01"]
       /\ run_stdout final = [("R-CUSTOM-01", RuntimeError "IndexError")].
Proof.
  split; [reflexivity|]. split; [reflexivity|]. split; [reflexivity|].
  eexists. split; [vm_compute; reflexivity|]. repeat split.
Qed.

(** Only [validate] is inside the [try]: an applicability check that
    raises after a rule has failed ends the call with its exception, and
    no result is returned. *)
Lemma raising_applicability_check_aborts :
  validate PLZFormatRule.rule overflow_df plain_config
  = (plain_config, Raise OverflowError)
  /\ Engine_validate custom_registry overflow_df plain_config
                     (Some ["R-ADDR-02"; "R-CUSTOM-02"])
     = Raise (RuntimeError "KeyError").
Proof.
  split; vm_compute; reflexivity.
Qed.

(* ================================================================== *)
(** * The empty selection *)

Lemma dict_get_present {V : Type} (d : Dict V) (k : string) :
  In k (dict_keys d) <-> dict_get d k <> None.
Proof.
  unfold dict_keys. induction d as [|[k' v] d IH]; cbn [map fst In dict_get].
  - split; [contradiction|congruence].
  - destruct (String.eqb k' k) eqn:E.
    + apply String.eqb_eq in E. split; [discriminate|now left].
    + rewrite <- IH. split; [intros [H|H]; trivial|now right].
      subst. now rewrite String.eqb_refl in E.
Qed.

(** The ids a registry filled by [register] answers to are the ids of the
    rules registered. *)
Lemma registered_ids (rules : list BaseRule) (rid : string) :
  get_rule (fold_left register rules empty_registry) rid <> None
  <-> In rid (map rule_key rules).
Proof.
  rewrite registered_lookup. unfold get_rule, empty_registry.
  cbn [dict_get].
  destruct (find (fun r => String.eqb (rule_key r) rid) (rev rules))
    as [r|] eqn:E.
  - apply find_some in E as [Hin Heq]. apply String.eqb_eq in Heq.
    split; [intros _|discriminate]. subst rid. apply in_map.
    now apply in_rev.
  - split; [congruence|]. intro Hin. apply in_map_iff in Hin as [r [Hkey Hin]].
    apply in_rev in Hin. apply (find_none _ _ E) in Hin. cbv beta in Hin.
    rewrite Hkey, String.eqb_refl in Hin. discriminate.
Qed.

(** C10. An empty selection is an absent one, and what both run is every
    registered rule.  Take the registry that registering [rules] one after
    the other leaves: under the id of each of them it holds a rule of the
    list (the one registered last under that id).  The two calls are the
    same computation.  The call
    ends with an exception only when the applicability check of a
    registered rule raises it at the turn of that rule.  As long as the
    applicability check of every registered rule returns, the call
    returns a result in which
    - no id is recorded twice, and the ids recorded, as executed or as
      skipped, are the ids of the rules registered;
    - every registered rule had its turn, after the rules before it in the
      registry: its applicability was checked in the state they left, and
      either it was not applicable and its id is skipped, or its
      [validate] was called: the findings it returned are in the result,
      in one piece, and its id is executed, or it raised, its id is
      skipped and the diagnostic was printed. *)
Theorem empty_selection_runs_every_rule
  (rules : list BaseRule) (df : DataFrame) (config : Config) :
  let registry := fold_left register rules empty_registry in
  Engine_validate registry df config (Some []) =
    Engine_validate registry df config None
  /\ (forall r, In r rules ->
        exists r', In r' rules /\ get_rule registry (rule_key r) = Some r')
  /\ ((forall rid r, get_rule registry rid = Some r ->
         forall c, exists b, is_applicable r df c = Return b) ->
      exists final,
        Engine_validate registry df config (Some []) = Return final
        /\ NoDup (rules_executed (run_result final)
                  ++ rules_skipped (run_result final))
        /\ (forall rid,
              In rid (rules_executed (run_result final)
                      ++ rules_skipped (run_result final))
              <-> In rid (map rule_key rules))
        /\ forall rid r,
             get_rule registry rid = Some r ->
             exists pre post st,
               get_all_rules registry = pre ++ r :: post
               /\ run df pre (start (df_len df) config) = Return st
               /\ ((is_applicable r df (run_config st) = Return false
                    /\ In rid (rules_skipped (run_result final)))
                   \/ (is_applicable r df (run_config st) = Return true
                       /\ exists c outcome,
                            validate r df (run_config st) = (c, outcome)
                            /\ match outcome with
                               | Return found =>
                                 In rid (rules_executed (run_result final))
                                 /\ exists l1 l2,
                                      errors (run_result final)
                                      = l1 ++ found ++ l2
                               | Raise e =>
                                 In rid (rules_skipped (run_result final))
                                 /\ In (rid, e) (run_stdout final)
                               end)))
  /\ (forall e,
        Engine_validate registry df config (Some []) = Raise e ->
        exists rid r pre post st,
          get_rule registry rid = Some r
          /\ get_all_rules registry = pre ++ r :: post
          /\ run df pre (start (df_len df) config) = Return st
          /\ is_applicable r df (run_config st) = Raise e).
Proof.
  intro registry. split; [reflexivity|].
  assert (Hkeyed : well_keyed registry).
  { apply registered_well_keyed. split; constructor. }
  split.
  { intros r Hin. unfold registry. rewrite registered_lookup.
    destruct (find (fun r0 => String.eqb (rule_key r0) (rule_key r))
                   (rev rules)) as [r'|] eqn:E.
    - exists r'. split; [|reflexivity].
      apply find_some in E as [Hin' _]. now apply in_rev.
    - apply in_rev in Hin. apply (find_none _ _ E) in Hin. cbv beta in Hin.
      rewrite String.eqb_refl in Hin. discriminate. }
  split; [intro Happ|].
  2:{ intros e Hraise.
      destruct (run_raises df _ _ _ Hraise)
        as [pre [r [post [st [Hsplit [Hpre Hcheck]]]]]].
      exists (rule_key r), r, pre, post, st.
      split; [|now repeat split].
      assert (Hin : In r (get_all_rules registry)).
      { cbn [select_rules] in Hsplit. rewrite Hsplit. apply in_or_app.
        right. now left. }
      unfold get_all_rules, dict_values in Hin.
      apply in_map_iff in Hin as [[k r'] [Hr Hin]]. cbn [snd] in Hr. subst r'.
      pose proof (proj2 Hkeyed) as Hkeys. rewrite Forall_forall in Hkeys.
      specialize (Hkeys _ Hin). cbn [fst snd] in Hkeys. subst k.
      apply In_dict_get; [exact (proj1 Hkeyed)|exact Hin]. }
  assert (Hall : applicability_returns df (get_all_rules registry)).
  { intros r Hin c. unfold get_all_rules, dict_values in Hin.
    apply in_map_iff in Hin as [[k r'] [Hr Hin]]. cbn [snd] in Hr. subst r'.
    apply (Happ k r). apply In_dict_get; [exact (proj1 Hkeyed)|exact Hin]. }
  destruct (run_returns df (get_all_rules registry)
                        (start (df_len df) config) Hall) as [final Hfinal].
  pose proof (run_records df _ _ _ Hfinal) as Hperm.
  cbn [start run_result rules_executed rules_skipped app] in Hperm.
  rewrite <- (well_keyed_ids registry Hkeyed) in Hperm.
  exists final. split; [exact Hfinal|]. split.
  { apply (Permutation_NoDup (Permutation_sym Hperm)). exact (proj1 Hkeyed). }
  split.
  { intro rid. rewrite <- registered_ids. fold registry.
    unfold get_rule. rewrite <- dict_get_present. fold (get_rule_ids registry).
    split; intro H.
    - exact (Permutation_in _ Hperm H).
    - exact (Permutation_in _ (Permutation_sym Hperm) H). }
  intros rid r Hget.
  pose proof (well_keyed_lookup registry rid r Hkeyed Hget) as Hkey.
  destruct (in_split _ _ (dict_get_among _ _ _ Hget)) as [pre [post Hsplit]].
  fold (get_all_rules registry) in Hsplit.
  destruct (run_returns df pre (start (df_len df) config)) as [st Hst].
  { intros r' Hin. apply Hall. rewrite Hsplit. apply in_or_app. now left. }
  exists pre, post, st. split; [exact Hsplit|]. split; [exact Hst|].
  rewrite Hsplit in Hfinal.
  destruct (run_turn_shows df pre post r _ st final Hfinal Hst)
    as [Hno|[Hyes [c [outcome [Hval Hshown]]]]]; rewrite Hkey in *.
  - now left.
  - right. split; [exact Hyes|]. exists c, outcome. split; [exact Hval|].
    destruct outcome as [found|e]; exact Hshown.
Qed.

Lemma empty_selection_runs_every_rule_witness :
  exists final,
    Engine_validate create_default_registry egid_df plain_config (Some [])
    = Return final
    /\ forall r, In r ALL_RULES ->
         In (rule_key r) (rules_executed (run_result final)
                          ++ rules_skipped (run_result final)).
Proof.
  destruct (proj1 (proj2 (proj2 (empty_selection_runs_every_rule
                                   ALL_RULES egid_df plain_config))))
    as [final [Hfinal [_ [Hids _]]]].
  - intros rid r Hget c. apply dict_get_among in Hget. simpl in Hget.
    repeat (destruct Hget as [<-|Hget]; [eexists; reflexivity|]).
    contradiction.
  - exists final. split; [exact Hfinal|].
    intros r Hin. apply Hids. now apply in_map.
Defined.
